(** * Model matching and cost estimation: a shallow embedding

    The Go programs of the repository (find-models, list-models,
    model-info, cost-calculator, model-selector and chat-bot) are embedded
    as Rocq functions, one module per program or part of a program,
    followed by the properties proved about them.

    - [float64] is the primitive binary64 type [float]: every Go float
      operation is the corresponding primitive operation, so the functions
      below compute bit for bit what the Go code computes.
    - [int64] and [int] are [Z]; where the code adds them the 64-bit
      wrap-around is written out.
    - slices are lists; a nil slice and an empty slice are both [[]].
    - strings are strings of bytes, and the functions of Go's [strings]
      package are given on ASCII.
    - terminal output ([fmt.Print...]) is not part of the state and is left
      out; what a rendering function writes into the state is kept. *)

From Stdlib Require Import ZArith List Bool String Ascii Floats Lia.
From Stdlib Require Import Permutation Sorted.
Import ListNotations.

#[local] Set Warnings "-inexact-float".
#[local] Open Scope Z_scope.

(** ** float64 *)

Module F64.

(** Go's [a > b] and [a >= b]. *)
Definition gtb (a b : float) : bool := (b <? a)%float.
Definition geb (a b : float) : bool := (b <=? a)%float.

(** [float64(n)] for an [int64] or [int] value [n]: the nearest binary64
    value, ties to even. *)
Definition of_int (n : Z) : float :=
  if 0 <=? n then of_uint63 (Uint63.of_Z n)
  else if n =? - 2 ^ 63 then (-0x1p63)%float
  else (- of_uint63 (Uint63.of_Z (- n)))%float.

(** [math.Min], with its special cases in source order. *)
Definition Min (x y : float) : float :=
  if (x =? neg_infinity)%float || (y =? neg_infinity)%float then neg_infinity
  else if is_nan x || is_nan y then nan
  else if (x =? 0)%float && (x =? y)%float then
    (if get_sign x then x else y)
  else if (x <? y)%float then x else y.

(** A float that is a number. *)
Definition not_nan (x : float) : Prop := is_nan x = false.

(** A float that is a number and neither infinity. *)
Definition finite (x : float) : Prop :=
  is_nan x = false /\ is_infinity x = false.

End F64.

(** 64-bit two's complement wrap-around of an integer result. *)
Definition wrap64 (n : Z) : Z := (n + 2 ^ 63) mod 2 ^ 64 - 2 ^ 63.

(** [Subseq l' l]: [l'] is [l] with some elements left out, the others
    unchanged and in their order. *)
Inductive Subseq {A : Type} : list A -> list A -> Prop :=
| Subseq_nil : Subseq [] []
| Subseq_keep (x : A) (l' l : list A) : Subseq l' l -> Subseq (x :: l') (x :: l)
| Subseq_drop (x : A) (l' l : list A) : Subseq l' l -> Subseq l' (x :: l).

(** ** The catalog types *)

Module catwalk.

(** Modelled from the spec: the catalog package [pkg/catwalk] declares
    [Model]; these are the fields the programs read (spec, section 3). *)
Record Model := {
  ID : string;
  Name : string;
  CostPer1MIn : float;
  CostPer1MOut : float;
  CostPer1MInCached : float;
  CostPer1MOutCached : float;
  ContextWindow : Z;
  DefaultMaxTokens : Z;
  CanReason : bool;
  SupportsImages : bool
}.

(** Modelled from the spec: [Provider] of the catalog package, with its
    ordered list of models (spec, section 3). *)
Record Provider := {
  PID : string;
  PName : string;
  DefaultLargeModelID : string;
  Models : list Model
}.

End catwalk.

(** ** Go's [strings] package, on ASCII *)

Module strings.

Definition lowerByte (c : ascii) : ascii :=
  let n := nat_of_ascii c in
  if ((65 <=? n) && (n <=? 90))%nat then ascii_of_nat (n + 32) else c.

Fixpoint ToLower (s : string) : string :=
  match s with
  | EmptyString => EmptyString
  | String c r => String (lowerByte c) (ToLower r)
  end.

Definition EqualFold (s t : string) : bool :=
  String.eqb (ToLower s) (ToLower t).

Definition HasPrefix (s pre : string) : bool := String.prefix pre s.

Fixpoint Contains (s substr : string) : bool :=
  String.prefix substr s ||
  match s with
  | EmptyString => false
  | String _ r => Contains r substr
  end.

Definition isSpace (c : ascii) : bool :=
  let n := nat_of_ascii c in
  ((n =? 32) || ((9 <=? n) && (n <=? 13)))%nat.

Fixpoint trimLeft (s : string) : string :=
  match s with
  | EmptyString => EmptyString
  | String c r => if isSpace c then trimLeft r else s
  end.

Fixpoint trimRight (s : string) : string :=
  match s with
  | EmptyString => EmptyString
  | String c r =>
      match trimRight r with
      | EmptyString => if isSpace c then EmptyString else String c EmptyString
      | r' => String c r'
      end
  end.

Definition TrimSpace (s : string) : string := trimRight (trimLeft s).

(** Every byte is below 128. On such strings the functions above are
    Go's; on other strings Go's also fold and trim Unicode letters and
    white space, which the functions above leave alone. *)
Fixpoint isASCII (s : string) : bool :=
  match s with
  | EmptyString => true
  | String c r => (nat_of_ascii c <? 128)%nat && isASCII r
  end.

End strings.

(** ** Catalogs written in ASCII *)

Module Catalog.
Import catwalk.

(** The strings the lookups compare: the ID and the name of a model, the
    ID of a provider. *)
Definition asciiModel (m : Model) : bool :=
  strings.isASCII (ID m) && strings.isASCII (Name m).

Definition asciiProvider (p : Provider) : bool :=
  strings.isASCII (PID p) && forallb asciiModel (Models p).

Definition ascii (providers : list Provider) : bool :=
  forallb asciiProvider providers.

End Catalog.

(** ** Go's [sort.Slice] *)

Module sort.

(** [sort.Slice(x, less)] reorders the slice [x] in place. It is library
    code: an implementation is any function from the comparison and the
    contents of the slice to the reordered contents. *)
Definition SliceFn : Type := forall A : Type, (A -> A -> bool) -> list A -> list A.

(** The requirement the library puts on [less]: a transitive ordering,
    here on the elements of the slice being sorted. *)
Definition Transitive {A : Type} (less : A -> A -> bool) (l : list A) : Prop :=
  (forall a, In a l -> less a a = false) /\
  (forall a b c, In a l -> In b l -> In c l ->
     less a b = true -> less b c = true -> less a c = true) /\
  (forall a b c, In a l -> In b l -> In c l ->
     less a b = false -> less b c = false -> less a c = false).

(** No element is followed, anywhere later, by one that must come before. *)
Definition Ordered {A : Type} (less : A -> A -> bool) (l : list A) : Prop :=
  StronglySorted (fun a b => less b a = false) l.

(** What the library documents of [sort.Slice]: the result holds the same
    elements and is in order; nothing is promised about equal elements
    ("the sort is not guaranteed to be stable"). *)
Definition Sorts (f : SliceFn) : Prop :=
  forall (A : Type) (less : A -> A -> bool) (l : list A),
    Permutation (f A less l) l /\
    (Transitive less l -> Ordered less (f A less l)).

(** Elements that [less] does not tell apart. *)
Definition tied {A : Type} (less : A -> A -> bool) (a b : A) : bool :=
  negb (less a b) && negb (less b a).

(** A reordering [l'] of [l] is stable when every group of tied elements
    appears in [l'] in the order it has in [l]. *)
Definition Stable {A : Type} (less : A -> A -> bool) (l l' : list A) : Prop :=
  forall a, filter (tied less a) l' = filter (tied less a) l.

(** Insertion sort as the inner loops write it: the element at [i] moves
    left while it is less than its left neighbour. [sortedRev] is the
    sorted prefix, last element first. *)
Fixpoint insertLeft {A : Type} (less : A -> A -> bool) (x : A)
    (sortedRev : list A) : list A :=
  match sortedRev with
  | [] => [x]
  | y :: rest =>
      if less x y then y :: insertLeft less x rest else x :: sortedRev
  end.

(** The sorted prefix read from its last element: no element is less than
    one that follows it in this reading. *)
Definition Descending {A : Type} (less : A -> A -> bool) (l : list A) : Prop :=
  StronglySorted (fun a b => less a b = false) l.

Definition insertionSort : SliceFn :=
  fun A less l => rev (fold_left (fun acc x => insertLeft less x acc) l []).

(** A second implementation: the same sort run on the reversed slice. *)
Definition reversingSort : SliceFn :=
  fun A less l => insertionSort A less (rev l).

End sort.

(** ** find-models: the filter and the simple scoring policy *)

Module FindModels.
Import catwalk.

Record modelMatch := {
  model : Model;
  provider : Provider;
  score : float
}.

(** The body of the loop of [filterModels]: its four [continue] tests in
    source order; [true] when the candidate reaches the [append]. *)
Definition keeps (maxCost : float) (minContext : Z) (reasoning vision : bool)
    (mm : modelMatch) : bool :=
  if F64.gtb maxCost 0 && F64.gtb (CostPer1MIn (model mm)) maxCost then false
  else if (minContext >? 0) && (ContextWindow (model mm) <? minContext) then false
  else if reasoning && negb (CanReason (model mm)) then false
  else if vision && negb (SupportsImages (model mm)) then false
  else true.

Fixpoint filterModels (models : list modelMatch) (maxCost : float)
    (minContext : Z) (reasoning vision : bool) : list modelMatch :=
  match models with
  | [] => []
  | mm :: rest =>
      if keeps maxCost minContext reasoning vision mm
      then mm :: filterModels rest maxCost minContext reasoning vision
      else filterModels rest maxCost minContext reasoning vision
  end.

(** The score the loop of [scoreModels] computes for one model. *)
Definition simpleScore (m : Model) : float :=
  let score := 100%float in
  let score :=
    if F64.gtb (CostPer1MIn m) 0
    then (score - F64.Min (CostPer1MIn m / 10) 50)%float
    else score in
  let score :=
    if ContextWindow m >=? 200000 then (score + 20)%float
    else if ContextWindow m >=? 100000 then (score + 10)%float
    else score in
  let score := if CanReason m then (score + 15)%float else score in
  let score := if SupportsImages m then (score + 10)%float else score in
  score.

Definition setScore (mm : modelMatch) : modelMatch :=
  {| model := model mm; provider := provider mm;
     score := simpleScore (model mm) |}.

(** The comparison handed to [sort.Slice]: descending by score. *)
Definition byScore (a b : modelMatch) : bool := F64.gtb (score a) (score b).

(** [scoreModels]: every element is scored in place, then the slice is
    sorted by the library. *)
Definition scoreModels (slice : sort.SliceFn) (models : list modelMatch)
    : list modelMatch :=
  slice modelMatch byScore (map setScore models).

(** The predicates of the filter engine as the specification words
    them, AND-combined: "cost <= budget (skipped if budget <= 0); context
    window >= minimum (skipped if minimum <= 0); reasoning-required =>
    candidate must have reasoning capability; vision-required =>
    candidate must support vision". *)
Definition passes (budget : float) (minimum : Z)
    (reasoningRequired visionRequired : bool) (m : Model) : bool :=
  ((budget <=? 0)%float || (CostPer1MIn m <=? budget)%float) &&
  ((minimum <=? 0) || (ContextWindow m >=? minimum)) &&
  implb reasoningRequired (CanReason m) &&
  implb visionRequired (SupportsImages m).

End FindModels.

(** ** cost-calculator *)

Module CostCalculator.
Import catwalk.

Record costResult := {
  Model_ : string;
  Provider_ : string;
  InputCost : float;
  OutputCost : float;
  TotalCost : float
}.

Record scenario := {
  sModel : string;
  sInputTokens : Z;
  sOutputTokens : Z;
  sCachedRatio : float
}.

(** The test of the inner loop of [calculateCost]. *)
Definition matches (modelName : string) (m : Model) : bool :=
  strings.EqualFold (ID m) modelName ||
  strings.Contains (strings.ToLower (Name m)) (strings.ToLower modelName).

(** The two nested loops: the first model that matches, in provider order
    and then in model order, with its provider. *)
Fixpoint findModel (providers : list Provider) (modelName : string)
    : option (Model * Provider) :=
  match providers with
  | [] => None
  | p :: rest =>
      match find (matches modelName) (Models p) with
      | Some m => Some (m, p)
      | None => findModel rest modelName
      end
  end.

(** [calculateCost]; [None] is the nil result. *)
Definition calculateCost (providers : list Provider) (modelName : string)
    (inputTokens outputTokens : Z) (cachedRatio : float) : option costResult :=
  match findModel providers modelName with
  | None => None
  | Some (model, provider) =>
      let cachedInputTokens := (F64.of_int inputTokens * cachedRatio)%float in
      let uncachedInputTokens :=
        (F64.of_int inputTokens * (1 - cachedRatio))%float in
      let inputCost :=
        ((uncachedInputTokens * CostPer1MIn model / 1000000) +
         (cachedInputTokens * CostPer1MInCached model / 1000000))%float in
      let outputCost :=
        (F64.of_int outputTokens * CostPer1MOut model / 1000000)%float in
      Some {| Model_ := Name model; Provider_ := PName provider;
              InputCost := inputCost; OutputCost := outputCost;
              TotalCost := (inputCost + outputCost)%float |}
  end.

(** The comparison of [compareModels]: ascending by total cost. *)
Definition byTotal (a b : costResult) : bool :=
  (TotalCost a <? TotalCost b)%float.

(** The results [compareModels] hands to [displayCostResult] for the
    flag values [inputTokens], [outputTokens] and [cachedRatio]; an empty
    list is the "No models found." return. *)
Definition compareModels (slice : sort.SliceFn) (providers : list Provider)
    (inputTokens outputTokens : Z) (cachedRatio : float)
    (modelNames : list string) : list costResult :=
  let results :=
    fold_left
      (fun results name =>
         let name := strings.TrimSpace name in
         match calculateCost providers name inputTokens outputTokens cachedRatio with
         | Some result => results ++ [result]
         | None => results
         end)
      modelNames [] in
  match results with
  | [] => []
  | _ => slice costResult byTotal results
  end.

(** The three output functions. *)
Inductive outputKind := Table | JSON | CSV.

(** What [displayCostResult] does. *)
Inductive displayOutcome :=
| Written (kind : outputKind) (results : list costResult)
| DisplayFatal.                   (* log.Fatalf *)

(** A result the JSON encoder accepts: [encoding/json] refuses NaN and
    the infinities. *)
Definition encodable (r : costResult) : bool :=
  negb (is_nan (InputCost r)) && negb (is_infinity (InputCost r)) &&
  negb (is_nan (OutputCost r)) && negb (is_infinity (OutputCost r)) &&
  negb (is_nan (TotalCost r)) && negb (is_infinity (TotalCost r)).

(** [displayCostResult] for the value [outputFormat] of the flag: the
    switch on the lower-cased format, with the fatal exits of its default
    case and of [outputJSON] when the encoder returns an error. Writes to
    standard output are taken to succeed. *)
Definition displayCostResult (outputFormat : string)
    (results : list costResult) : displayOutcome :=
  let format := strings.ToLower outputFormat in
  if String.eqb format "json" then
    if forallb encodable results then Written JSON results else DisplayFatal
  else if String.eqb format "csv" then Written CSV results
  else if String.eqb format "table" then Written Table results
  else DisplayFatal.

(** How [processBatch] ends. *)
Inductive batchOutcome :=
| Fatal                               (* log.Fatalf *)
| NoValidScenarios                    (* "No valid scenarios found." *)
| Displayed (kind : outputKind) (results : list costResult).

(** The loop of [processBatch] over the decoded scenarios. *)
Definition batchResults (providers : list Provider) (scenarios : list scenario)
    : list costResult :=
  fold_left
    (fun results s =>
       match calculateCost providers (sModel s) (sInputTokens s)
               (sOutputTokens s) (sCachedRatio s) with
       | Some result => results ++ [result]
       | None => results
       end)
    scenarios [].

(** [processBatch]; [outputFormat] is the value of the flag and
    [decoded] what [os.ReadFile] and [json.Unmarshal] produced, [None]
    when either failed. *)
Definition processBatch (providers : list Provider) (outputFormat : string)
    (decoded : option (list scenario)) : batchOutcome :=
  match decoded with
  | None => Fatal
  | Some scenarios =>
      match batchResults providers scenarios with
      | [] => NoValidScenarios
      | results =>
          match displayCostResult outputFormat results with
          | Written kind results => Displayed kind results
          | DisplayFatal => Fatal
          end
      end
  end.

(** The result of one scenario of a batch. *)
Definition scenarioCost (providers : list Provider) (s : scenario)
    : option costResult :=
  calculateCost providers (sModel s) (sInputTokens s) (sOutputTokens s)
    (sCachedRatio s).

(** "The CostResults of the scenarios whose models resolved, in scenario
    order". *)
Definition resolvedResults (providers : list Provider)
    (scenarios : list scenario) : list costResult :=
  flat_map
    (fun s => match scenarioCost providers s with
              | Some result => [result]
              | None => []
              end)
    scenarios.

(** The cost formula as the specification words it: [tokens] billed at
    [rate] dollars per million. *)
Definition billed (tokens rate : float) : float :=
  (tokens * rate / 1000000)%float.

(** "[cachedRatio * inputTokens] at the cached input rate and the
    remaining [(1 - cachedRatio) * inputTokens] at the standard input
    rate". *)
Definition specInputCost (m : Model) (inputTokens : Z) (cachedRatio : float)
    : float :=
  let cached := (cachedRatio * F64.of_int inputTokens)%float in
  let remaining := ((1 - cachedRatio) * F64.of_int inputTokens)%float in
  (billed remaining (CostPer1MIn m) + billed cached (CostPer1MInCached m))%float.

(** "All [outputTokens] at the standard output rate". *)
Definition specOutputCost (m : Model) (outputTokens : Z) : float :=
  billed (F64.of_int outputTokens) (CostPer1MOut m).

End CostCalculator.

(** ** model-selector: the requirement wizard *)

Module ModelSelector.
Import catwalk.

Record requirements := {
  budget : float;
  contextSize : Z;
  reasoning : bool;
  vision : bool
}.

Record modelScore := {
  ms_model : Model;
  ms_provider : Provider;
  ms_score : float;
  ms_reasons : list string
}.

Inductive step := stepBudget | stepContext | stepReasoning | stepVision | stepResults.

(** The position of a step in the [iota] enumeration. *)
Definition stepIndex (s : step) : nat :=
  match s with
  | stepBudget => 0 | stepContext => 1 | stepReasoning => 2
  | stepVision => 3 | stepResults => 4
  end.

(** The list component of the terminal library, reduced to what the wizard
    reads of it: how many rows it shows and the row under the cursor
    ([Index()]). *)
Record listModel := {
  rows : nat;
  Index : nat
}.

(** The wizard state, the struct [model] of the program. *)
Record model := {
  allModels : list modelScore;
  m_step : step;
  m_requirements : requirements;
  m_list : listModel;
  choices : list string
}.

(** What an update hands back to the event loop besides the new state. *)
Inductive cmd := cmdNone | cmdQuit.

Definition newList (n : nat) : listModel := {| rows := n; Index := 0%nat |}.

(** Cursor movement of the list component: one row up or down, staying
    within the rows. *)
Definition cursorUp (l : listModel) : listModel :=
  {| rows := rows l; Index := Nat.pred (Index l) |}.
Definition cursorDown (l : listModel) : listModel :=
  {| rows := rows l;
     Index := if (S (Index l) <? rows l)%nat then S (Index l) else Index l |}.

Definition noRequirements : requirements :=
  {| budget := 0; contextSize := 0; reasoning := false; vision := false |}.

Definition initialModel (all : list modelScore) : model :=
  {| allModels := all; m_step := stepBudget; m_requirements := noRequirements;
     m_list := newList 6;
     choices := ["0"; "0.5"; "1.0"; "5.0"; "10.0"; "1000"]%string |}.

(** [parseBudget] and [parseContext]; the caller drops the error, so the
    default case is the zero value. *)
Definition parseBudget (s : string) : float :=
  if String.eqb s "0" then 0%float
  else if String.eqb s "0.5" then 0.5%float
  else if String.eqb s "1.0" then 1%float
  else if String.eqb s "5.0" then 5%float
  else if String.eqb s "10.0" then 10%float
  else if String.eqb s "1000" then 1000%float
  else 0%float.

Definition parseContext (s : string) : Z :=
  if String.eqb s "0" then 0
  else if String.eqb s "32000" then 32000
  else if String.eqb s "100000" then 100000
  else if String.eqb s "200000" then 200000
  else if String.eqb s "400000" then 400000
  else 0.

(** The body of the loop of [calculateScores] for one element: the score
    and the reasons it stores. *)
Definition scoreOne (req : requirements) (m : Model) : float * list string :=
  let score := 100%float in
  let reasons : list string := [] in
  let '(score, reasons) :=
    if F64.gtb (budget req) 0 && F64.gtb (CostPer1MIn m) (budget req)
    then ((score - 100)%float, reasons ++ ["Over budget"%string])
    else if (CostPer1MIn m <=? budget req / 2)%float
    then ((score + 30)%float, reasons ++ ["Well under budget"%string])
    else (score, reasons) in
  let '(score, reasons) :=
    if ContextWindow m >=? contextSize req
    then ((score + 20)%float, reasons ++ ["Meets context requirement"%string])
    else if ContextWindow m <? contextSize req
    then ((score - 50)%float, reasons ++ ["Below context requirement"%string])
    else (score, reasons) in
  let '(score, reasons) :=
    if reasoning req then
      if CanReason m
      then ((score + 25)%float, reasons ++ ["Has reasoning"%string])
      else ((score - 50)%float, reasons ++ ["No reasoning"%string])
    else (score, reasons) in
  let '(score, reasons) :=
    if vision req then
      if SupportsImages m
      then ((score + 25)%float, reasons ++ ["Has vision"%string])
      else ((score - 50)%float, reasons ++ ["No vision"%string])
    else (score, reasons) in
  (score, reasons).

Definition rescore (req : requirements) (mm : modelScore) : modelScore :=
  {| ms_model := ms_model mm; ms_provider := ms_provider mm;
     ms_score := fst (scoreOne req (ms_model mm));
     ms_reasons := snd (scoreOne req (ms_model mm)) |}.

(** The comparison handed to [sort.Slice]: descending by score. *)
Definition byScore (a b : modelScore) : bool :=
  F64.gtb (ms_score a) (ms_score b).

(** [calculateScores]: every element of [allModels] is rescored in place,
    then the slice is sorted by the library. *)
Definition calculateScores (slice : sort.SliceFn) (m : model) : model :=
  {| allModels :=
       slice modelScore byScore (map (rescore (m_requirements m)) (allModels m));
     m_step := m_step m; m_requirements := m_requirements m;
     m_list := m_list m; choices := choices m |}.

Definition setList (m : model) (n : nat) (cs : list string) : model :=
  {| allModels := allModels m; m_step := m_step m;
     m_requirements := m_requirements m; m_list := newList n; choices := cs |}.

Definition setupContextList (m : model) : model :=
  setList m 5 ["0"; "32000"; "100000"; "200000"; "400000"]%string.
Definition setupReasoningList (m : model) : model :=
  setList m 2 ["yes"; "no"]%string.
Definition setupVisionList (m : model) : model :=
  setList m 2 ["yes"; "no"]%string.
(** The results list shows the top five; [choices] is left as it was. *)
Definition setupResultsList (m : model) : model :=
  setList m (Nat.min 5 (List.length (allModels m))) (choices m).

Definition setStep (m : model) (s : step) : model :=
  {| allModels := allModels m; m_step := s;
     m_requirements := m_requirements m; m_list := m_list m;
     choices := choices m |}.

Definition setRequirements (m : model) (r : requirements) : model :=
  {| allModels := allModels m; m_step := m_step m; m_requirements := r;
     m_list := m_list m; choices := choices m |}.

(** [handleEnter]. [None] is the run-time panic of [m.choices[selected]]
    when the cursor is beyond the choices. *)
Definition handleEnter (slice : sort.SliceFn) (m : model) : option (model * cmd) :=
  let selected := Index (m_list m) in
  match nth_error (choices m) selected with
  | None => None
  | Some choice =>
      let r := m_requirements m in
      match m_step m with
      | stepBudget =>
          let m := setRequirements m
            {| budget := parseBudget choice; contextSize := contextSize r;
               reasoning := reasoning r; vision := vision r |} in
          Some (setupContextList (setStep m stepContext), cmdNone)
      | stepContext =>
          let m := setRequirements m
            {| budget := budget r; contextSize := parseContext choice;
               reasoning := reasoning r; vision := vision r |} in
          Some (setupReasoningList (setStep m stepReasoning), cmdNone)
      | stepReasoning =>
          let m := setRequirements m
            {| budget := budget r; contextSize := contextSize r;
               reasoning := String.eqb choice "yes"; vision := vision r |} in
          Some (setupVisionList (setStep m stepVision), cmdNone)
      | stepVision =>
          let m := setRequirements m
            {| budget := budget r; contextSize := contextSize r;
               reasoning := reasoning r; vision := String.eqb choice "yes" |} in
          Some (setupResultsList (calculateScores slice (setStep m stepResults)),
                cmdNone)
      | stepResults => Some (m, cmdQuit)
      end
  end.

(** The messages [Update] distinguishes. *)
Inductive msg :=
| KeyCtrlC | KeyEsc | KeyEnter | KeyUp | KeyDown
| KeyOther            (* any other key *)
| WindowSizeMsg
| OtherMsg.

Definition setListModel (m : model) (l : listModel) : model :=
  {| allModels := allModels m; m_step := m_step m;
     m_requirements := m_requirements m; m_list := l; choices := choices m |}.

(** [Update]; [None] is a panic. *)
Definition Update (slice : sort.SliceFn) (m : model) (e : msg)
    : option (model * cmd) :=
  match e with
  | KeyCtrlC | KeyEsc => Some (m, cmdQuit)
  | KeyEnter => handleEnter slice m
  | KeyUp => Some (setListModel m (cursorUp (m_list m)), cmdNone)
  | KeyDown => Some (setListModel m (cursorDown (m_list m)), cmdNone)
  | KeyOther | WindowSizeMsg | OtherMsg => Some (m, cmdNone)
  end.

(** How a session ends, or where it stands when the events run out. *)
Inductive session :=
| Waiting (m : model)        (* the event loop awaits the next message *)
| Quit (m : model)           (* the quit command was returned *)
| Panicked.

(** The event loop of the terminal library: one message per call of
    [Update], until an update returns the quit command. *)
Fixpoint run (slice : sort.SliceFn) (m : model) (events : list msg) : session :=
  match events with
  | [] => Waiting m
  | e :: rest =>
      match Update slice m e with
      | None => Panicked
      | Some (m', cmdQuit) => Quit m'
      | Some (m', cmdNone) => run slice m' rest
      end
  end.

(** The requirement-weighted policy as the specification words it: the
    rules, what each adds to the score, and the label each appends. *)
Inductive rule :=
| OverBudget | WellUnderBudget
| MeetsContext | BelowContext
| HasReasoning | NoReasoning
| HasVision | NoVision.

Definition delta (r : rule) : float :=
  match r with
  | OverBudget => (-100)%float
  | WellUnderBudget => 30%float
  | MeetsContext => 20%float
  | BelowContext => (-50)%float
  | HasReasoning => 25%float
  | NoReasoning => (-50)%float
  | HasVision => 25%float
  | NoVision => (-50)%float
  end.

Definition label (r : rule) : string :=
  match r with
  | OverBudget => "Over budget"
  | WellUnderBudget => "Well under budget"
  | MeetsContext => "Meets context requirement"
  | BelowContext => "Below context requirement"
  | HasReasoning => "Has reasoning"
  | NoReasoning => "No reasoning"
  | HasVision => "Has vision"
  | NoVision => "No vision"
  end.

(** The rules a model triggers, in the order of the policy: "if a budget
    is set and cost exceeds it ...; else if cost <= budget/2 ...; if
    context >= required minimum ..., else ...; if reasoning required: ...;
    if vision required: ...". *)
Definition triggered (req : requirements) (m : Model) : list rule :=
  (if F64.gtb (budget req) 0 && F64.gtb (CostPer1MIn m) (budget req)
   then [OverBudget]
   else if (CostPer1MIn m <=? budget req / 2)%float then [WellUnderBudget]
   else []) ++
  (if ContextWindow m >=? contextSize req then [MeetsContext]
   else [BelowContext]) ++
  (if reasoning req
   then [if CanReason m then HasReasoning else NoReasoning] else []) ++
  (if vision req
   then [if SupportsImages m then HasVision else NoVision] else []).

(** "Base 100", then what each triggered rule adds. *)
Definition weightedScore (req : requirements) (m : Model) : float :=
  fold_left (fun s r => (s + delta r)%float) (triggered req m) 100%float.

(** A candidate as the policy of the specification leaves it: "base
    100" and what each triggered rule adds as its score, and "each
    triggered rule appends its label to the candidate's reasons list". *)
Definition weighted (req : requirements) (mm : modelScore) : modelScore :=
  {| ms_model := ms_model mm; ms_provider := ms_provider mm;
     ms_score := weightedScore req (ms_model mm);
     ms_reasons := map label (triggered req (ms_model mm)) |}.

(** What [allModels] holds in a wizard started on the candidates [all]:
    the candidates as collected until the results are entered, and from
    then on the one ranking of all of them under the requirements. *)
Definition scoredOnce (slice : sort.SliceFn) (all : list modelScore)
    (m : model) : Prop :=
  (m_step m <> stepResults -> allModels m = all) /\
  (m_step m = stepResults ->
   allModels m =
   slice modelScore byScore (map (rescore (m_requirements m)) all)).

(** The confirm key. *)
Definition isEnter (e : msg) : bool :=
  match e with KeyEnter => true | _ => false end.

(** The successor of a step in the order of the wizard. *)
Definition next (s : step) : option step :=
  match s with
  | stepBudget => Some stepContext
  | stepContext => Some stepReasoning
  | stepReasoning => Some stepVision
  | stepVision => Some stepResults
  | stepResults => None
  end.

(** Before the results, the list shows one row per choice and the cursor is
    on one of them. *)
Definition cursorOnChoice (m : model) : Prop :=
  m_step m <> stepResults ->
  (rows (m_list m) = List.length (choices m) /\
   Index (m_list m) < rows (m_list m))%nat.

End ModelSelector.

(** ** chat-bot: the session tracker *)

Module ChatBot.
Import catwalk.

(** [openai.ChatCompletionMessage], with the three role constants of the
    client library. *)
Record ChatCompletionMessage := {
  Role : string;
  Content : string
}.

Definition ChatMessageRoleSystem : string := "system".
Definition ChatMessageRoleUser : string := "user".
Definition ChatMessageRoleAssistant : string := "assistant".

Record chatSession := {
  provider : Provider;
  model : Model;
  messages : list ChatCompletionMessage;
  totalTokens : Z;
  totalCost : float
}.

Record ChatCompletionRequest := {
  reqModel : string;
  reqMessages : list ChatCompletionMessage;
  reqMaxTokens : Z
}.

(** What a successful completion call returns: the messages of its choices
    and the usage counts. *)
Record ChatCompletionResponse := {
  Choices : list ChatCompletionMessage;
  PromptTokens : Z;
  CompletionTokens : Z
}.

(** The external completion call. It is not a function of the request
    alone, so a client is indexed by the number of calls made before;
    [None] is an error. *)
Definition client : Type :=
  nat -> ChatCompletionRequest -> option ChatCompletionResponse.

Record apiResponse := {
  content : string;
  inputTokens : Z;
  outputTokens : Z;
  cost : float
}.

Definition calculateCost (model : Model) (inputTokens outputTokens : Z) : float :=
  let inputCost := (F64.of_int inputTokens * CostPer1MIn model / 1000000)%float in
  let outputCost := (F64.of_int outputTokens * CostPer1MOut model / 1000000)%float in
  (inputCost + outputCost)%float.

(** [sendMessage]; [maxTokens] is the value of the flag and [calls] the
    number of completion calls made so far. [None] is either error
    return. The session is only read. *)
Definition sendMessage (c : client) (calls : nat) (maxTokens : Z)
    (session : chatSession) : option apiResponse :=
  let req :=
    {| reqModel := ID (model session);
       reqMessages := messages session;
       reqMaxTokens :=
         if maxTokens >? 0 then maxTokens
         else if DefaultMaxTokens (model session) >? 0
              then DefaultMaxTokens (model session)
              else 0 |} in
  match c calls req with
  | None => None
  | Some resp =>
      match Choices resp with
      | [] => None
      | first :: _ =>
          let inputTokens := PromptTokens resp in
          let outputTokens := CompletionTokens resp in
          Some {| content := Content first;
                  inputTokens := inputTokens;
                  outputTokens := outputTokens;
                  cost := calculateCost (model session) inputTokens outputTokens |}
      end
  end.

Definition setMessages (s : chatSession) (ms : list ChatCompletionMessage)
    : chatSession :=
  {| provider := provider s; model := model s; messages := ms;
     totalTokens := totalTokens s; totalCost := totalCost s |}.

(** [handleCommand]: the session after the command and the returned
    boolean ([false] only for the quit commands). *)
Definition handleCommand (session : chatSession) (cmd : string)
    : chatSession * bool :=
  let c := strings.ToLower cmd in
  if String.eqb c "/quit" || String.eqb c "/exit" || String.eqb c "/q" then
    (session, false)
  else if String.eqb c "/clear" then
    let systemMsg :=
      match messages session with
      | first :: _ =>
          if String.eqb (Role first) ChatMessageRoleSystem
          then firstn 1 (messages session)
          else []
      | [] => []
      end in
    (setMessages session systemMsg, true)
  else if String.eqb c "/cost" then (session, true)
  else if String.eqb c "/help" then (session, true)
  else (session, true).

(** The session with the user message appended, as the loop does before
    the completion call: [session.messages = append(session.messages, ...)]. *)
Definition withUserMessage (session : chatSession) (input : string)
    : chatSession :=
  setMessages session
    (messages session ++ [{| Role := ChatMessageRoleUser; Content := input |}]).

(** What [reader.ReadString] returns to the loop. *)
Inductive readResult :=
| ReadLine (line : string)
| ReadEOF
| ReadError.

(** Where the loop stands after the inputs given to it. *)
Inductive loopState :=
| Reading (session : chatSession) (calls : nat)   (* blocked on the next read *)
| Returned (session : chatSession)                (* the function returned *)
| FatalExit.                                      (* log.Fatalf *)

(** One pass through the body of the loop of [runChatLoop] for a line that
    was read. *)
Definition exchange (c : client) (maxTokens : Z) (session : chatSession)
    (calls : nat) (line : string) : loopState :=
  let input := strings.TrimSpace line in
  if String.eqb input "" then Reading session calls
  else if strings.HasPrefix input "/" then
    let '(session, continue) := handleCommand session input in
    if continue then Reading session calls else Returned session
  else
    let session := withUserMessage session input in
    match sendMessage c calls maxTokens session with
    | None =>
        let session :=
          setMessages session
            (firstn (List.length (messages session) - 1) (messages session)) in
        Reading session (S calls)
    | Some response =>
        let session :=
          setMessages session
            (messages session ++
             [{| Role := ChatMessageRoleAssistant;
                 Content := content response |}]) in
        let session :=
          {| provider := provider session; model := model session;
             messages := messages session;
             totalTokens :=
               wrap64 (totalTokens session +
                       wrap64 (inputTokens response + outputTokens response));
             totalCost := (totalCost session + cost response)%float |} in
        Reading session (S calls)
    end.

(** [runChatLoop] on the successive results of reading standard input. *)
Fixpoint runChatLoop (c : client) (maxTokens : Z) (session : chatSession)
    (calls : nat) (inputs : list readResult) : loopState :=
  match inputs with
  | [] => Reading session calls
  | ReadEOF :: _ => Returned session
  | ReadError :: _ => FatalExit
  | ReadLine line :: rest =>
      match exchange c maxTokens session calls line with
      | Reading session' calls' => runChatLoop c maxTokens session' calls' rest
      | stopped => stopped
      end
  end.

(** "At most the leading system message": the first message when it is a
    system message, nothing otherwise. *)
Definition leadingSystem (ms : list ChatCompletionMessage)
    : list ChatCompletionMessage :=
  match ms with
  | first :: _ =>
      if String.eqb (Role first) ChatMessageRoleSystem then [first] else []
  | [] => []
  end.

End ChatBot.

(** ** find-models: the search, the comparison and the interactive mode *)

Module Search.
Import catwalk.

(** The candidates [main] collects: every model of every provider, in
    catalog order, with the zero score. *)
Definition collect (providers : list Provider) : list FindModels.modelMatch :=
  flat_map
    (fun p => map (fun m => {| FindModels.model := m; FindModels.provider := p;
                               FindModels.score := 0 |}) (Models p))
    providers.

(** What the non-interactive search prints. *)
Inductive outcome :=
| NoMatches                      (* "No models found matching criteria." *)
| Shown (top : list FindModels.modelMatch) (shown total : nat).

(** [displayMatches]: the matches are ranked, the first ten are printed,
    and the closing line counts both. *)
Definition displayMatches (slice : sort.SliceFn)
    (models : list FindModels.modelMatch) : outcome :=
  let models := FindModels.scoreModels slice models in
  Shown (firstn 10 models) (Nat.min 10 (List.length models))
    (List.length models).

(** The search of [main] on the candidates collected. *)
Definition search (slice : sort.SliceFn)
    (allModels : list FindModels.modelMatch) (maxCost : float)
    (minContext : Z) (reasoning vision : bool) : outcome :=
  match FindModels.filterModels allModels maxCost minContext reasoning vision with
  | [] => NoMatches
  | matches => displayMatches slice matches
  end.

(** The test of the inner loop of [compareModelsList]. *)
Definition nameMatches (name : string) (m : Model) : bool :=
  strings.EqualFold (ID m) name ||
  strings.Contains (strings.ToLower (Name m)) (strings.ToLower name).

(** The lookup of [compareModelsList]: for every name, trimmed, and every
    provider, the first model of the provider that matches. *)
Definition compareModelsList (providers : list Provider)
    (modelNames : list string) : list (Model * Provider) :=
  fold_left
    (fun models name =>
       let name := strings.TrimSpace name in
       fold_left
         (fun models p =>
            match find (nameMatches name) (Models p) with
            | Some m => models ++ [(m, p)]
            | None => models
            end)
         providers models)
    modelNames [].

End Search.

Module Interactive.

Inductive step := stepMaxCost | stepMinContext | stepCapabilities | stepResults.

Definition stepIndex (s : step) : nat :=
  match s with
  | stepMaxCost => 0 | stepMinContext => 1
  | stepCapabilities => 2 | stepResults => 3
  end.

(** The state of the interactive mode, the struct [model] of find-models. *)
Record model := {
  models : list FindModels.modelMatch;
  filtered : list FindModels.modelMatch;
  m_step : step;
  currentInput : string
}.

Definition initialModel (models : list FindModels.modelMatch) : model :=
  {| models := models; filtered := models; m_step := stepMaxCost;
     currentInput := "" |}.

(** [strconv.ParseFloat(s, 64)] and [strconv.ParseInt(s, 10, 64)] are
    library calls; [None] is a non-nil error. *)
Record strconv := {
  ParseFloat : string -> option float;
  ParseInt : string -> option Z
}.

(** The key messages [Update] tells apart; [KeyOther s] is any other key,
    with [s] its [msg.String()]. *)
Inductive msg :=
| KeyCtrlC | KeyEsc | KeyEnter | KeyBackspace
| KeyOther (s : string)
| OtherMsg.

Inductive cmd := cmdNone | cmdQuit.

(** [(char >= "0" && char <= "9") || char == "."] for a string of one
    byte. *)
Definition digitOrDot (c : ascii) : bool :=
  let n := nat_of_ascii c in
  (((48 <=? n) && (n <=? 57)) || (n =? 46))%nat.

(** [s[:len(s)-1]]. *)
Fixpoint dropLast (s : string) : string :=
  match s with
  | EmptyString => EmptyString
  | String c EmptyString => EmptyString
  | String c r => String c (dropLast r)
  end.

Definition setInput (m : model) (s : string) : model :=
  {| models := models m; filtered := filtered m; m_step := m_step m;
     currentInput := s |}.

(** [Update] of the interactive mode. *)
Definition Update (sc : strconv) (m : model) (e : msg) : model * cmd :=
  match e with
  | KeyCtrlC | KeyEsc => (m, cmdQuit)
  | KeyEnter =>
      match m_step m with
      | stepMaxCost =>
          match ParseFloat sc (currentInput m) with
          | Some cost =>
              ({| models := models m;
                  filtered :=
                    FindModels.filterModels (models m) cost 0 false false;
                  m_step := stepMinContext; currentInput := "" |}, cmdNone)
          | None => (m, cmdNone)
          end
      | stepMinContext =>
          match ParseInt sc (currentInput m) with
          | Some ctx =>
              ({| models := models m;
                  filtered :=
                    FindModels.filterModels (filtered m) 0 ctx false false;
                  m_step := stepCapabilities;
                  currentInput := currentInput m |}, cmdNone)
          | None => (m, cmdNone)
          end
      | stepCapabilities =>
          ({| models := models m; filtered := filtered m;
              m_step := stepResults; currentInput := currentInput m |},
           cmdNone)
      | stepResults => (m, cmdQuit)
      end
  | KeyBackspace =>
      if (0 <? String.length (currentInput m))%nat
      then (setInput m (dropLast (currentInput m)), cmdNone)
      else (m, cmdNone)
  | KeyOther s =>
      match m_step m, s with
      | (stepMaxCost | stepMinContext), String c EmptyString =>
          if digitOrDot c
          then (setInput m (currentInput m ++ s), cmdNone)
          else (m, cmdNone)
      | _, _ => (m, cmdNone)
      end
  | OtherMsg => (m, cmdNone)
  end.

(** The successive calls of [Update] alone: the state after each
    message, up to and including the one that quits. What rendering does
    to the state in between is in [eventLoop] below. *)
Fixpoint run (sc : strconv) (m : model) (events : list msg) : model * cmd :=
  match events with
  | [] => (m, cmdNone)
  | e :: rest =>
      match Update sc m e with
      | (m', cmdQuit) => (m', cmdQuit)
      | (m', cmdNone) => run sc m' rest
      end
  end.

(** Only digits and dots. *)
Fixpoint numeric (s : string) : bool :=
  match s with
  | EmptyString => true
  | String c r => digitOrDot c && numeric r
  end.

(** What [View] does to the state. Its receiver is a copy of the model,
    but [m.filtered] of the copy shares its array with the model of the
    event loop: at the results [scoreModels] writes the scores into that
    array and sorts it in place, so the event loop's [filtered] holds the
    ranking from then on. At the other steps [View] only reads. *)
Definition View (slice : sort.SliceFn) (m : model) : model :=
  match m_step m with
  | stepResults =>
      {| models := models m;
         filtered := FindModels.scoreModels slice (filtered m);
         m_step := m_step m; currentInput := currentInput m |}
  | _ => m
  end.

(** The event loop of the terminal library: every message goes to
    [Update] and the model it returns is rendered, the one that comes
    with the quit command included. *)
Fixpoint eventLoop (slice : sort.SliceFn) (sc : strconv) (m : model)
    (events : list msg) : model * cmd :=
  match events with
  | [] => (m, cmdNone)
  | e :: rest =>
      match Update sc m e with
      | (m', cmdQuit) => (View slice m', cmdQuit)
      | (m', cmdNone) => eventLoop slice sc (View slice m') rest
      end
  end.

(** [runInteractiveMode]: the initial model is rendered, then the event
    loop runs. *)
Definition runInteractiveMode (slice : sort.SliceFn) (sc : strconv)
    (models : list FindModels.modelMatch) (events : list msg) : model * cmd :=
  eventLoop slice sc (View slice (initialModel models)) events.

(** What the event loop keeps between two messages, for the candidates
    [ms] it was started on: the candidates; a filtered list that is a
    sub-list of them until the results are rendered, and a reordering of
    such a sub-list, scored, from then on; an input line of digits and
    dots. *)
Definition kept (ms : list FindModels.modelMatch) (m : model) : Prop :=
  models m = ms /\
  (m_step m <> stepResults -> Subseq (filtered m) ms) /\
  (m_step m = stepResults ->
   exists sub, Subseq sub ms /\
     Permutation (filtered m) (map FindModels.setScore sub)) /\
  numeric (currentInput m) = true.

(** The key messages of typing [s], one character at a time. *)
Fixpoint typing (s : string) : list msg :=
  match s with
  | EmptyString => []
  | String c r => KeyOther (String c EmptyString) :: typing r
  end.

(** How many times Enter is pressed. *)
Fixpoint enters (events : list msg) : nat :=
  match events with
  | [] => 0
  | KeyEnter :: rest => S (enters rest)
  | _ :: rest => enters rest
  end.

(** A key that [Update] would add to the input. *)
Definition typesDigit (e : msg) : bool :=
  match e with
  | KeyOther (String c EmptyString) => digitOrDot c
  | _ => false
  end.

End Interactive.

(** ** cost-calculator: the table *)

Module CostTable.

(** The name column of [outputTable]:
    [if len(name) > 40 { name = name[:37] + "..." }]. *)
Definition columnName (name : string) : string :=
  if (40 <? String.length name)%nat
  then (String.substring 0 37 name ++ "...")%string
  else name.

End CostTable.

(** ** model-info: the lookup *)

Module ModelInfo.
Import catwalk.

(** The test of the inner loop of [main]. *)
Definition matches (modelName : string) (m : Model) : bool :=
  strings.EqualFold (ID m) modelName ||
  strings.Contains (strings.ToLower (Name m)) (strings.ToLower modelName).

(** The [continue] of the outer loop: a provider is specified and this
    is another one. *)
Definition skipped (providerID : string) (p : Provider) : bool :=
  negb (String.eqb providerID "") &&
  negb (String.eqb (strings.ToLower (PID p)) (strings.ToLower providerID)).

(** The two loops of [main]: the first matching model of the first
    provider, among those not skipped, that has one. *)
Fixpoint findModel (providers : list Provider) (providerID modelName : string)
    : option (Model * Provider) :=
  match providers with
  | [] => None
  | p :: rest =>
      if skipped providerID p then findModel rest providerID modelName
      else
        match find (matches modelName) (Models p) with
        | Some m => Some (m, p)
        | None => findModel rest providerID modelName
        end
  end.

End ModelInfo.

(** ** list-models: the capability filter and the sort *)

Module ListModels.
Import catwalk.

(** The body of the loop of [filterModels], with the two flags as
    arguments. *)
Definition keeps (reasoning vision : bool) (m : Model) : bool :=
  if reasoning && negb (CanReason m) then false
  else if vision && negb (SupportsImages m) then false
  else true.

Fixpoint filterModels (reasoning vision : bool) (models : list Model)
    : list Model :=
  match models with
  | [] => []
  | m :: rest =>
      if keeps reasoning vision m
      then m :: filterModels reasoning vision rest
      else filterModels reasoning vision rest
  end.

(** The three comparisons of [sortModels]. *)
Definition byCost (a b : Model) : bool := (CostPer1MIn a <? CostPer1MIn b)%float.
Definition byContext (a b : Model) : bool := ContextWindow a >? ContextWindow b.
Definition byName (a b : Model) : bool := String.ltb (Name a) (Name b).

(** [sortModels]: the slice after the call. *)
Definition sortModels (slice : sort.SliceFn) (models : list Model)
    (sortBy : string) : list Model :=
  let s := strings.ToLower sortBy in
  if String.eqb s "cost" then slice Model byCost models
  else if String.eqb s "context" then slice Model byContext models
  else slice Model byName models.

(** What [main] hands to the output functions for the models of the
    provider. *)
Definition listing (slice : sort.SliceFn) (models : list Model)
    (reasoning vision : bool) (sortBy : string) : list Model :=
  sortModels slice (filterModels reasoning vision models) sortBy.

End ListModels.

(** ** chat-bot: setting the session up *)

Module ChatSetup.
Import catwalk ChatBot.

(** The provider loop of [main]; [None] is "Provider not found". *)
Definition findProvider (providers : list Provider) (providerID : string)
    : option Provider :=
  find (fun p => strings.EqualFold (PID p) providerID) providers.

(** The model selection of [main]. With a name, the first model of the
    provider whose ID equals it up to letter case, and [None] is "Model
    not found"; without, the default large model of the provider, or
    else its first model, and [None] is "No model found for provider." *)
Definition selectModel (provider : Provider) (modelName : string)
    : option Model :=
  if negb (String.eqb modelName "") then
    find (fun m => strings.EqualFold (ID m) modelName) (Models provider)
  else
    match find (fun m => String.eqb (ID m) (DefaultLargeModelID provider))
            (Models provider) with
    | Some m => Some m
    | None => hd_error (Models provider)
    end.

(** The session [main] starts the loop with. *)
Definition newSession (provider : Provider) (model : Model)
    (systemPrompt : string) : chatSession :=
  {| provider := provider; model := model;
     messages :=
       if negb (String.eqb systemPrompt "")
       then [{| Role := ChatMessageRoleSystem; Content := systemPrompt |}]
       else [];
     totalTokens := 0; totalCost := 0 |}.

(** Complete exchanges: a user message, then the assistant's answer. *)
Fixpoint turns (ms : list ChatCompletionMessage) : bool :=
  match ms with
  | [] => true
  | u :: rest =>
      match rest with
      | a :: rest' =>
          String.eqb (Role u) ChatMessageRoleUser &&
          String.eqb (Role a) ChatMessageRoleAssistant && turns rest'
      | [] => false
      end
  end.

(** A history between two exchanges: complete exchanges, after a system
    message or after nothing. *)
Definition settled (ms : list ChatCompletionMessage) : bool :=
  turns ms ||
  match ms with
  | first :: rest => String.eqb (Role first) ChatMessageRoleSystem && turns rest
  | [] => false
  end.

(** A history that awaits an answer: a user message after a settled
    history. *)
Definition awaitsAnswer (ms : list ChatCompletionMessage) : bool :=
  match rev ms with
  | last :: before =>
      String.eqb (Role last) ChatMessageRoleUser && settled (rev before)
  | [] => false
  end.

(** The token limit [sendMessage] puts in the request; 0 is the field
    left unset. *)
Definition requestMaxTokens (maxTokens : Z) (m : Model) : Z :=
  if maxTokens >? 0 then maxTokens
  else if DefaultMaxTokens m >? 0 then DefaultMaxTokens m
  else 0.

(** A line the loop does not send: blank, or a command. *)
Definition localLine (r : readResult) : bool :=
  match r with
  | ReadLine line =>
      let input := strings.TrimSpace line in
      String.eqb input "" || strings.HasPrefix input "/"
  | _ => true
  end.

End ChatSetup.

(** ** A small catalog for the examples *)

Module Fixtures.
Import catwalk.

Definition modelA : Model :=
  {| ID := "gpt-4o"; Name := "GPT-4o";
     CostPer1MIn := 2.5; CostPer1MOut := 10;
     CostPer1MInCached := 1.25; CostPer1MOutCached := 0;
     ContextWindow := 128000; DefaultMaxTokens := 4096;
     CanReason := false; SupportsImages := true |}.

Definition modelB : Model :=
  {| ID := "claude-sonnet"; Name := "Claude Sonnet";
     CostPer1MIn := 3; CostPer1MOut := 15;
     CostPer1MInCached := 0.25; CostPer1MOutCached := 0;
     ContextWindow := 200000; DefaultMaxTokens := 8192;
     CanReason := true; SupportsImages := true |}.

Definition modelC : Model :=
  {| ID := "mini"; Name := "Mini";
     CostPer1MIn := 0.5; CostPer1MOut := 1.5;
     CostPer1MInCached := 0; CostPer1MOutCached := 0;
     ContextWindow := 32000; DefaultMaxTokens := 2048;
     CanReason := false; SupportsImages := false |}.

(** A second model priced and equipped like [modelC]. *)
Definition modelD : Model :=
  {| ID := "mini-2"; Name := "Mini Two";
     CostPer1MIn := 0.5; CostPer1MOut := 1.5;
     CostPer1MInCached := 0; CostPer1MOutCached := 0;
     ContextWindow := 32000; DefaultMaxTokens := 2048;
     CanReason := false; SupportsImages := false |}.

Definition providerX : Provider :=
  {| PID := "openai"; PName := "OpenAI"; DefaultLargeModelID := "gpt-4o";
     Models := [modelA; modelC; modelD] |}.

Definition providerY : Provider :=
  {| PID := "anthropic"; PName := "Anthropic";
     DefaultLargeModelID := "claude-sonnet"; Models := [modelB] |}.

Definition providers : list Provider := [providerX; providerY].

(** The candidates [main] collects from the catalog, for find-models and
    for the wizard. *)
Definition matches : list FindModels.modelMatch :=
  flat_map (fun p => map (fun m =>
    {| FindModels.model := m; FindModels.provider := p;
       FindModels.score := 0 |}) (Models p)) providers.

Definition scores : list ModelSelector.modelScore :=
  flat_map (fun p => map (fun m =>
    {| ModelSelector.ms_model := m; ModelSelector.ms_provider := p;
       ModelSelector.ms_score := 0; ModelSelector.ms_reasons := [] |})
    (Models p)) providers.

(** The wizard after the budget and the context have been confirmed. *)
Definition wizardEvents : list ModelSelector.msg :=
  [ModelSelector.KeyDown; ModelSelector.KeyEnter; ModelSelector.KeyEnter].

Definition wizardAtReasoning : ModelSelector.model :=
  match ModelSelector.run sort.insertionSort
          (ModelSelector.initialModel scores) wizardEvents with
  | ModelSelector.Waiting m => m
  | _ => ModelSelector.initialModel scores
  end.

(** A chat session with one exchange behind it. *)
Definition chat : ChatBot.chatSession :=
  {| ChatBot.provider := providerX; ChatBot.model := modelA;
     ChatBot.messages :=
       [{| ChatBot.Role := "system"; ChatBot.Content := "Be brief." |};
        {| ChatBot.Role := "user"; ChatBot.Content := "Hi" |};
        {| ChatBot.Role := "assistant"; ChatBot.Content := "Hello." |}];
     ChatBot.totalTokens := 42; ChatBot.totalCost := 0.0001220703125 |}.

(** A completion service that is down. *)
Definition failingClient : ChatBot.client := fun _ _ => None.

(** A completion service that refuses every request whose history does
    not end with a user message after complete exchanges. *)
Definition strictClient : ChatBot.client :=
  fun calls req =>
    if ChatSetup.awaitsAnswer (ChatBot.reqMessages req)
    then Some {| ChatBot.Choices :=
                   [{| ChatBot.Role := "assistant";
                       ChatBot.Content := "Noted." |}];
                 ChatBot.PromptTokens :=
                   Z.of_nat (List.length (ChatBot.reqMessages req));
                 ChatBot.CompletionTokens := 2 |}
    else None.

(** The same service without the check. *)
Definition lenientClient : ChatBot.client :=
  fun calls req =>
    Some {| ChatBot.Choices :=
              [{| ChatBot.Role := "assistant";
                  ChatBot.Content := "Noted." |}];
            ChatBot.PromptTokens :=
              Z.of_nat (List.length (ChatBot.reqMessages req));
            ChatBot.CompletionTokens := 2 |}.

(** A completion service that answers every second call, with the
    number of messages it was sent as usage. *)
Definition flakyClient : ChatBot.client :=
  fun calls req =>
    if Nat.even calls
    then Some {| ChatBot.Choices :=
                   [{| ChatBot.Role := "assistant";
                       ChatBot.Content := "Noted." |}];
                 ChatBot.PromptTokens :=
                   Z.of_nat (List.length (ChatBot.reqMessages req));
                 ChatBot.CompletionTokens := 2 |}
    else None.

(** The wizard taken to its results: budget "1.0", context "100000",
    reasoning "yes", vision "no". *)
Definition wizardToResults : list ModelSelector.msg :=
  [ModelSelector.KeyDown; ModelSelector.KeyDown; ModelSelector.KeyEnter;
   ModelSelector.KeyDown; ModelSelector.KeyDown; ModelSelector.KeyEnter;
   ModelSelector.KeyEnter;
   ModelSelector.KeyDown; ModelSelector.KeyEnter].

Definition wizardAtResults : ModelSelector.model :=
  match ModelSelector.run sort.insertionSort
          (ModelSelector.initialModel scores) wizardToResults with
  | ModelSelector.Waiting m => m
  | _ => ModelSelector.initialModel scores
  end.

(** Two cost scenarios: one for a model of the catalog, one for a model
    the catalog does not have. *)
Definition knownScenario : CostCalculator.scenario :=
  {| CostCalculator.sModel := "gpt-4o";
     CostCalculator.sInputTokens := 1000;
     CostCalculator.sOutputTokens := 500;
     CostCalculator.sCachedRatio := 0.5 |}.

Definition unknownScenario : CostCalculator.scenario :=
  {| CostCalculator.sModel := "no-such-model";
     CostCalculator.sInputTokens := 1000;
     CostCalculator.sOutputTokens := 500;
     CostCalculator.sCachedRatio := 0 |}.

Definition knownResult : CostCalculator.costResult :=
  {| CostCalculator.Model_ := "GPT-4o";
     CostCalculator.Provider_ := "OpenAI";
     CostCalculator.InputCost := 0.001875;
     CostCalculator.OutputCost := 0.005;
     CostCalculator.TotalCost := 0.006875 |}.

(** A stand-in for [strconv] that reads unsigned decimal integers and
    rejects everything else, the empty string included. *)
Fixpoint readDigits (s : string) (acc : Z) : option Z :=
  match s with
  | EmptyString => Some acc
  | String c r =>
      let n := nat_of_ascii c in
      if ((48 <=? n) && (n <=? 57))%nat
      then readDigits r (10 * acc + Z.of_nat (n - 48))
      else None
  end.

Definition readDecimal (s : string) : option Z :=
  match s with
  | EmptyString => None
  | _ => match readDigits s 0 with
         | Some n => if n <? 2 ^ 63 then Some n else None
         | None => None
         end
  end.

Definition decimalConv : Interactive.strconv :=
  {| Interactive.ParseFloat :=
       fun s => match readDecimal s with
                | Some n => Some (F64.of_int n)
                | None => None
                end;
     Interactive.ParseInt := readDecimal |}.

End Fixtures.

(** * Properties *)

(** ** Comparison of binary64 values *)

Lemma SFcompare_antisym (x y : spec_float) :
  SFcompare y x = option_map CompOpp (SFcompare x y).
Proof.
  destruct x as [sx|sx| |sx mx ex], y as [sy|sy| |sy my ey]; simpl;
    try reflexivity;
    try (destruct sx; reflexivity); try (destruct sy; reflexivity);
    try (destruct sx, sy; reflexivity).
  destruct sx, sy; simpl; try reflexivity;
    rewrite (Z.compare_antisym ex ey); destruct (ex ?= ey) eqn:E; simpl;
    try reflexivity;
    change (Pos.compare_cont Eq my mx) with (Pos.compare my mx);
    change (Pos.compare_cont Eq mx my) with (Pos.compare mx my);
    rewrite (Pos.compare_antisym mx my);
    destruct (Pos.compare mx my); reflexivity.
Qed.

Lemma SFcompare_refl (x : spec_float) :
  x <> S754_nan -> SFcompare x x = Some Eq.
Proof.
  destruct x as [s|s| |s m e]; simpl; intros H;
    try (destruct s; reflexivity); try congruence.
  rewrite Z.compare_refl.
  change (Pos.compare_cont Eq m m) with (Pos.compare m m).
  rewrite Pos.compare_refl. destruct s; reflexivity.
Qed.

Lemma SFcompare_some (x y : spec_float) :
  x <> S754_nan -> y <> S754_nan -> exists c, SFcompare x y = Some c.
Proof.
  destruct x, y; simpl; intros; try congruence; eauto.
Qed.

Lemma SFcompare_not_nan (x y : spec_float) (c : comparison) :
  SFcompare x y = Some c -> x <> S754_nan /\ y <> S754_nan.
Proof.
  destruct x, y; simpl; intros; split; congruence.
Qed.

Lemma not_nan_spec (x : float) : F64.not_nan x <-> Prim2SF x <> S754_nan.
Proof.
  unfold F64.not_nan, is_nan. rewrite eqb_spec. unfold SFeqb. split.
  - intros H E. rewrite E in H. discriminate.
  - intros H. rewrite (SFcompare_refl _ H). reflexivity.
Qed.

(** A float that compares greater than another is a number, and so is the
    other. *)
Lemma gtb_not_nan (x y : float) :
  F64.gtb x y = true -> F64.not_nan x /\ F64.not_nan y.
Proof.
  unfold F64.gtb. rewrite ltb_spec. unfold SFltb.
  destruct (SFcompare (Prim2SF y) (Prim2SF x)) as [c|] eqn:E; [|discriminate].
  intros _. apply SFcompare_not_nan in E. rewrite !not_nan_spec. tauto.
Qed.

(** On numbers, "not greater" is "less or equal". *)
Lemma gtb_false_leb (x y : float) :
  F64.not_nan x -> F64.not_nan y -> F64.gtb x y = false ->
  (x <=? y)%float = true.
Proof.
  unfold F64.gtb. rewrite ltb_spec, leb_spec. unfold SFltb, SFleb.
  intros Hx%not_nan_spec Hy%not_nan_spec.
  rewrite (SFcompare_antisym (Prim2SF x) (Prim2SF y)).
  destruct (SFcompare_some _ _ Hx Hy) as [c ->]. destruct c; simpl; congruence.
Qed.

Lemma leb_gtb_false (x y : float) :
  (x <=? y)%float = true -> F64.gtb x y = false.
Proof.
  unfold F64.gtb. rewrite ltb_spec, leb_spec. unfold SFltb, SFleb.
  rewrite (SFcompare_antisym (Prim2SF x) (Prim2SF y)).
  destruct (SFcompare (Prim2SF x) (Prim2SF y)) as [[ | | ]|]; simpl; congruence.
Qed.

(** ** Insertion sort meets the contract of [sort.Slice] *)

Section InsertionSort.
Context {A : Type}.
Variable less : A -> A -> bool.

Lemma insertLeft_Permutation (x : A) (l : list A) :
  Permutation (sort.insertLeft less x l) (x :: l).
Proof.
  induction l as [|y l IH]; simpl; [reflexivity|].
  destruct (less x y); [|reflexivity].
  rewrite IH. apply perm_swap.
Qed.

Lemma insertion_loop_Permutation (l acc : list A) :
  Permutation (fold_left (fun acc x => sort.insertLeft less x acc) l acc)
    (l ++ acc).
Proof.
  revert acc. induction l as [|x l IH]; intros acc; simpl; [reflexivity|].
  rewrite IH, insertLeft_Permutation. symmetry. apply Permutation_middle.
Qed.

Lemma insertLeft_Descending (univ : list A) (x : A) (l : list A) :
  sort.Transitive less univ -> In x univ -> incl l univ ->
  sort.Descending less l -> sort.Descending less (sort.insertLeft less x l).
Proof.
  intros (Hirr & Htr & Hinc) Hx. unfold sort.Descending.
  induction l as [|y l IH]; intros Hl Hs; simpl.
  - repeat constructor.
  - assert (Hy : In y univ) by (apply Hl; now left).
    assert (Hl' : incl l univ) by (intros z Hz; apply Hl; now right).
    inversion Hs as [|? ? Hs' Hall]; subst.
    destruct (less x y) eqn:E.
    + constructor; [now apply IH|].
      apply Forall_forall. intros z Hz.
      apply (Permutation_in _ (insertLeft_Permutation x l)) in Hz.
      destruct Hz as [<- | Hz].
      * destruct (less y x) eqn:E'; [|reflexivity].
        rewrite <- (Hirr x Hx). symmetry. now apply (Htr x y x).
      * rewrite Forall_forall in Hall. now apply Hall.
    + constructor; [assumption|]. constructor; [assumption|].
      apply Forall_forall. intros z Hz. rewrite Forall_forall in Hall.
      apply (Hinc x y z); auto.
Qed.

Lemma insertion_loop_Descending (univ l acc : list A) :
  sort.Transitive less univ -> incl l univ -> incl acc univ ->
  sort.Descending less acc ->
  sort.Descending less (fold_left (fun acc x => sort.insertLeft less x acc) l acc).
Proof.
  intros Ht. revert acc.
  induction l as [|x l IH]; intros acc Hl Hacc Hs; simpl; [assumption|].
  apply IH.
  - intros z Hz. apply Hl. now right.
  - intros z Hz.
    apply (Permutation_in _ (insertLeft_Permutation x acc)) in Hz.
    destruct Hz as [<- | Hz]; [apply Hl; now left | now apply Hacc].
  - apply (insertLeft_Descending univ); auto. apply Hl. now left.
Qed.

Lemma StronglySorted_snoc (R : A -> A -> Prop) (l : list A) (a : A) :
  StronglySorted R l -> Forall (fun b => R b a) l ->
  StronglySorted R (l ++ [a]).
Proof.
  induction 1 as [|b r Hr IH Hb]; intros Hall; simpl.
  - repeat constructor.
  - inversion Hall; subst. constructor; [now apply IH|].
    apply Forall_app. split; [assumption|]. now repeat constructor.
Qed.

Lemma Descending_rev (l : list A) :
  sort.Descending less l -> sort.Ordered less (rev l).
Proof.
  unfold sort.Descending, sort.Ordered.
  induction 1 as [|a l Hs IH Hall]; simpl; [constructor|].
  apply StronglySorted_snoc; [assumption|].
  apply Forall_forall. intros z Hz. rewrite Forall_forall in Hall.
  apply Hall. now apply in_rev.
Qed.

End InsertionSort.

Lemma insertionSort_Sorts : sort.Sorts sort.insertionSort.
Proof.
  intros A less l. unfold sort.insertionSort. split.
  - rewrite <- Permutation_rev, insertion_loop_Permutation.
    now rewrite app_nil_r.
  - intros Ht. apply Descending_rev.
    apply (insertion_loop_Descending less l); auto.
    + apply incl_refl.
    + intros z [].
    + constructor.
Qed.

(** ** The filter engine *)

Section Filter.
Import catwalk FindModels.
Variables (maxCost : float) (minContext : Z) (reasoning vision : bool).

Lemma filterModels_filter (models : list modelMatch) :
  filterModels models maxCost minContext reasoning vision =
  filter (keeps maxCost minContext reasoning vision) models.
Proof.
  induction models as [|mm rest IH]; simpl; [reflexivity|].
  rewrite IH. reflexivity.
Qed.

Lemma filterModels_Subseq (models : list modelMatch) :
  Subseq (filterModels models maxCost minContext reasoning vision) models.
Proof.
  induction models as [|mm rest IH]; simpl.
  - constructor.
  - destruct (keeps maxCost minContext reasoning vision mm); now constructor.
Qed.

(** What passing the four tests means for one candidate. *)
Lemma keeps_sound (mm : modelMatch) :
  F64.not_nan (CostPer1MIn (model mm)) ->
  keeps maxCost minContext reasoning vision mm = true ->
  (F64.gtb maxCost 0 = true ->
     (CostPer1MIn (model mm) <=? maxCost)%float = true) /\
  (minContext > 0 -> ContextWindow (model mm) >= minContext) /\
  (reasoning = true -> CanReason (model mm) = true) /\
  (vision = true -> SupportsImages (model mm) = true).
Proof.
  intros Hnum. unfold keeps.
  destruct (F64.gtb maxCost 0) eqn:HB; simpl.
  - destruct (F64.gtb (CostPer1MIn (model mm)) maxCost) eqn:HC; [discriminate|].
    destruct (minContext >? 0) eqn:Hm; simpl;
      [destruct (ContextWindow (model mm) <? minContext) eqn:Hc; [discriminate|]|];
      (destruct reasoning; simpl;
        [destruct (CanReason (model mm)); simpl; [|discriminate]|]);
      (destruct vision; simpl;
        [destruct (SupportsImages (model mm)); simpl; [|discriminate]|]);
      intros _; repeat split; try congruence; try lia;
      intros _; apply gtb_false_leb; auto; apply (gtb_not_nan _ _ HB).
  - destruct (minContext >? 0) eqn:Hm; simpl;
      [destruct (ContextWindow (model mm) <? minContext) eqn:Hc; [discriminate|]|];
      (destruct reasoning; simpl;
        [destruct (CanReason (model mm)); simpl; [|discriminate]|]);
      (destruct vision; simpl;
        [destruct (SupportsImages (model mm)); simpl; [|discriminate]|]);
      intros _; repeat split; try congruence; lia.
Qed.

End Filter.

(** On numbers, the four tests of the loop are the predicates of the
    specification. *)
Lemma keeps_passes (maxCost : float) (minContext : Z)
    (reasoning vision : bool) (mm : FindModels.modelMatch) :
  F64.not_nan maxCost ->
  F64.not_nan (catwalk.CostPer1MIn (FindModels.model mm)) ->
  FindModels.keeps maxCost minContext reasoning vision mm =
  FindModels.passes maxCost minContext reasoning vision (FindModels.model mm).
Proof.
  intros Hb Hc. unfold FindModels.keeps, FindModels.passes.
  assert (H0 : F64.not_nan 0) by reflexivity.
  assert (Hbudget :
    (F64.gtb maxCost 0 &&
     F64.gtb (catwalk.CostPer1MIn (FindModels.model mm)) maxCost) =
    negb ((maxCost <=? 0)%float ||
          (catwalk.CostPer1MIn (FindModels.model mm) <=? maxCost)%float)).
  { destruct (F64.gtb maxCost 0) eqn:E1.
    - destruct (maxCost <=? 0)%float eqn:E2;
        [rewrite (leb_gtb_false _ _ E2) in E1; discriminate|].
      simpl.
      destruct (F64.gtb (catwalk.CostPer1MIn (FindModels.model mm)) maxCost)
        eqn:E3.
      + destruct (catwalk.CostPer1MIn (FindModels.model mm) <=? maxCost)%float
          eqn:E4; [|reflexivity].
        rewrite (leb_gtb_false _ _ E4) in E3. discriminate.
      + now rewrite (gtb_false_leb _ _ Hc Hb E3).
    - now rewrite (gtb_false_leb _ _ Hb H0 E1). }
  assert (Hcontext :
    ((minContext >? 0) &&
     (catwalk.ContextWindow (FindModels.model mm) <? minContext)) =
    negb ((minContext <=? 0) ||
          (catwalk.ContextWindow (FindModels.model mm) >=? minContext))).
  { rewrite Z.gtb_ltb, Z.geb_leb.
    destruct (Z.ltb_spec 0 minContext), (Z.leb_spec minContext 0),
      (Z.ltb_spec (catwalk.ContextWindow (FindModels.model mm)) minContext),
      (Z.leb_spec minContext (catwalk.ContextWindow (FindModels.model mm)));
      simpl; try reflexivity; lia. }
  rewrite Hbudget, Hcontext.
  destruct ((maxCost <=? 0)%float ||
            (catwalk.CostPer1MIn (FindModels.model mm) <=? maxCost)%float);
    simpl; [|reflexivity].
  destruct ((minContext <=? 0) ||
            (catwalk.ContextWindow (FindModels.model mm) >=? minContext));
    simpl; [|reflexivity].
  destruct reasoning, (catwalk.CanReason (FindModels.model mm)); simpl;
    try reflexivity;
    destruct vision, (catwalk.SupportsImages (FindModels.model mm));
    reflexivity.
Qed.

(** C7. For a catalog whose prices are numbers, the output of
    [filterModels] is a subsequence of its input (same candidates, same
    relative order, none changed), every candidate in it satisfies each
    constraint that is active (cost <= budget when the budget is
    positive, context window >= minimum when the minimum is positive,
    reasoning and vision capability when required), and, the budget being
    a number, the candidates in it are exactly those of the input that
    pass the AND-combined predicates of the specification, a limit that
    is not positive being skipped. *)
Theorem filterModels_sound (models : list FindModels.modelMatch)
    (maxCost : float) (minContext : Z) (reasoning vision : bool) :
  Forall (fun mm => F64.not_nan (catwalk.CostPer1MIn (FindModels.model mm)))
    models ->
  Subseq (FindModels.filterModels models maxCost minContext reasoning vision)
    models /\
  Forall
    (fun mm =>
       (F64.gtb maxCost 0 = true ->
          (catwalk.CostPer1MIn (FindModels.model mm) <=? maxCost)%float = true) /\
       (minContext > 0 ->
          catwalk.ContextWindow (FindModels.model mm) >= minContext) /\
       (reasoning = true -> catwalk.CanReason (FindModels.model mm) = true) /\
       (vision = true -> catwalk.SupportsImages (FindModels.model mm) = true))
    (FindModels.filterModels models maxCost minContext reasoning vision) /\
  (F64.not_nan maxCost ->
   FindModels.filterModels models maxCost minContext reasoning vision =
   filter
     (fun mm =>
        FindModels.passes maxCost minContext reasoning vision
          (FindModels.model mm))
     models).
Proof.
  intros Hnum. rewrite Forall_forall in Hnum. split; [|split].
  - apply filterModels_Subseq.
  - rewrite filterModels_filter. apply Forall_forall. intros mm Hin.
    apply filter_In in Hin. destruct Hin as [Hin Hk].
    exact (keeps_sound _ _ _ _ mm (Hnum mm Hin) Hk).
  - intros Hb. rewrite filterModels_filter. apply filter_ext_in.
    intros mm Hin. apply keeps_passes; auto.
Qed.

Lemma filterModels_sound_witness :
  Subseq (FindModels.filterModels Fixtures.matches 1 30000 false false)
    Fixtures.matches /\
  Forall
    (fun mm =>
       (F64.gtb 1 0 = true ->
          (catwalk.CostPer1MIn (FindModels.model mm) <=? 1)%float = true) /\
       (30000 > 0 -> catwalk.ContextWindow (FindModels.model mm) >= 30000) /\
       (false = true -> catwalk.CanReason (FindModels.model mm) = true) /\
       (false = true -> catwalk.SupportsImages (FindModels.model mm) = true))
    (FindModels.filterModels Fixtures.matches 1 30000 false false) /\
  FindModels.filterModels Fixtures.matches 1 30000 false false =
  filter
    (fun mm => FindModels.passes 1 30000 false false (FindModels.model mm))
    Fixtures.matches.
Proof.
  destruct (filterModels_sound Fixtures.matches 1 30000 false false)
    as (H1 & H2 & H3).
  - repeat constructor.
  - split; [exact H1|]. split; [exact H2|]. apply H3. reflexivity.
Defined.

(** ** The wizard as a state machine *)

Section Wizard.
Import ModelSelector.
Variable slice : sort.SliceFn.

Lemma initialModel_cursorOnChoice (all : list modelScore) :
  cursorOnChoice (initialModel all).
Proof. intros _. simpl. split; [reflexivity | lia]. Qed.

(** Before the results a confirm reads a choice, records it and moves to
    the next step; it never panics. *)
Lemma handleEnter_advances (m : model) (s' : step) :
  cursorOnChoice m -> next (m_step m) = Some s' ->
  exists m', handleEnter slice m = Some (m', cmdNone) /\
             m_step m' = s' /\ cursorOnChoice m' /\
             (s' <> stepResults -> allModels m' = allModels m) /\
             (s' = stepResults ->
              allModels m' =
              slice modelScore byScore
                (map (rescore (m_requirements m')) (allModels m))).
Proof.
  intros Hc Hn.
  assert (Hs : m_step m <> stepResults)
    by (intros E; rewrite E in Hn; discriminate).
  destruct (Hc Hs) as [Hrows Hidx]. unfold handleEnter.
  destruct (nth_error (choices m) (Index (m_list m))) as [choice|] eqn:E.
  - destruct (m_step m); simpl in Hn; inversion Hn; subst s';
      eexists; (split; [reflexivity|]);
      (split; [reflexivity|]); (split; [|split]);
      try (intros _; reflexivity);
      try (intros H; exfalso; apply H; reflexivity);
      try discriminate;
      intros H; simpl; first [split; [reflexivity | lia] | congruence].
  - apply nth_error_None in E. lia.
Qed.

(** At the results a confirm returns the quit command and leaves the state
    as it is, unless the cursor is beyond the choices, where the read of
    [choices] panics. *)
Lemma handleEnter_results (m : model) :
  m_step m = stepResults ->
  handleEnter slice m = Some (m, cmdQuit) \/ handleEnter slice m = None.
Proof.
  intros Hs. unfold handleEnter.
  destruct (nth_error (choices m) (Index (m_list m))); [|now right].
  rewrite Hs. now left.
Qed.

Lemma cursor_moves_keep (m : model) :
  cursorOnChoice m ->
  cursorOnChoice (setListModel m (cursorUp (m_list m))) /\
  cursorOnChoice (setListModel m (cursorDown (m_list m))).
Proof.
  intros Hc. split; intros Hs; destruct (Hc Hs) as [Hrows Hidx]; simpl;
    (split; [exact Hrows|]).
  - lia.
  - destruct (Nat.ltb_spec (S (Index (m_list m))) (rows (m_list m))); lia.
Qed.

(** One message, from a state in which the cursor is on a choice. *)
Lemma Update_step (m : model) (e : msg) :
  cursorOnChoice m ->
  match Update slice m e with
  | Some (m', c) =>
      match e with
      | KeyEnter =>
          match next (m_step m) with
          | Some s' => c = cmdNone /\ m_step m' = s'
          | None => c = cmdQuit /\ m' = m
          end
      | KeyCtrlC | KeyEsc => c = cmdQuit /\ m' = m
      | _ => c = cmdNone /\ m_step m' = m_step m
      end /\ (c = cmdNone -> cursorOnChoice m')
  | None => e = KeyEnter /\ m_step m = stepResults
  end.
Proof.
  intros Hc. destruct e; simpl;
    try (split; [split; reflexivity | intros; try discriminate; auto]).
  - destruct (next (m_step m)) as [s'|] eqn:Hn.
    + destruct (handleEnter_advances m s' Hc Hn) as (m' & -> & Hs & Hc' & _).
      auto.
    + assert (Hs : m_step m = stepResults)
        by (destruct (m_step m); simpl in Hn; congruence).
      destruct (handleEnter_results m Hs) as [-> | ->]; [|auto].
      split; [auto | discriminate].
  - apply (cursor_moves_keep m Hc).
  - apply (cursor_moves_keep m Hc).
Qed.

(** A session that is still waiting has its cursor on a choice and has
    advanced one step per confirm. *)
Lemma run_waiting (events : list msg) (m0 m : model) :
  cursorOnChoice m0 -> run slice m0 events = Waiting m ->
  cursorOnChoice m /\
  (stepIndex (m_step m) =
   stepIndex (m_step m0) + List.length (filter isEnter events))%nat.
Proof.
  revert m0. induction events as [|e rest IH]; intros m0 Hc Hrun; simpl in *.
  - inversion Hrun; subst. split; [assumption | lia].
  - pose proof (Update_step m0 e Hc) as Hu.
    destruct (Update slice m0 e) as [[m1 c]|]; [|discriminate].
    destruct c; [|discriminate].
    destruct Hu as [Hu Hc1]. specialize (Hc1 eq_refl).
    destruct (IH m1 Hc1 Hrun) as [Hcm Hidx]. split; [assumption|].
    rewrite Hidx. destruct e; simpl; try (destruct Hu as [_ ->]; lia);
      try (destruct Hu; discriminate).
    destruct (m_step m0); simpl in Hu; destruct Hu as [Hq Hs];
      try discriminate; rewrite Hs; simpl; lia.
Qed.

End Wizard.

(** C8. From the initial state and after any sequence of messages that
    leaves the session waiting, the step reached is the number of confirms
    consumed, counted along budget, context, reasoning, vision, results;
    and the next message, whatever it is, does this: a confirm before the
    results moves to the next step and to no other; a confirm at the
    results ends the session, by the quit command with the state unchanged
    or, when the cursor is on a row beyond the choices, by the panic of the
    out-of-range read; a cancel quits; any other message leaves the step
    where it is. *)
Theorem wizard_never_backward (slice : sort.SliceFn)
    (all : list ModelSelector.modelScore) (events : list ModelSelector.msg)
    (m : ModelSelector.model) (e : ModelSelector.msg) :
  ModelSelector.run slice (ModelSelector.initialModel all) events =
    ModelSelector.Waiting m ->
  ModelSelector.stepIndex (ModelSelector.m_step m) =
    List.length (filter ModelSelector.isEnter events) /\
  match ModelSelector.Update slice m e with
  | Some (m', c) =>
      match e with
      | ModelSelector.KeyEnter =>
          match ModelSelector.next (ModelSelector.m_step m) with
          | Some s' => c = ModelSelector.cmdNone /\ ModelSelector.m_step m' = s'
          | None => c = ModelSelector.cmdQuit /\ m' = m
          end
      | ModelSelector.KeyCtrlC | ModelSelector.KeyEsc =>
          c = ModelSelector.cmdQuit /\ m' = m
      | _ => c = ModelSelector.cmdNone /\
             ModelSelector.m_step m' = ModelSelector.m_step m
      end
  | None => e = ModelSelector.KeyEnter /\
            ModelSelector.m_step m = ModelSelector.stepResults
  end.
Proof.
  intros Hrun.
  destruct (run_waiting slice events _ m
              (initialModel_cursorOnChoice all) Hrun) as [Hc Hidx].
  split; [exact Hidx|].
  pose proof (Update_step slice m e Hc) as Hu.
  destruct (ModelSelector.Update slice m e) as [[m' c]|]; [|exact Hu].
  exact (proj1 Hu).
Qed.

Lemma wizard_never_backward_witness :
  ModelSelector.stepIndex (ModelSelector.m_step Fixtures.wizardAtReasoning) =
    List.length (filter ModelSelector.isEnter Fixtures.wizardEvents) /\
  match ModelSelector.Update sort.insertionSort Fixtures.wizardAtReasoning
          ModelSelector.KeyEnter with
  | Some (m', c) =>
      match ModelSelector.next
              (ModelSelector.m_step Fixtures.wizardAtReasoning) with
      | Some s' => c = ModelSelector.cmdNone /\ ModelSelector.m_step m' = s'
      | None => c = ModelSelector.cmdQuit /\ m' = Fixtures.wizardAtReasoning
      end
  | None => ModelSelector.KeyEnter = ModelSelector.KeyEnter /\
            ModelSelector.m_step Fixtures.wizardAtReasoning =
              ModelSelector.stepResults
  end.
Proof.
  apply (wizard_never_backward sort.insertionSort Fixtures.scores
           Fixtures.wizardEvents Fixtures.wizardAtReasoning
           ModelSelector.KeyEnter).
  reflexivity.
Defined.

(** ** The session tracker *)

Section Session.
Import ChatBot.

Lemma setMessages_same (s : chatSession) : setMessages s (messages s) = s.
Proof. destruct s; reflexivity. Qed.

Lemma setMessages_twice (s : chatSession) (ms ms' : list ChatCompletionMessage) :
  setMessages (setMessages s ms) ms' = setMessages s ms'.
Proof. reflexivity. Qed.

(** Dropping the last element of a slice that was just appended to. *)
Lemma drop_appended {A : Type} (l : list A) (x : A) :
  firstn (List.length (l ++ [x]) - 1) (l ++ [x]) = l.
Proof.
  rewrite length_app. simpl.
  replace (List.length l + 1 - 1)%nat with (List.length l + 0)%nat by lia.
  rewrite firstn_app_2. simpl. apply app_nil_r.
Qed.

End Session.

(** C6. For a line that is a message (not empty after trimming, not a
    command), the loop appends the user message and then makes the
    completion call on the history that ends with it; when that call fails,
    the pass ends with the session exactly as it was before the line
    (message history, token total and cost total), and the loop goes on
    with the next input from that session. *)
Theorem failed_exchange_rolls_back (c : ChatBot.client) (maxTokens : Z)
    (session : ChatBot.chatSession) (calls : nat) (line : string) :
  strings.TrimSpace line <> ""%string ->
  strings.HasPrefix (strings.TrimSpace line) "/" = false ->
  ChatBot.sendMessage c calls maxTokens
    (ChatBot.withUserMessage session (strings.TrimSpace line)) = None ->
  ChatBot.exchange c maxTokens session calls line =
    ChatBot.Reading session (S calls) /\
  forall rest : list ChatBot.readResult,
    ChatBot.runChatLoop c maxTokens session calls (ChatBot.ReadLine line :: rest) =
    ChatBot.runChatLoop c maxTokens session (S calls) rest.
Proof.
  intros Hne Hcmd Hfail.
  assert (E : ChatBot.exchange c maxTokens session calls line =
              ChatBot.Reading session (S calls)).
  { unfold ChatBot.exchange.
    apply String.eqb_neq in Hne. rewrite Hne, Hcmd.
    rewrite Hfail. unfold ChatBot.withUserMessage.
    rewrite setMessages_twice. simpl ChatBot.messages.
    rewrite drop_appended. now rewrite setMessages_same. }
  split; [exact E|]. intros rest. simpl. now rewrite E.
Qed.

Lemma failed_exchange_rolls_back_witness :
  ChatBot.exchange Fixtures.failingClient 0 Fixtures.chat 1 " How are you? " =
    ChatBot.Reading Fixtures.chat 2 /\
  forall rest : list ChatBot.readResult,
    ChatBot.runChatLoop Fixtures.failingClient 0 Fixtures.chat 1
      (ChatBot.ReadLine " How are you? " :: rest) =
    ChatBot.runChatLoop Fixtures.failingClient 0 Fixtures.chat 2 rest.
Proof.
  apply (failed_exchange_rolls_back Fixtures.failingClient 0 Fixtures.chat 1
           " How are you? ").
  - discriminate.
  - reflexivity.
  - reflexivity.
Defined.

(** C10. No command changes the token total or the cost total. [/clear]
    (in any letter case) replaces the history by its leading system
    message, or by nothing when it does not start with one, and the loop
    continues; every other command returns the session as it was, and
    [/cost] continues the loop with it. *)
Theorem commands_keep_totals (session : ChatBot.chatSession) (cmd : string) :
  let r := ChatBot.handleCommand session cmd in
  ChatBot.totalTokens (fst r) = ChatBot.totalTokens session /\
  ChatBot.totalCost (fst r) = ChatBot.totalCost session /\
  (if String.eqb (strings.ToLower cmd) "/clear"
   then snd r = true /\
        ChatBot.messages (fst r) = ChatBot.leadingSystem (ChatBot.messages session) /\
        ChatBot.messages (fst r) = firstn (List.length (ChatBot.messages (fst r)))
                                     (ChatBot.messages session) /\
        (List.length (ChatBot.messages (fst r)) <= 1)%nat
   else fst r = session) /\
  (if String.eqb (strings.ToLower cmd) "/cost"
   then r = (session, true) else True).
Proof.
  unfold ChatBot.handleCommand.
  destruct (String.eqb (strings.ToLower cmd) "/clear") eqn:Ec.
  - apply String.eqb_eq in Ec. rewrite Ec. simpl.
    repeat split; try reflexivity;
      destruct (ChatBot.messages session) as [|first rest]; simpl; auto;
      destruct (String.eqb (ChatBot.Role first) ChatBot.ChatMessageRoleSystem);
      simpl; auto.
  - destruct (String.eqb (strings.ToLower cmd) "/quit"
              || String.eqb (strings.ToLower cmd) "/exit"
              || String.eqb (strings.ToLower cmd) "/q") eqn:Eq; simpl.
    + repeat split.
      destruct (String.eqb (strings.ToLower cmd) "/cost") eqn:E; [|exact I].
      apply String.eqb_eq in E. rewrite E in Eq. discriminate.
    + destruct (String.eqb (strings.ToLower cmd) "/cost");
        [|destruct (String.eqb (strings.ToLower cmd) "/help")];
        repeat split.
Qed.

(** ** Batches of cost scenarios *)

Section Batch.
Import catwalk CostCalculator.
Variable providers : list Provider.

Lemma calculateCost_None (name : string) (i o : Z) (r : float) :
  calculateCost providers name i o r = None <-> findModel providers name = None.
Proof.
  unfold calculateCost.
  destruct (findModel providers name) as [[m p]|]; split; congruence.
Qed.

(** The loop appends to the results it has, so it can be run from any
    results collected so far. *)
Lemma batch_loop (scenarios : list scenario) (acc : list costResult) :
  fold_left
    (fun results s =>
       match calculateCost providers (sModel s) (sInputTokens s)
               (sOutputTokens s) (sCachedRatio s) with
       | Some result => results ++ [result]
       | None => results
       end)
    scenarios acc =
  acc ++ resolvedResults providers scenarios.
Proof.
  revert acc. induction scenarios as [|s rest IH]; intros acc; simpl.
  - now rewrite app_nil_r.
  - rewrite IH. unfold scenarioCost.
    destruct (calculateCost providers (sModel s) (sInputTokens s)
                (sOutputTokens s) (sCachedRatio s)); simpl.
    + now rewrite <- app_assoc.
    + reflexivity.
Qed.

Lemma batchResults_resolved (scenarios : list scenario) :
  batchResults providers scenarios = resolvedResults providers scenarios.
Proof. unfold batchResults. now rewrite batch_loop. Qed.

End Batch.

(** C4. The batch loop returns exactly the results of the scenarios whose
    model resolves, in scenario order, and these are what is handed to
    the display: a scenario whose lookup fails adds nothing and stops
    nothing, so the batch ends as it would without that scenario. After
    the file is decoded the only fatal exit is the one of the display (a
    format that is not known, results the JSON encoder refuses), and it
    does not depend on the lookups that failed. In a batch of two where
    one model is unknown, the one result of the known model is what is
    displayed, whichever of the two comes first. *)
Theorem batch_skips_unresolved (providers : list catwalk.Provider)
    (outputFormat : string) (scenarios : list CostCalculator.scenario) :
  CostCalculator.batchResults providers scenarios =
    CostCalculator.resolvedResults providers scenarios /\
  CostCalculator.processBatch providers outputFormat (Some scenarios) =
    match CostCalculator.resolvedResults providers scenarios with
    | [] => CostCalculator.NoValidScenarios
    | results =>
        match CostCalculator.displayCostResult outputFormat results with
        | CostCalculator.Written kind shown =>
            CostCalculator.Displayed kind shown
        | CostCalculator.DisplayFatal => CostCalculator.Fatal
        end
    end /\
  (forall kind shown,
     CostCalculator.processBatch providers outputFormat (Some scenarios) =
       CostCalculator.Displayed kind shown ->
     shown = CostCalculator.resolvedResults providers scenarios) /\
  (forall before unknown after,
     scenarios = before ++ unknown :: after ->
     CostCalculator.findModel providers (CostCalculator.sModel unknown)
       = None ->
     CostCalculator.processBatch providers outputFormat (Some scenarios) =
     CostCalculator.processBatch providers outputFormat
       (Some (before ++ after))) /\
  forall (known unknown : CostCalculator.scenario)
         (result : CostCalculator.costResult) (kind : CostCalculator.outputKind),
    CostCalculator.scenarioCost providers known = Some result ->
    CostCalculator.findModel providers (CostCalculator.sModel unknown) = None ->
    CostCalculator.displayCostResult outputFormat [result] =
      CostCalculator.Written kind [result] ->
    CostCalculator.processBatch providers outputFormat
      (Some [known; unknown]) = CostCalculator.Displayed kind [result] /\
    CostCalculator.processBatch providers outputFormat
      (Some [unknown; known]) = CostCalculator.Displayed kind [result].
Proof.
  assert (Hp : forall l,
    CostCalculator.processBatch providers outputFormat (Some l) =
    match CostCalculator.resolvedResults providers l with
    | [] => CostCalculator.NoValidScenarios
    | results =>
        match CostCalculator.displayCostResult outputFormat results with
        | CostCalculator.Written kind shown =>
            CostCalculator.Displayed kind shown
        | CostCalculator.DisplayFatal => CostCalculator.Fatal
        end
    end).
  { intros l. unfold CostCalculator.processBatch.
    now rewrite batchResults_resolved. }
  assert (Hw : forall fmt rs kind shown,
    CostCalculator.displayCostResult fmt rs =
      CostCalculator.Written kind shown -> shown = rs).
  { intros fmt rs kind shown. unfold CostCalculator.displayCostResult.
    destruct (String.eqb _ "json");
      [destruct (forallb CostCalculator.encodable rs)|];
      [| |destruct (String.eqb _ "csv"); [|destruct (String.eqb _ "table")]];
      intros H; inversion H; reflexivity. }
  split; [apply batchResults_resolved|]. split; [apply Hp|].
  split; [|split].
  - intros kind shown. rewrite Hp.
    destruct (CostCalculator.resolvedResults providers scenarios)
      as [|r rs] eqn:E; [discriminate|].
    destruct (CostCalculator.displayCostResult outputFormat (r :: rs))
      as [k sh|] eqn:Ed; [|discriminate].
    intros H. inversion H; subst. exact (Hw _ _ _ _ Ed).
  - intros before unknown after -> Hu. rewrite !Hp.
    assert (Hn : CostCalculator.scenarioCost providers unknown = None)
      by (apply calculateCost_None; exact Hu).
    unfold CostCalculator.resolvedResults.
    rewrite !flat_map_app. simpl. now rewrite Hn.
  - intros known unknown result kind Hk Hu Hd.
    assert (Hn : CostCalculator.scenarioCost providers unknown = None)
      by (apply calculateCost_None; exact Hu).
    rewrite !Hp. simpl. rewrite Hk, Hn. simpl. rewrite Hd.
    split; reflexivity.
Qed.

Lemma batch_skips_unresolved_witness :
  CostCalculator.processBatch Fixtures.providers "table"
    (Some [Fixtures.knownScenario; Fixtures.unknownScenario]) =
    CostCalculator.Displayed CostCalculator.Table [Fixtures.knownResult] /\
  CostCalculator.processBatch Fixtures.providers "table"
    (Some [Fixtures.unknownScenario; Fixtures.knownScenario]) =
    CostCalculator.Displayed CostCalculator.Table [Fixtures.knownResult].
Proof.
  apply (batch_skips_unresolved Fixtures.providers "table" []).
  - reflexivity.
  - reflexivity.
  - reflexivity.
Defined.

(** ** The requirement-weighted policy *)

Section WizardScores.
Import catwalk ModelSelector.
Variable slice : sort.SliceFn.

(** The loop body of [calculateScores] computes the policy of the
    specification: same score, same reasons in the same order. *)
Lemma scoreOne_weighted (req : requirements) (m : Model) :
  scoreOne req m = (weightedScore req m, map label (triggered req m)).
Proof.
  unfold scoreOne, weightedScore, triggered.
  assert (Hctx : (ContextWindow m >=? contextSize req) = false ->
                 (ContextWindow m <? contextSize req) = true).
  { rewrite Z.geb_leb. intros H. apply Z.leb_gt in H. now apply Z.ltb_lt. }
  destruct (F64.gtb (budget req) 0 && F64.gtb (CostPer1MIn m) (budget req));
    [|destruct (CostPer1MIn m <=? budget req / 2)%float];
    (destruct (ContextWindow m >=? contextSize req);
       [|rewrite (Hctx eq_refl)]);
    destruct (reasoning req), (CanReason m), (vision req), (SupportsImages m);
    reflexivity.
Qed.

(** One message keeps [scoredOnce]. *)
Lemma Update_scoredOnce (all : list modelScore) (m m' : model) (e : msg) :
  cursorOnChoice m -> scoredOnce slice all m ->
  Update slice m e = Some (m', cmdNone) -> scoredOnce slice all m'.
Proof.
  intros Hc [Hbefore Hat] Hu. destruct e; simpl in Hu;
    try discriminate;
    try (inversion Hu; subst m'; split; assumption).
  destruct (next (m_step m)) as [s'|] eqn:Hn.
  - destruct (handleEnter_advances slice m s' Hc Hn)
      as (m1 & E & Hs & _ & Hkeep & Hnew).
    rewrite E in Hu. inversion Hu; subst m1.
    assert (Hm : allModels m = all)
      by (apply Hbefore; intros Er; rewrite Er in Hn; discriminate).
    split; intros H.
    + rewrite Hkeep, Hm; [reflexivity | congruence].
    + rewrite Hnew, Hm; [reflexivity | congruence].
  - assert (Hs : m_step m = stepResults)
      by (destruct (m_step m); simpl in Hn; congruence).
    destruct (handleEnter_results slice m Hs) as [E | E];
      rewrite E in Hu; discriminate.
Qed.

Lemma run_scoredOnce (all : list modelScore) (events : list msg)
    (m0 m : model) :
  cursorOnChoice m0 -> scoredOnce slice all m0 ->
  run slice m0 events = Waiting m -> scoredOnce slice all m.
Proof.
  revert m0. induction events as [|e rest IH]; intros m0 Hc Hinv Hrun;
    simpl in Hrun.
  - inversion Hrun; subst. assumption.
  - pose proof (Update_step slice m0 e Hc) as Hstep.
    destruct (Update slice m0 e) as [[m1 c]|] eqn:Hu; [|discriminate].
    destruct c; [|discriminate].
    apply (IH m1); [apply Hstep; reflexivity | | assumption].
    apply (Update_scoredOnce all m0 m1 e); assumption.
Qed.

End WizardScores.

(** Rescoring a candidate is applying the policy of the specification
    to it. *)
Lemma rescore_weighted (req : ModelSelector.requirements)
    (mm : ModelSelector.modelScore) :
  ModelSelector.rescore req mm = ModelSelector.weighted req mm.
Proof.
  unfold ModelSelector.rescore, ModelSelector.weighted.
  now rewrite scoreOne_weighted.
Qed.

(** C5. The loop body of [calculateScores] is the requirement-weighted
    policy: base 100, -100 when a budget is set and the cost exceeds it,
    else +30 when the cost is at most half the budget, +20 when the
    context meets the minimum and -50 otherwise, +25 or -50 for reasoning
    and for vision when required, and the reasons are the labels of the
    triggered rules in that order (the labels of the specification, with
    a capital first letter). In a wizard started on the candidates [all],
    [allModels] is [all] untouched until the results are entered, and
    from then on it is the one ranking of the whole of [all] with every
    candidate given the score and the reasons of the policy under the
    requirements collected: for a sort that meets its contract, each
    candidate of [all] is there once, and each element carries the
    requirement-weighted score of its model and the labels of the rules
    its model triggers. *)
Theorem wizard_scores_full_set (slice : sort.SliceFn)
    (all : list ModelSelector.modelScore) (events : list ModelSelector.msg)
    (m : ModelSelector.model) :
  ModelSelector.run slice (ModelSelector.initialModel all) events =
    ModelSelector.Waiting m ->
  (forall (req : ModelSelector.requirements) (md : catwalk.Model),
     ModelSelector.scoreOne req md =
     (ModelSelector.weightedScore req md,
      map ModelSelector.label (ModelSelector.triggered req md))) /\
  map strings.ToLower
    (map ModelSelector.label
       [ModelSelector.OverBudget; ModelSelector.WellUnderBudget;
        ModelSelector.MeetsContext; ModelSelector.BelowContext]) =
    ["over budget"; "well under budget"; "meets context requirement";
     "below context requirement"]%string /\
  (ModelSelector.m_step m <> ModelSelector.stepResults ->
   ModelSelector.allModels m = all) /\
  (ModelSelector.m_step m = ModelSelector.stepResults ->
   ModelSelector.allModels m =
   slice ModelSelector.modelScore ModelSelector.byScore
     (map (ModelSelector.weighted (ModelSelector.m_requirements m)) all) /\
   (sort.Sorts slice ->
    Permutation (ModelSelector.allModels m)
      (map (ModelSelector.weighted (ModelSelector.m_requirements m)) all) /\
    Forall
      (fun mm =>
         ModelSelector.ms_score mm =
           ModelSelector.weightedScore (ModelSelector.m_requirements m)
             (ModelSelector.ms_model mm) /\
         ModelSelector.ms_reasons mm =
           map ModelSelector.label
             (ModelSelector.triggered (ModelSelector.m_requirements m)
                (ModelSelector.ms_model mm)))
      (ModelSelector.allModels m))).
Proof.
  intros Hrun. split; [apply scoreOne_weighted|]. split; [reflexivity|].
  destruct (run_scoredOnce slice all events (ModelSelector.initialModel all) m)
    as [Hbefore Hat].
  - apply initialModel_cursorOnChoice.
  - split; [reflexivity | discriminate].
  - exact Hrun.
  - split; [exact Hbefore|]. intros Hstep.
    assert (Hall : ModelSelector.allModels m =
              slice ModelSelector.modelScore ModelSelector.byScore
                (map (ModelSelector.weighted (ModelSelector.m_requirements m))
                   all)).
    { rewrite (Hat Hstep). f_equal. apply map_ext. intros mm.
      apply rescore_weighted. }
    split; [exact Hall|]. intros Hs.
    assert (Hperm : Permutation (ModelSelector.allModels m)
              (map (ModelSelector.weighted (ModelSelector.m_requirements m))
                 all)) by (rewrite Hall; apply Hs).
    split; [exact Hperm|]. apply Forall_forall. intros mm Hin.
    apply (Permutation_in _ Hperm) in Hin. apply in_map_iff in Hin.
    destruct Hin as (mm0 & <- & _). split; reflexivity.
Qed.

Lemma wizard_scores_full_set_witness :
  ModelSelector.allModels Fixtures.wizardAtResults =
  sort.insertionSort ModelSelector.modelScore ModelSelector.byScore
    (map (ModelSelector.weighted
            {| ModelSelector.budget := 1; ModelSelector.contextSize := 100000;
               ModelSelector.reasoning := true;
               ModelSelector.vision := false |})
       Fixtures.scores) /\
  Forall
    (fun mm =>
       ModelSelector.ms_score mm =
         ModelSelector.weightedScore
           {| ModelSelector.budget := 1; ModelSelector.contextSize := 100000;
              ModelSelector.reasoning := true;
              ModelSelector.vision := false |}
           (ModelSelector.ms_model mm) /\
       ModelSelector.ms_reasons mm =
         map ModelSelector.label
           (ModelSelector.triggered
              {| ModelSelector.budget := 1;
                 ModelSelector.contextSize := 100000;
                 ModelSelector.reasoning := true;
                 ModelSelector.vision := false |}
              (ModelSelector.ms_model mm)))
    (ModelSelector.allModels Fixtures.wizardAtResults).
Proof.
  assert (Hreq : ModelSelector.m_requirements Fixtures.wizardAtResults =
                 {| ModelSelector.budget := 1;
                    ModelSelector.contextSize := 100000;
                    ModelSelector.reasoning := true;
                    ModelSelector.vision := false |})
    by (vm_compute; reflexivity).
  assert (Hrun : ModelSelector.run sort.insertionSort
                   (ModelSelector.initialModel Fixtures.scores)
                   Fixtures.wizardToResults =
                 ModelSelector.Waiting Fixtures.wizardAtResults)
    by (vm_compute; reflexivity).
  assert (Hstep : ModelSelector.m_step Fixtures.wizardAtResults =
                  ModelSelector.stepResults)
    by (vm_compute; reflexivity).
  rewrite <- Hreq.
  destruct (proj2 (proj2 (proj2
    (wizard_scores_full_set sort.insertionSort Fixtures.scores
       Fixtures.wizardToResults Fixtures.wizardAtResults Hrun))) Hstep)
    as [Hall Hsorted].
  split; [exact Hall|]. exact (proj2 (Hsorted insertionSort_Sorts)).
Defined.

(** ** The cost formula *)

Lemma SFmul_comm (x y : spec_float) : SF64mul x y = SF64mul y x.
Proof.
  unfold SF64mul.
  destruct x as [sx|sx| |sx mx ex], y as [sy|sy| |sy my ey]; simpl;
    try reflexivity; try (now rewrite xorb_comm).
  now rewrite xorb_comm, Pos.mul_comm, Z.add_comm.
Qed.

Lemma mul_comm (x y : float) : (x * y)%float = (y * x)%float.
Proof.
  apply Prim2SF_inj. rewrite !mul_spec. apply SFmul_comm.
Qed.

(** C3. When the lookup finds a model, [calculateCost] returns the cost of
    the specification: [cachedRatio * inputTokens] billed at the cached
    input rate plus the remaining [(1 - cachedRatio) * inputTokens] at the
    standard input rate; all output tokens at the output rate, whatever the
    ratio; and their sum as total. For a model priced 2.50 in, 10 out and
    1.25 cached in, 1000 input and 500 output tokens at ratio 0.5 cost
    0.001875, 0.005 and 0.006875 (as binary64 values). *)
Theorem calculateCost_formula (providers : list catwalk.Provider)
    (modelName : string) (inputTokens outputTokens : Z) (cachedRatio : float)
    (m : catwalk.Model) (p : catwalk.Provider) :
  CostCalculator.findModel providers modelName = Some (m, p) ->
  exists r : CostCalculator.costResult,
    CostCalculator.calculateCost providers modelName inputTokens outputTokens
      cachedRatio = Some r /\
    CostCalculator.Model_ r = catwalk.Name m /\
    CostCalculator.Provider_ r = catwalk.PName p /\
    CostCalculator.InputCost r =
      CostCalculator.specInputCost m inputTokens cachedRatio /\
    CostCalculator.OutputCost r =
      CostCalculator.specOutputCost m outputTokens /\
    CostCalculator.TotalCost r =
      (CostCalculator.InputCost r + CostCalculator.OutputCost r)%float /\
    (catwalk.CostPer1MIn m = 2.5%float ->
     catwalk.CostPer1MOut m = 10%float ->
     catwalk.CostPer1MInCached m = 1.25%float ->
     inputTokens = 1000 -> outputTokens = 500 -> cachedRatio = 0.5%float ->
     CostCalculator.InputCost r = 0.001875%float /\
     CostCalculator.OutputCost r = 0.005%float /\
     CostCalculator.TotalCost r = 0.006875%float).
Proof.
  intros Hfind. unfold CostCalculator.calculateCost. rewrite Hfind.
  eexists. split; [reflexivity|]. simpl.
  repeat (split; [reflexivity|]). split.
  - unfold CostCalculator.specInputCost, CostCalculator.billed.
    now rewrite (mul_comm cachedRatio), (mul_comm (1 - cachedRatio)).
  - split; [reflexivity|]. split; [reflexivity|].
    intros -> -> -> -> -> ->. repeat split.
Qed.

Lemma calculateCost_formula_witness :
  exists r : CostCalculator.costResult,
    CostCalculator.calculateCost Fixtures.providers "gpt-4o" 1000 500 0.5 =
      Some r /\
    CostCalculator.InputCost r = 0.001875%float /\
    CostCalculator.OutputCost r = 0.005%float /\
    CostCalculator.TotalCost r = 0.006875%float.
Proof.
  destruct (calculateCost_formula Fixtures.providers "gpt-4o" 1000 500 0.5
              Fixtures.modelA Fixtures.providerX eq_refl)
    as (r & Hr & _ & _ & _ & _ & _ & Hvalues).
  exists r. split; [exact Hr|].
  apply Hvalues; reflexivity.
Defined.

(** * Further properties of the programs *)

(** ** More on the filter *)

Lemma filter_twice {A : Type} (f g : A -> bool) (l : list A) :
  filter f (filter g l) = filter (fun x => g x && f x) l.
Proof.
  induction l as [|x l IH]; simpl; [reflexivity|].
  destruct (g x); simpl; [destruct (f x)|]; now rewrite IH.
Qed.

(** The four tests are independent: a candidate passes them together
    exactly when it passes each one alone. *)
Lemma keeps_split (maxCost : float) (minContext : Z) (reasoning vision : bool)
    (mm : FindModels.modelMatch) :
  FindModels.keeps maxCost minContext reasoning vision mm =
  FindModels.keeps maxCost 0 false false mm &&
  FindModels.keeps 0 minContext false false mm &&
  FindModels.keeps 0 0 reasoning false mm &&
  FindModels.keeps 0 0 false vision mm.
Proof.
  unfold FindModels.keeps.
  change (F64.gtb 0 0) with false. change (0 >? 0) with false. simpl.
  destruct (F64.gtb maxCost 0 &&
            F64.gtb (catwalk.CostPer1MIn (FindModels.model mm)) maxCost);
    simpl; [reflexivity|].
  destruct ((minContext >? 0) &&
            (catwalk.ContextWindow (FindModels.model mm) <? minContext));
    simpl; [reflexivity|].
  destruct reasoning, (catwalk.CanReason (FindModels.model mm)); simpl;
    try reflexivity;
    destruct vision, (catwalk.SupportsImages (FindModels.model mm));
    reflexivity.
Qed.

(** X1. Filtering is idempotent: filtering the output again with the same
    constraints changes nothing. *)
Theorem filterModels_idempotent (models : list FindModels.modelMatch)
    (maxCost : float) (minContext : Z) (reasoning vision : bool) :
  FindModels.filterModels
    (FindModels.filterModels models maxCost minContext reasoning vision)
    maxCost minContext reasoning vision =
  FindModels.filterModels models maxCost minContext reasoning vision.
Proof.
  rewrite !filterModels_filter, filter_twice.
  apply filter_ext. intros mm. apply andb_diag.
Qed.

(** X2. Filtering in stages, one constraint at a time as the interactive
    mode does (cost first, then context, then the capabilities), gives the
    list that one call with all the constraints gives. *)
Theorem filterModels_staged (models : list FindModels.modelMatch)
    (maxCost : float) (minContext : Z) (reasoning vision : bool) :
  FindModels.filterModels
    (FindModels.filterModels
       (FindModels.filterModels
          (FindModels.filterModels models maxCost 0 false false)
          0 minContext false false)
       0 0 reasoning false)
    0 0 false vision =
  FindModels.filterModels models maxCost minContext reasoning vision.
Proof.
  rewrite !filterModels_filter, !filter_twice.
  apply filter_ext. intros mm.
  rewrite (keeps_split maxCost minContext reasoning vision mm).
  now rewrite !andb_assoc.
Qed.

(** X3. A limit that is not positive is no limit: with a budget that is
    zero, negative or not a number, a minimum context that is zero or
    negative and no capability required, every candidate is kept. *)
Theorem filterModels_no_limits (models : list FindModels.modelMatch)
    (maxCost : float) (minContext : Z) :
  F64.gtb maxCost 0 = false -> minContext <= 0 ->
  FindModels.filterModels models maxCost minContext false false = models.
Proof.
  intros Hc Hx. rewrite filterModels_filter.
  induction models as [|mm rest IH]; simpl; [reflexivity|].
  unfold FindModels.keeps at 1. rewrite Hc. simpl.
  replace (minContext >? 0) with false
    by (symmetry; rewrite Z.gtb_ltb; apply Z.ltb_ge; exact Hx).
  simpl. now rewrite IH.
Qed.

Lemma filterModels_no_limits_witness :
  FindModels.filterModels Fixtures.matches nan (-5) false false =
  Fixtures.matches.
Proof.
  apply (filterModels_no_limits Fixtures.matches nan (-5)).
  - reflexivity.
  - lia.
Defined.

(** ** The search of find-models *)

Section SearchProperties.
Import catwalk.
Variable slice : sort.SliceFn.
Hypothesis slice_sorts : sort.Sorts slice.

Lemma scoreModels_Permutation (models : list FindModels.modelMatch) :
  Permutation (FindModels.scoreModels slice models)
    (map FindModels.setScore models).
Proof. unfold FindModels.scoreModels. apply slice_sorts. Qed.

Lemma scoreModels_length (models : list FindModels.modelMatch) :
  List.length (FindModels.scoreModels slice models) = List.length models.
Proof.
  rewrite (Permutation_length (scoreModels_Permutation models)).
  apply length_map.
Qed.

Lemma collect_In (providers : list Provider) (mm : FindModels.modelMatch) :
  In mm (Search.collect providers) ->
  In (FindModels.provider mm) providers /\
  In (FindModels.model mm) (Models (FindModels.provider mm)).
Proof.
  unfold Search.collect. rewrite in_flat_map. intros (p & Hp & Hm).
  apply in_map_iff in Hm. destruct Hm as (m & <- & Hm). simpl. auto.
Qed.

End SearchProperties.

(** X4. The search prints "no models" exactly when the filter keeps
    nothing. Otherwise it counts every filtered candidate, shows the first
    ten of the ranking (or all, when there are fewer), and each candidate
    shown is one the filter kept, still paired with the provider that lists
    its model, and carries the simple-policy score of its model. *)
Theorem search_shows_ranked_matches (slice : sort.SliceFn)
    (providers : list catwalk.Provider) (maxCost : float) (minContext : Z)
    (reasoning vision : bool) :
  sort.Sorts slice ->
  match Search.search slice (Search.collect providers) maxCost minContext
          reasoning vision with
  | Search.NoMatches =>
      FindModels.filterModels (Search.collect providers) maxCost minContext
        reasoning vision = []
  | Search.Shown top shown total =>
      total = List.length
                (FindModels.filterModels (Search.collect providers) maxCost
                   minContext reasoning vision) /\
      (0 < total)%nat /\
      shown = Nat.min 10 total /\
      List.length top = shown /\
      Forall
        (fun mm =>
           In (FindModels.provider mm) providers /\
           In (FindModels.model mm)
              (catwalk.Models (FindModels.provider mm)) /\
           FindModels.keeps maxCost minContext reasoning vision mm = true /\
           FindModels.score mm = FindModels.simpleScore (FindModels.model mm))
        top
  end.
Proof.
  intros Hs. unfold Search.search.
  destruct (FindModels.filterModels (Search.collect providers) maxCost
              minContext reasoning vision) as [|mm0 rest] eqn:E;
    [reflexivity|].
  unfold Search.displayMatches. rewrite <- E.
  rewrite (scoreModels_length slice Hs).
  split; [reflexivity|]. split; [rewrite E; simpl; lia|].
  split; [reflexivity|]. split.
  - rewrite length_firstn. now rewrite (scoreModels_length slice Hs).
  - apply Forall_forall. intros mm Hin.
    assert (Hin' : In mm (FindModels.scoreModels slice
                     (FindModels.filterModels (Search.collect providers)
                        maxCost minContext reasoning vision))).
    { clear -Hin.
      rewrite <- (firstn_skipn 10 (FindModels.scoreModels slice _)).
      apply in_or_app. now left. }
    apply (Permutation_in _ (scoreModels_Permutation slice Hs _)) in Hin'.
    apply in_map_iff in Hin'. destruct Hin' as (mm1 & <- & H1).
    rewrite filterModels_filter in H1. apply filter_In in H1.
    destruct H1 as [H1 Hk]. destruct (collect_In providers mm1 H1).
    repeat split; assumption.
Qed.

Lemma search_shows_ranked_matches_witness :
  match Search.search sort.insertionSort (Search.collect Fixtures.providers)
          1 30000 false false with
  | Search.NoMatches =>
      FindModels.filterModels (Search.collect Fixtures.providers) 1 30000
        false false = []
  | Search.Shown top shown total =>
      total = List.length
                (FindModels.filterModels (Search.collect Fixtures.providers)
                   1 30000 false false) /\
      (0 < total)%nat /\
      shown = Nat.min 10 total /\
      List.length top = shown /\
      Forall
        (fun mm =>
           In (FindModels.provider mm) Fixtures.providers /\
           In (FindModels.model mm)
              (catwalk.Models (FindModels.provider mm)) /\
           FindModels.keeps 1 30000 false false mm = true /\
           FindModels.score mm = FindModels.simpleScore (FindModels.model mm))
        top
  end.
Proof.
  apply (search_shows_ranked_matches sort.insertionSort Fixtures.providers
           1 30000 false false).
  exact insertionSort_Sorts.
Defined.

(** ** The name lookups *)

Section Lookup.
Import catwalk.
Variable providers : list Provider.

(** The hits of one name in one catalog, as a list. *)
Lemma compare_inner_loop (name : string) (ps : list Provider)
    (acc : list (Model * Provider)) :
  fold_left
    (fun models p =>
       match find (Search.nameMatches name) (Models p) with
       | Some m => models ++ [(m, p)]
       | None => models
       end)
    ps acc =
  acc ++ flat_map
           (fun p => match find (Search.nameMatches name) (Models p) with
                     | Some m => [(m, p)]
                     | None => []
                     end)
           ps.
Proof.
  revert acc. induction ps as [|p ps IH]; intros acc; simpl.
  - now rewrite app_nil_r.
  - rewrite IH. destruct (find (Search.nameMatches name) (Models p)); simpl.
    + now rewrite <- app_assoc.
    + reflexivity.
Qed.

Lemma compare_outer_loop (names : list string)
    (acc : list (Model * Provider)) :
  fold_left
    (fun models name =>
       fold_left
         (fun models p =>
            match find (Search.nameMatches (strings.TrimSpace name))
                    (Models p) with
            | Some m => models ++ [(m, p)]
            | None => models
            end)
         providers models)
    names acc =
  acc ++ flat_map
    (fun name =>
       flat_map
         (fun p =>
            match find (Search.nameMatches (strings.TrimSpace name))
                    (Models p) with
            | Some m => [(m, p)]
            | None => []
            end)
         providers)
    names.
Proof.
  revert acc. induction names as [|name names IH]; intros acc.
  - simpl. now rewrite app_nil_r.
  - cbn [fold_left flat_map]. rewrite compare_inner_loop, IH.
    now rewrite app_assoc.
Qed.

Lemma compareModelsList_flat_map (names : list string) :
  Search.compareModelsList providers names =
  flat_map
    (fun name =>
       flat_map
         (fun p =>
            match find (Search.nameMatches (strings.TrimSpace name))
                    (Models p) with
            | Some m => [(m, p)]
            | None => []
            end)
         providers)
    names.
Proof. exact (compare_outer_loop names []). Qed.

(** The lookup of the cost calculator stops at the first provider with a
    hit. *)
Lemma findModel_first_hit (name : string) (ps : list Provider) :
  CostCalculator.findModel ps name =
  hd_error
    (flat_map
       (fun p => match find (Search.nameMatches name) (Models p) with
                 | Some m => [(m, p)]
                 | None => []
                 end)
       ps).
Proof.
  induction ps as [|p ps IH]; simpl; [reflexivity|].
  change (CostCalculator.matches name) with (Search.nameMatches name).
  destruct (find (Search.nameMatches name) (Models p)); simpl;
    [reflexivity | exact IH].
Qed.

End Lookup.

Lemma hits_Subseq (name : string) (providers : list catwalk.Provider) :
  Subseq
    (map snd
       (flat_map
          (fun p =>
             match find (Search.nameMatches name) (catwalk.Models p) with
             | Some m => [(m, p)]
             | None => []
             end)
          providers))
    providers.
Proof.
  induction providers as [|p ps IH]; simpl; [constructor|].
  destruct (find (Search.nameMatches name) (catwalk.Models p)); simpl;
    now constructor.
Qed.

(** X5. The comparison of find-models, on a catalog and names written in
    ASCII. It lists, name by name and then provider by provider, the
    first model of the provider that matches the trimmed name, and
    nothing else: every hit is the first matching model of the catalog
    provider it is paired with, for one of the names; for one name the
    providers of the hits are providers of the catalog in catalog order,
    each at most once; and the first hit of a name is the model the cost
    calculator resolves that name to. *)
Theorem compareModelsList_hits (providers : list catwalk.Provider)
    (names : list string) :
  Catalog.ascii providers = true ->
  forallb strings.isASCII names = true ->
  Search.compareModelsList providers names =
    flat_map
      (fun name =>
         flat_map
           (fun p =>
              match find (Search.nameMatches (strings.TrimSpace name))
                      (catwalk.Models p) with
              | Some m => [(m, p)]
              | None => []
              end)
           providers)
      names /\
  Forall
    (fun hit =>
       In (snd hit) providers /\
       In (fst hit) (catwalk.Models (snd hit)) /\
       exists name, In name names /\
         find (Search.nameMatches (strings.TrimSpace name))
           (catwalk.Models (snd hit)) = Some (fst hit) /\
         Search.nameMatches (strings.TrimSpace name) (fst hit) = true)
    (Search.compareModelsList providers names) /\
  (forall name : string,
     Subseq (map snd (Search.compareModelsList providers [name]))
       providers /\
     (List.length (Search.compareModelsList providers [name])
        <= List.length providers)%nat /\
     hd_error (Search.compareModelsList providers [name]) =
       CostCalculator.findModel providers (strings.TrimSpace name)).
Proof.
  intros _ _. split; [apply compareModelsList_flat_map|]. split.
  - rewrite compareModelsList_flat_map. apply Forall_forall.
    intros [m p] Hin. apply in_flat_map in Hin.
    destruct Hin as (name & Hname & Hin). apply in_flat_map in Hin.
    destruct Hin as (q & Hq & Hin).
    destruct (find (Search.nameMatches (strings.TrimSpace name))
                (catwalk.Models q)) as [m'|] eqn:E; [|contradiction].
    destruct Hin as [Hin | []]. inversion Hin; subst.
    pose proof (find_some _ _ E) as [H1 H2]. simpl. eauto 7.
  - intros name. rewrite compareModelsList_flat_map. simpl.
    rewrite app_nil_r. split; [apply hits_Subseq|]. split.
    + induction providers as [|p ps IH]; simpl; [lia|].
      rewrite length_app.
      destruct (find (Search.nameMatches (strings.TrimSpace name))
                  (catwalk.Models p)); simpl; lia.
    + symmetry. apply findModel_first_hit.
Qed.

Lemma compareModelsList_hits_witness :
  Search.compareModelsList Fixtures.providers [" MINI "; "claude"]%string =
    [(Fixtures.modelC, Fixtures.providerX);
     (Fixtures.modelB, Fixtures.providerY)] /\
  hd_error (Search.compareModelsList Fixtures.providers [" MINI "]%string) =
    CostCalculator.findModel Fixtures.providers (strings.TrimSpace " MINI ").
Proof.
  destruct (compareModelsList_hits Fixtures.providers
              [" MINI "; "claude"]%string) as (H1 & _ & H3).
  - reflexivity.
  - reflexivity.
  - split; [rewrite H1; reflexivity|]. apply (H3 " MINI "%string).
Defined.

(** ** The interactive mode of find-models *)

Section InteractiveMode.
Import Interactive.
Variable sc : strconv.

Lemma Subseq_refl {A : Type} (l : list A) : Subseq l l.
Proof. induction l; now constructor. Qed.

Lemma Subseq_trans {A : Type} (l1 l2 l3 : list A) :
  Subseq l1 l2 -> Subseq l2 l3 -> Subseq l1 l3.
Proof.
  intros H12 H23. revert l1 H12.
  induction H23 as [|x l2 l3 H IH|x l2 l3 H IH]; intros l1 H12.
  - assumption.
  - inversion H12; subst; constructor; auto.
  - constructor. auto.
Qed.

Lemma numeric_app (s t : string) :
  numeric (s ++ t) = numeric s && numeric t.
Proof.
  induction s as [|c s IH]; simpl; [reflexivity|].
  now rewrite IH, andb_assoc.
Qed.

Lemma numeric_dropLast (s : string) :
  numeric s = true -> numeric (dropLast s) = true.
Proof.
  induction s as [|c s IH]; simpl; [reflexivity|].
  intros H. apply andb_prop in H. destruct H as [Hc Hs].
  destruct s as [|c' s']; [reflexivity|].
  change (numeric (String c (dropLast (String c' s'))) = true).
  simpl numeric at 1. rewrite Hc. simpl. now apply IH.
Qed.

(** What one message keeps, and how far it can move the step. *)
Lemma Update_keeps (m : model) (e : msg) :
  Subseq (filtered m) (models m) -> numeric (currentInput m) = true ->
  let m' := fst (Update sc m e) in
  models m' = models m /\
  Subseq (filtered m') (models m') /\
  numeric (currentInput m') = true /\
  (stepIndex (m_step m) <= stepIndex (m_step m'))%nat /\
  (stepIndex (m_step m') <=
   stepIndex (m_step m) + match e with KeyEnter => 1 | _ => 0 end)%nat.
Proof.
  intros Hsub Hnum. destruct e; simpl; try (repeat split; auto; lia).
  - destruct (m_step m) eqn:Es; simpl.
    + destruct (ParseFloat sc (currentInput m)); simpl;
        repeat split; auto; try (rewrite Es; simpl; lia).
      apply filterModels_Subseq.
    + destruct (ParseInt sc (currentInput m)); simpl;
        repeat split; auto; try (rewrite Es; simpl; lia).
      eapply Subseq_trans; [apply filterModels_Subseq | exact Hsub].
    + repeat split; auto.
    + repeat split; auto; rewrite Es; simpl; lia.
  - destruct (0 <? String.length (currentInput m))%nat; simpl;
      repeat split; auto; try lia. now apply numeric_dropLast.
  - destruct (m_step m) eqn:Es; destruct s as [|c [|c' s']]; simpl;
      try (repeat split; auto; rewrite ?Es; simpl; lia);
      destruct (digitOrDot c) eqn:Ec; simpl;
      repeat split; auto; rewrite ?Es; simpl; try lia;
      rewrite numeric_app, Hnum; simpl; now rewrite Ec.
Qed.

End InteractiveMode.

Lemma append_empty_r (s : string) : (s ++ "")%string = s.
Proof. induction s as [|c s IH]; simpl; [reflexivity | now rewrite IH]. Qed.

Lemma append_assoc (s t u : string) :
  ((s ++ t) ++ u)%string = (s ++ (t ++ u))%string.
Proof. induction s as [|c s IH]; simpl; [reflexivity | now rewrite IH]. Qed.

Lemma filter_cost_then_context (ms : list FindModels.modelMatch)
    (cost : float) (ctx : Z) :
  FindModels.filterModels
    (FindModels.filterModels ms cost 0 false false) 0 ctx false false =
  FindModels.filterModels ms cost ctx false false.
Proof.
  rewrite !filterModels_filter, filter_twice.
  apply filter_ext. intros mm.
  rewrite (keeps_split cost ctx false false mm).
  change (FindModels.keeps 0 0 false false mm) with true.
  now rewrite !andb_true_r.
Qed.

Section InteractiveRendering.
Import Interactive.
Variable slice : sort.SliceFn.
Hypothesis slice_sorts : sort.Sorts slice.
Variable sc : strconv.

Lemma setScore_twice (mm : FindModels.modelMatch) :
  FindModels.setScore (FindModels.setScore mm) = FindModels.setScore mm.
Proof. reflexivity. Qed.

Lemma View_kept (ms : list FindModels.modelMatch) (m : model) :
  models m = ms ->
  (m_step m <> stepResults -> Subseq (filtered m) ms) ->
  (m_step m = stepResults ->
   (Subseq (filtered m) ms \/
    exists sub, Subseq sub ms /\
      Permutation (filtered m) (map FindModels.setScore sub))) ->
  numeric (currentInput m) = true ->
  kept ms (View slice m) /\ m_step (View slice m) = m_step m.
Proof.
  intros Hm Hbefore Hat Hn. unfold View.
  destruct (m_step m) eqn:Es.
  1-3: (split; [|exact Es]; unfold kept; rewrite Es;
        repeat split; auto; discriminate).
  simpl. split; [|reflexivity]. unfold kept. simpl.
  repeat split; auto; [intros H; now elim H|]. intros _.
  destruct (Hat eq_refl) as [Hsub | (sub & Hsub & Hp)].
  - exists (filtered m). split; [exact Hsub|].
    apply scoreModels_Permutation. exact slice_sorts.
  - exists sub. split; [exact Hsub|].
    rewrite (scoreModels_Permutation slice slice_sorts (filtered m)).
    rewrite (Permutation_map FindModels.setScore Hp), map_map.
    erewrite map_ext; [reflexivity|]. intros mm. apply setScore_twice.
Qed.

(** One message and the rendering that follows it. *)
Lemma Update_View_kept (ms : list FindModels.modelMatch) (m : model)
    (e : msg) :
  kept ms m ->
  let m' := View slice (fst (Update sc m e)) in
  kept ms m' /\
  (stepIndex (m_step m) <= stepIndex (m_step m'))%nat /\
  (stepIndex (m_step m') <=
   stepIndex (m_step m) + match e with KeyEnter => 1 | _ => 0 end)%nat.
Proof.
  intros (Hm & Hbefore & Hat & Hn).
  destruct (m_step m) eqn:Es.
  1-3: assert (Hsub : Subseq (filtered m) (models m))
         by (rewrite Hm; apply Hbefore; discriminate);
       destruct (Update_keeps sc m e Hsub Hn) as (H1 & H2 & H3 & H4 & H5);
       rewrite Es in H4, H5;
       destruct (View_kept ms (fst (Update sc m e))) as [Hk Hs];
         try congruence;
         try (intros _; rewrite <- Hm, <- H1; exact H2);
         try (intros _; left; rewrite <- Hm, <- H1; exact H2);
       cbv zeta; rewrite Hs; auto.
  assert (Hu : models (fst (Update sc m e)) = models m /\
               filtered (fst (Update sc m e)) = filtered m /\
               m_step (fst (Update sc m e)) = stepResults /\
               numeric (currentInput (fst (Update sc m e))) = true).
  { destruct e; simpl; rewrite ?Es; simpl; auto.
    destruct (0 <? String.length (currentInput m))%nat; simpl;
      repeat split; auto. now apply numeric_dropLast. }
  destruct Hu as (H1 & H2 & H3 & H4).
  destruct (View_kept ms (fst (Update sc m e))) as [Hk Hs];
    try congruence.
  - intros _. right. rewrite H2. now apply Hat.
  - cbv zeta. rewrite Hs, H3. simpl. split; [exact Hk|]. lia.
Qed.

Lemma eventLoop_kept (ms : list FindModels.modelMatch)
    (events : list msg) (m : model) :
  kept ms m ->
  let m' := fst (eventLoop slice sc m events) in
  kept ms m' /\
  (stepIndex (m_step m') <= stepIndex (m_step m) + enters events)%nat.
Proof.
  revert m. induction events as [|e rest IH]; intros m Hk.
  - simpl. split; [exact Hk | lia].
  - destruct (Update_View_kept ms m e Hk) as (Hk1 & Hlo & Hhi).
    cbn [eventLoop]. destruct (Update sc m e) as [m1 c] eqn:Eu.
    cbn [fst] in Hk1, Hlo, Hhi.
    assert (Hen : (match e with KeyEnter => 1 | _ => 0 end + enters rest
                   = enters (e :: rest))%nat) by (destruct e; reflexivity).
    destruct c.
    + destruct (IH _ Hk1) as [Hk2 Hst]. split; [exact Hk2 | lia].
    + cbn [fst]. split; [exact Hk1 | lia].
Qed.

End InteractiveRendering.

(** X6. Whatever keys are pressed in the interactive mode of find-models,
    rendering included, for any [sort.Slice] that meets its contract: the
    candidate set is never changed; until the results are shown the
    filtered list is a sub-list of it in catalog order, and from then on,
    [View] having scored and sorted it in place, it is a reordering of
    such a sub-list with every candidate carrying its simple score; the
    input line holds only digits and dots; and the mode has advanced by
    at most one question per Enter, never past the results. *)
Theorem interactive_run_invariants (slice : sort.SliceFn)
    (sc : Interactive.strconv)
    (ms : list FindModels.modelMatch) (events : list Interactive.msg) :
  sort.Sorts slice ->
  let m' := fst (Interactive.runInteractiveMode slice sc ms events) in
  Interactive.models m' = ms /\
  (Interactive.m_step m' <> Interactive.stepResults ->
   Subseq (Interactive.filtered m') ms) /\
  (Interactive.m_step m' = Interactive.stepResults ->
   exists sub, Subseq sub ms /\
     Permutation (Interactive.filtered m') (map FindModels.setScore sub)) /\
  Interactive.numeric (Interactive.currentInput m') = true /\
  (Interactive.stepIndex (Interactive.m_step m') <=
   Nat.min 3 (Interactive.enters events))%nat.
Proof.
  intros Hs. unfold Interactive.runInteractiveMode.
  change (Interactive.View slice (Interactive.initialModel ms))
    with (Interactive.initialModel ms).
  destruct (eventLoop_kept slice Hs sc ms events (Interactive.initialModel ms))
    as ((Hm & Hb & Ha & Hn) & Hhi).
  - repeat split; try reflexivity; try discriminate.
    intros _. apply Subseq_refl.
  - cbv zeta. repeat split; auto.
    change (Interactive.stepIndex
              (Interactive.m_step (Interactive.initialModel ms))) with 0%nat
      in Hhi.
    apply Nat.min_glb; [|exact Hhi].
    destruct (Interactive.m_step
                (fst (Interactive.eventLoop slice sc
                        (Interactive.initialModel ms) events)));
      simpl; lia.
Qed.

Lemma interactive_run_invariants_witness :
  let m' :=
    fst (Interactive.runInteractiveMode sort.insertionSort
           Fixtures.decimalConv Fixtures.matches
           (Interactive.typing "3" ++ Interactive.KeyEnter ::
            Interactive.typing "30000" ++
            [Interactive.KeyEnter; Interactive.KeyEnter;
             Interactive.KeyBackspace])) in
  Interactive.models m' = Fixtures.matches /\
  (Interactive.m_step m' <> Interactive.stepResults ->
   Subseq (Interactive.filtered m') Fixtures.matches) /\
  (Interactive.m_step m' = Interactive.stepResults ->
   exists sub, Subseq sub Fixtures.matches /\
     Permutation (Interactive.filtered m') (map FindModels.setScore sub)) /\
  Interactive.numeric (Interactive.currentInput m') = true /\
  (Interactive.stepIndex (Interactive.m_step m') <=
   Nat.min 3
     (Interactive.enters
        (Interactive.typing "3" ++ Interactive.KeyEnter ::
         Interactive.typing "30000" ++
         [Interactive.KeyEnter; Interactive.KeyEnter;
          Interactive.KeyBackspace])))%nat.
Proof.
  apply (interactive_run_invariants sort.insertionSort Fixtures.decimalConv
           Fixtures.matches).
  exact insertionSort_Sorts.
Defined.

(** X7. The first question offers "press Enter to skip", but Enter on an
    input the float parser rejects does nothing: when the parser rejects
    the empty string, as long as no digit or dot is typed the interactive
    mode stays in its initial state, at the first question. *)
Theorem interactive_enter_does_not_skip (sc : Interactive.strconv)
    (ms : list FindModels.modelMatch) (events : list Interactive.msg) :
  Interactive.ParseFloat sc "" = None ->
  forallb (fun e => negb (Interactive.typesDigit e)) events = true ->
  fst (Interactive.run sc (Interactive.initialModel ms) events) =
  Interactive.initialModel ms.
Proof.
  intros Hparse. induction events as [|e rest IH]; intros Hev.
  - reflexivity.
  - simpl in Hev. apply andb_prop in Hev. destruct Hev as [He Hrest].
    cbn [Interactive.run].
    assert (Hu : fst (Interactive.Update sc (Interactive.initialModel ms) e)
                 = Interactive.initialModel ms).
    { destruct e; simpl; try reflexivity.
      - now rewrite Hparse.
      - destruct s as [|c [|c' s']]; try reflexivity.
        simpl in He. apply negb_true_iff in He. now rewrite He. }
    destruct (Interactive.Update sc (Interactive.initialModel ms) e)
      as [m1 c]. simpl in Hu. subst m1. destruct c; [now apply IH|reflexivity].
Qed.

Lemma interactive_enter_does_not_skip_witness :
  fst (Interactive.run Fixtures.decimalConv
         (Interactive.initialModel Fixtures.matches)
         [Interactive.KeyEnter; Interactive.KeyBackspace;
          Interactive.KeyOther "x"; Interactive.KeyEnter]) =
  Interactive.initialModel Fixtures.matches.
Proof.
  apply (interactive_enter_does_not_skip Fixtures.decimalConv
           Fixtures.matches).
  - reflexivity.
  - reflexivity.
Defined.

(** Typing digits at one of the two numeric questions only extends the
    input; rendering changes nothing there. *)
Lemma eventLoop_typing (slice : sort.SliceFn) (sc : Interactive.strconv)
    (s : string) (m : Interactive.model) :
  Interactive.numeric s = true ->
  (Interactive.m_step m = Interactive.stepMaxCost \/
   Interactive.m_step m = Interactive.stepMinContext) ->
  forall rest,
    Interactive.eventLoop slice sc m (Interactive.typing s ++ rest) =
    Interactive.eventLoop slice sc
      (Interactive.setInput m (Interactive.currentInput m ++ s)) rest.
Proof.
  revert m. induction s as [|c s IH]; intros m Hnum Hstep rest.
  - simpl. destruct m; unfold Interactive.setInput; simpl.
    now rewrite append_empty_r.
  - simpl in Hnum. apply andb_prop in Hnum. destruct Hnum as [Hc Hs].
    cbn [Interactive.typing app Interactive.eventLoop].
    assert (Hu : Interactive.Update sc m
                   (Interactive.KeyOther (String c "")) =
                 (Interactive.setInput m
                    (Interactive.currentInput m ++ String c ""),
                  Interactive.cmdNone)).
    { unfold Interactive.Update. destruct Hstep as [-> | ->];
        now rewrite Hc. }
    rewrite Hu.
    assert (Hv : Interactive.View slice
                   (Interactive.setInput m
                      (Interactive.currentInput m ++ String c "")) =
                 Interactive.setInput m
                   (Interactive.currentInput m ++ String c "")).
    { unfold Interactive.View, Interactive.setInput. simpl.
      destruct Hstep as [-> | ->]; reflexivity. }
    rewrite Hv, IH; auto.
    unfold Interactive.setInput; simpl. now rewrite append_assoc.
Qed.

(** X8. Answering the two questions of the interactive mode filters the
    whole candidate set by cost and by context together, and by nothing
    else: after typing a budget, Enter, typing a context, Enter and a
    last Enter, the mode shows its results, and, the results rendered,
    the list it holds is the ranking [scoreModels] makes of the list
    [filterModels] gives for that budget and that context (compared as
    typed, not in thousands) with no capability required. *)
Theorem interactive_answers_filter (slice : sort.SliceFn)
    (sc : Interactive.strconv)
    (ms : list FindModels.modelMatch) (s1 s2 : string)
    (cost : float) (ctx : Z) :
  Interactive.numeric s1 = true -> Interactive.numeric s2 = true ->
  Interactive.ParseFloat sc s1 = Some cost ->
  Interactive.ParseInt sc s2 = Some ctx ->
  Interactive.runInteractiveMode slice sc ms
    (Interactive.typing s1 ++ Interactive.KeyEnter ::
     Interactive.typing s2 ++
     [Interactive.KeyEnter; Interactive.KeyEnter]) =
  ({| Interactive.models := ms;
      Interactive.filtered :=
        FindModels.scoreModels slice
          (FindModels.filterModels ms cost ctx false false);
      Interactive.m_step := Interactive.stepResults;
      Interactive.currentInput := s2 |}, Interactive.cmdNone).
Proof.
  intros Hn1 Hn2 Hp1 Hp2. unfold Interactive.runInteractiveMode.
  change (Interactive.View slice (Interactive.initialModel ms))
    with (Interactive.initialModel ms).
  rewrite eventLoop_typing; [|assumption|now left].
  cbn [Interactive.eventLoop Interactive.Update Interactive.setInput
       Interactive.initialModel Interactive.m_step Interactive.currentInput
       Interactive.models Interactive.filtered String.append].
  rewrite Hp1.
  cbn [Interactive.View Interactive.m_step].
  rewrite eventLoop_typing; [|assumption|now right].
  cbn [Interactive.eventLoop Interactive.Update Interactive.setInput
       Interactive.m_step Interactive.currentInput
       Interactive.models Interactive.filtered String.append].
  rewrite Hp2.
  cbn [Interactive.View Interactive.eventLoop Interactive.Update
       Interactive.m_step Interactive.currentInput
       Interactive.models Interactive.filtered].
  now rewrite filter_cost_then_context.
Qed.

Lemma interactive_answers_filter_witness :
  Interactive.runInteractiveMode sort.insertionSort Fixtures.decimalConv
    Fixtures.matches
    (Interactive.typing "3" ++ Interactive.KeyEnter ::
     Interactive.typing "30000" ++
     [Interactive.KeyEnter; Interactive.KeyEnter]) =
  ({| Interactive.models := Fixtures.matches;
      Interactive.filtered :=
        FindModels.scoreModels sort.insertionSort
          (FindModels.filterModels Fixtures.matches 3 30000 false false);
      Interactive.m_step := Interactive.stepResults;
      Interactive.currentInput := "30000" |}, Interactive.cmdNone).
Proof.
  apply (interactive_answers_filter sort.insertionSort Fixtures.decimalConv
           Fixtures.matches "3" "30000" 3%float 30000).
  - reflexivity.
  - reflexivity.
  - reflexivity.
  - reflexivity.
Defined.

(** ** The order of binary64 values *)

Lemma SFcompare_trans (x y z : spec_float) (c1 c2 : comparison) :
  SFcompare x y = Some c1 -> SFcompare y z = Some c2 ->
  c1 <> Gt -> c2 <> Gt ->
  exists c3, SFcompare x z = Some c3 /\ c3 <> Gt /\
             (c1 = Lt \/ c2 = Lt -> c3 = Lt).
Proof.
  intros H1 H2 N1 N2.
  assert (G : forall c, c <> Gt -> (c1 = Lt \/ c2 = Lt -> c = Lt) ->
              SFcompare x z = Some c ->
              exists c3, SFcompare x z = Some c3 /\ c3 <> Gt /\
                         (c1 = Lt \/ c2 = Lt -> c3 = Lt)) by eauto.
  destruct x as [sx|sx| |sx mx ex], y as [sy|sy| |sy my ey],
           z as [sz|sz| |sz mz ez]; simpl in *;
    try discriminate;
    try (destruct sx; simpl in * ); try (destruct sy; simpl in * );
    try (destruct sz; simpl in * );
    injection H1 as H1; injection H2 as H2; subst c1 c2;
    try congruence;
    try (apply (G Eq); [congruence | intros [?|?]; congruence | reflexivity]);
    try (apply (G Lt); [congruence | reflexivity | reflexivity]).
  all: clear G;
    change (Pos.compare_cont Eq mx my) with (Pos.compare mx my) in *;
    change (Pos.compare_cont Eq my mz) with (Pos.compare my mz) in *;
    change (Pos.compare_cont Eq mx mz) with (Pos.compare mx mz) in *;
    destruct (Z.compare_spec ex ey), (Z.compare_spec ey ez),
             (Z.compare_spec ex ez); try lia; try congruence;
    destruct (Pos.compare_spec mx my), (Pos.compare_spec my mz),
             (Pos.compare_spec mx mz); simpl in *; try lia; try congruence;
    eexists; (split; [reflexivity|]); split;
      try congruence; try (intros [?|?]; congruence); try reflexivity.
Qed.

Lemma ltb_irrefl (x : float) : (x <? x)%float = false.
Proof.
  rewrite ltb_spec. unfold SFltb.
  destruct (SFcompare (Prim2SF x) (Prim2SF x)) as [c|] eqn:E; [|reflexivity].
  destruct (SFcompare_not_nan _ _ _ E) as [H _].
  rewrite (SFcompare_refl _ H) in E. now inversion E.
Qed.

Lemma ltb_trans (x y z : float) :
  (x <? y)%float = true -> (y <? z)%float = true -> (x <? z)%float = true.
Proof.
  rewrite !ltb_spec. unfold SFltb.
  destruct (SFcompare (Prim2SF x) (Prim2SF y)) as [[ | | ]|] eqn:E1;
    try discriminate.
  destruct (SFcompare (Prim2SF y) (Prim2SF z)) as [[ | | ]|] eqn:E2;
    try discriminate.
  intros _ _.
  destruct (SFcompare_trans _ _ _ _ _ E1 E2) as (c & -> & _ & Hc);
    try discriminate.
  now rewrite Hc by now left.
Qed.

(** On numbers, "not less" is transitive. *)
Lemma ltb_false_trans (x y z : float) :
  F64.not_nan x -> F64.not_nan y -> F64.not_nan z ->
  (x <? y)%float = false -> (y <? z)%float = false ->
  (x <? z)%float = false.
Proof.
  rewrite !ltb_spec. unfold SFltb.
  intros Hx%not_nan_spec Hy%not_nan_spec Hz%not_nan_spec.
  rewrite (SFcompare_antisym (Prim2SF y) (Prim2SF x)),
          (SFcompare_antisym (Prim2SF z) (Prim2SF y)),
          (SFcompare_antisym (Prim2SF z) (Prim2SF x)).
  destruct (SFcompare_some _ _ Hz Hy) as [c1 E1].
  destruct (SFcompare_some _ _ Hy Hx) as [c2 E2].
  rewrite E1, E2. simpl. intros H1 H2.
  destruct (SFcompare_trans _ _ _ c1 c2 E1 E2) as (c & -> & Hc & _).
  - destruct c1; simpl in H2; congruence.
  - destruct c2; simpl in H1; congruence.
  - destruct c; simpl; congruence.
Qed.

Lemma ltb_false_leb (x y : float) :
  F64.not_nan x -> F64.not_nan y -> (y <? x)%float = false ->
  (x <=? y)%float = true.
Proof. exact (gtb_false_leb x y). Qed.

(** Ascending order by a float key is an ordering [sort.Slice] accepts
    when no key is NaN. *)
Lemma ltb_Transitive {A : Type} (key : A -> float) (l : list A) :
  (forall a, In a l -> F64.not_nan (key a)) ->
  sort.Transitive (fun a b => (key a <? key b)%float) l.
Proof.
  intros Hn. repeat split.
  - intros a _. apply ltb_irrefl.
  - intros a b c _ _ _. apply ltb_trans.
  - intros a b c Ha Hb Hc. apply ltb_false_trans; auto.
Qed.

(** ** The lookup and the comparison of the cost calculator *)

Section CostLookup.
Import catwalk.

Lemma Contains_empty (s : string) : strings.Contains s "" = true.
Proof. destruct s; reflexivity. Qed.

Lemma matches_empty (m : Model) : CostCalculator.matches "" m = true.
Proof.
  unfold CostCalculator.matches. simpl strings.ToLower at 2.
  rewrite Contains_empty. apply orb_true_r.
Qed.

Lemma find_none_iff {A : Type} (f : A -> bool) (l : list A) :
  find f l = None <-> forall x, In x l -> f x = false.
Proof.
  split.
  - intros H x. now apply find_none.
  - induction l as [|a l IH]; intros H; simpl; [reflexivity|].
    rewrite (H a) by now left. apply IH. intros x Hx. apply H. now right.
Qed.

Lemma find_split {A : Type} (f : A -> bool) (l : list A) (x : A) :
  find f l = Some x ->
  exists pre post, l = pre ++ x :: post /\
    (forall y, In y pre -> f y = false) /\ f x = true.
Proof.
  induction l as [|a l IH]; simpl; [discriminate|].
  destruct (f a) eqn:E.
  - intros H. inversion H; subst. exists [], l. repeat split; auto.
    intros y [].
  - intros H. destruct (IH H) as (pre & post & -> & Hpre & Hx).
    exists (a :: pre), post. repeat split; auto.
    intros y [<-|Hy]; auto.
Qed.

Lemma findModel_None (providers : list Provider) (name : string) :
  CostCalculator.findModel providers name = None <->
  forall p m, In p providers -> In m (Models p) ->
    CostCalculator.matches name m = false.
Proof.
  induction providers as [|p ps IH]; simpl.
  - split; [intros _ p m [] | reflexivity].
  - destruct (find (CostCalculator.matches name) (Models p)) as [m|] eqn:E.
    + split; [discriminate|]. intros H. apply find_some in E.
      destruct E as [Hin Hm]. rewrite (H p m) in Hm; auto. discriminate.
    + rewrite IH. rewrite find_none_iff in E. split.
      * intros H q m [<-|Hq] Hm; eauto.
      * intros H q m Hq Hm. apply (H q m); auto.
Qed.

Lemma findModel_Some (providers : list Provider) (name : string)
    (m : Model) (p : Provider) :
  CostCalculator.findModel providers name = Some (m, p) ->
  exists before after pre post,
    providers = before ++ p :: after /\
    Models p = pre ++ m :: post /\
    (forall q x, In q before -> In x (Models q) ->
       CostCalculator.matches name x = false) /\
    (forall x, In x pre -> CostCalculator.matches name x = false) /\
    CostCalculator.matches name m = true.
Proof.
  induction providers as [|q ps IH]; simpl; [discriminate|].
  destruct (find (CostCalculator.matches name) (Models q)) as [x|] eqn:E.
  - intros H. inversion H; subst.
    destruct (find_split _ _ _ E) as (pre & post & Hl & Hpre & Hm).
    exists [], ps, pre, post. repeat split; auto. intros ? ? [].
  - intros H. destruct (IH H) as (before & after & pre & post & -> & Hl &
                                  Hb & Hpre & Hm).
    rewrite find_none_iff in E.
    exists (q :: before), after, pre, post. repeat split; auto.
    intros r x [<-|Hr] Hx; eauto.
Qed.

End CostLookup.

(** X9. The lookup of [calculateCost], on a catalog and a name written in
    ASCII: there is no result exactly when no model of any provider
    matches the name; and a result carries the names of the first
    matching model in catalog order, provider by provider and model by
    model, and of the provider that lists it. *)
Theorem calculateCost_first_match (providers : list catwalk.Provider)
    (name : string) (inputTokens outputTokens : Z) (cachedRatio : float) :
  Catalog.ascii providers = true -> strings.isASCII name = true ->
  match CostCalculator.calculateCost providers name inputTokens outputTokens
          cachedRatio with
  | None =>
      forall p m, In p providers -> In m (catwalk.Models p) ->
        CostCalculator.matches name m = false
  | Some result =>
      exists before p after pre m post,
        providers = before ++ p :: after /\
        catwalk.Models p = pre ++ m :: post /\
        (forall q x, In q before -> In x (catwalk.Models q) ->
           CostCalculator.matches name x = false) /\
        (forall x, In x pre -> CostCalculator.matches name x = false) /\
        CostCalculator.matches name m = true /\
        CostCalculator.Model_ result = catwalk.Name m /\
        CostCalculator.Provider_ result = catwalk.PName p
  end.
Proof.
  intros _ _. unfold CostCalculator.calculateCost.
  destruct (CostCalculator.findModel providers name) as [[m p]|] eqn:E.
  - destruct (findModel_Some _ _ _ _ E)
      as (before & after & pre & post & H1 & H2 & H3 & H4 & H5).
    exists before, p, after, pre, m, post. repeat split; auto.
  - now apply findModel_None.
Qed.

Lemma calculateCost_first_match_witness :
  (exists before p after pre m post,
     Fixtures.providers = before ++ p :: after /\
     catwalk.Models p = pre ++ m :: post /\
     (forall q x, In q before -> In x (catwalk.Models q) ->
        CostCalculator.matches "MINI" x = false) /\
     (forall x, In x pre -> CostCalculator.matches "MINI" x = false) /\
     CostCalculator.matches "MINI" m = true /\
     "Mini"%string = catwalk.Name m /\
     "OpenAI"%string = catwalk.PName p) /\
  (forall p m, In p Fixtures.providers -> In m (catwalk.Models p) ->
     CostCalculator.matches "no-such-model" m = false).
Proof.
  split.
  - apply (calculateCost_first_match Fixtures.providers "MINI" 1000 500 0);
      reflexivity.
  - apply (calculateCost_first_match Fixtures.providers "no-such-model"
             1000 500 0); reflexivity.
Defined.

(** X10. An empty model name matches every model, since every name
    contains the empty string: the lookup resolves it to the first model
    of the catalog, and finds nothing only when the catalog lists no
    model at all. A batch scenario without a model name is priced as
    that first model. *)
Theorem empty_name_resolves_first_model (providers : list catwalk.Provider) :
  CostCalculator.findModel providers "" =
    hd_error
      (flat_map (fun p => map (fun m => (m, p)) (catwalk.Models p))
         providers) /\
  forall s : CostCalculator.scenario,
    CostCalculator.sModel s = ""%string ->
    option_map
      (fun r => (CostCalculator.Model_ r, CostCalculator.Provider_ r))
      (CostCalculator.scenarioCost providers s) =
    option_map (fun mp => (catwalk.Name (fst mp), catwalk.PName (snd mp)))
      (hd_error
         (flat_map (fun p => map (fun m => (m, p)) (catwalk.Models p))
            providers)).
Proof.
  assert (H : CostCalculator.findModel providers "" =
    hd_error
      (flat_map (fun p => map (fun m => (m, p)) (catwalk.Models p))
         providers)).
  { induction providers as [|p ps IH]; simpl; [reflexivity|].
    destruct (catwalk.Models p) as [|m ms] eqn:E; simpl.
    - exact IH.
    - now rewrite matches_empty. }
  split; [exact H|].
  intros s Hs. unfold CostCalculator.scenarioCost,
    CostCalculator.calculateCost. rewrite Hs, H.
  destruct (hd_error _) as [[m p]|]; reflexivity.
Qed.

Section CostComparison.
Import catwalk CostCalculator.
Variable providers : list Provider.

Lemma compare_loop (i o : Z) (r : float) (names : list string)
    (acc : list costResult) :
  fold_left
    (fun results name =>
       match calculateCost providers (strings.TrimSpace name) i o r with
       | Some result => results ++ [result]
       | None => results
       end)
    names acc =
  acc ++ flat_map
           (fun name =>
              match calculateCost providers (strings.TrimSpace name) i o r with
              | Some result => [result]
              | None => []
              end)
           names.
Proof.
  revert acc. induction names as [|name rest IH]; intros acc; simpl.
  - now rewrite app_nil_r.
  - rewrite IH.
    destruct (calculateCost providers (strings.TrimSpace name) i o r); simpl.
    + now rewrite <- app_assoc.
    + reflexivity.
Qed.

Lemma StronglySorted_weaken {A : Type} (R R' : A -> A -> Prop) (l : list A) :
  (forall a b, In a l -> In b l -> R a b -> R' a b) ->
  StronglySorted R l -> StronglySorted R' l.
Proof.
  induction l as [|x l IH]; intros H Hs; [constructor|].
  inversion Hs as [|? ? Hl Hx]; subst. constructor.
  - apply IH; [|assumption]. intros a b Ha Hb. apply H; now right.
  - rewrite Forall_forall in *. intros b Hb. apply H; auto.
    + now left.
    + now right.
Qed.

End CostComparison.

(** X11. On a catalog and names written in ASCII, [compareModels] hands
    to the display one result for every requested name that resolves
    (after trimming), and nothing else: a reordering of those results,
    for any [sort.Slice] that meets its contract. When no total is NaN
    they are in ascending order of total cost. *)
Theorem compareModels_sorted (slice : sort.SliceFn)
    (providers : list catwalk.Provider) (inputTokens outputTokens : Z)
    (cachedRatio : float) (modelNames : list string) :
  sort.Sorts slice ->
  Catalog.ascii providers = true ->
  forallb strings.isASCII modelNames = true ->
  let resolved :=
    flat_map
      (fun name =>
         match CostCalculator.calculateCost providers (strings.TrimSpace name)
                 inputTokens outputTokens cachedRatio with
         | Some result => [result]
         | None => []
         end)
      modelNames in
  let shown :=
    CostCalculator.compareModels slice providers inputTokens outputTokens
      cachedRatio modelNames in
  Permutation shown resolved /\
  (Forall (fun x => F64.not_nan (CostCalculator.TotalCost x)) resolved ->
   StronglySorted
     (fun a b =>
        (CostCalculator.TotalCost a <=? CostCalculator.TotalCost b)%float
        = true)
     shown).
Proof.
  intros Hs _ _ resolved shown.
  assert (Hshown : shown = match resolved with
                           | [] => []
                           | _ => slice _ CostCalculator.byTotal resolved
                           end).
  { unfold shown, CostCalculator.compareModels.
    now rewrite (compare_loop providers inputTokens outputTokens cachedRatio
                   modelNames []). }
  assert (Hperm : Permutation shown resolved).
  { rewrite Hshown. destruct resolved; [constructor | apply Hs]. }
  split; [exact Hperm|].
  intros Hn. rewrite Forall_forall in Hn.
  assert (Hord : sort.Ordered CostCalculator.byTotal shown).
  { rewrite Hshown. destruct resolved as [|x l] eqn:E; [constructor|].
    apply Hs. apply (ltb_Transitive CostCalculator.TotalCost). exact Hn. }
  revert Hord. apply StronglySorted_weaken.
  intros a b Ha Hb Hab. apply ltb_false_leb; auto;
    apply Hn; eapply Permutation_in; eauto.
Qed.

Lemma compareModels_sorted_witness :
  let shown :=
    CostCalculator.compareModels sort.insertionSort Fixtures.providers
      1000 500 0.5 ["claude"; " gpt-4o "; "no-such-model"]%string in
  Permutation shown
    (flat_map
       (fun name =>
          match CostCalculator.calculateCost Fixtures.providers
                  (strings.TrimSpace name) 1000 500 0.5 with
          | Some result => [result]
          | None => []
          end)
       ["claude"; " gpt-4o "; "no-such-model"]%string) /\
  StronglySorted
    (fun a b =>
       (CostCalculator.TotalCost a <=? CostCalculator.TotalCost b)%float
       = true)
    shown.
Proof.
  destruct (compareModels_sorted sort.insertionSort Fixtures.providers
              1000 500 0.5 ["claude"; " gpt-4o "; "no-such-model"]%string
              insertionSort_Sorts eq_refl eq_refl) as [Hp Ho].
  split; [exact Hp|].
  apply Ho. repeat constructor.
Defined.

(** ** The results list of the wizard *)

Section WizardResults.
Import ModelSelector.
Variable slice : sort.SliceFn.

(** From the vision question on, [choices] holds the two answers "yes"
    and "no"; at the results the list shows the top five candidates and
    its cursor is on one of them (or on row 0 of an empty list). *)
Lemma Update_results_list (m m' : model) (e : msg) :
  ((m_step m = stepVision -> choices m = ["yes"; "no"]%string) /\
   (m_step m = stepResults ->
    choices m = ["yes"; "no"]%string /\
    rows (m_list m) = Nat.min 5 (List.length (allModels m)) /\
    (Index (m_list m) < rows (m_list m) \/ Index (m_list m) = 0)%nat)) ->
  Update slice m e = Some (m', cmdNone) ->
  (m_step m' = stepVision -> choices m' = ["yes"; "no"]%string) /\
  (m_step m' = stepResults ->
   choices m' = ["yes"; "no"]%string /\
   rows (m_list m') = Nat.min 5 (List.length (allModels m')) /\
   (Index (m_list m') < rows (m_list m') \/ Index (m_list m') = 0)%nat).
Proof.
  intros [Hv Hr] Hu. destruct e; simpl in Hu; try discriminate;
    try (inversion Hu; subst m'; split; assumption).
  - unfold handleEnter in Hu.
    destruct (nth_error (choices m) (Index (m_list m))); [|discriminate].
    destruct (m_step m) eqn:Es; inversion Hu; subst m'; simpl;
      split; intros H; try discriminate; try reflexivity.
    rewrite (Hv eq_refl). repeat split. now right.
  - inversion Hu; subst m'. simpl. split; [exact Hv|].
    intros H. destruct (Hr H) as (Hc & Hrows & Hi).
    repeat split; auto. lia.
  - inversion Hu; subst m'. simpl. split; [exact Hv|].
    intros H. destruct (Hr H) as (Hc & Hrows & Hi).
    repeat split; auto.
    destruct (Nat.ltb_spec (S (Index (m_list m))) (rows (m_list m))); lia.
Qed.

Lemma run_results_list (events : list msg) (m0 m : model) :
  ((m_step m0 = stepVision -> choices m0 = ["yes"; "no"]%string) /\
   (m_step m0 = stepResults ->
    choices m0 = ["yes"; "no"]%string /\
    rows (m_list m0) = Nat.min 5 (List.length (allModels m0)) /\
    (Index (m_list m0) < rows (m_list m0) \/ Index (m_list m0) = 0)%nat)) ->
  run slice m0 events = Waiting m ->
  (m_step m = stepResults ->
   choices m = ["yes"; "no"]%string /\
   rows (m_list m) = Nat.min 5 (List.length (allModels m)) /\
   (Index (m_list m) < rows (m_list m) \/ Index (m_list m) = 0)%nat).
Proof.
  revert m0. induction events as [|e rest IH]; intros m0 Hinv Hrun;
    simpl in Hrun.
  - inversion Hrun; subst. apply Hinv.
  - destruct (Update slice m0 e) as [[m1 c]|] eqn:Hu; [|discriminate].
    destruct c; [|discriminate].
    apply (IH m1); [|assumption].
    apply (Update_results_list m0 m1 e); assumption.
Qed.

End WizardResults.

(** X12. Confirming at the results of the wizard. In any session that
    reaches the results, the list shows min(5, number of candidates)
    rows while [choices] still holds the two answers of the last
    question; so Enter quits when the cursor is on one of the first two
    rows and panics (index out of range) on any later row. With three
    candidates or more, Down, Down, Enter at the results always panics. *)
Theorem wizard_confirm_at_results (slice : sort.SliceFn)
    (all : list ModelSelector.modelScore)
    (events : list ModelSelector.msg) (m : ModelSelector.model) :
  sort.Sorts slice ->
  ModelSelector.run slice (ModelSelector.initialModel all) events =
    ModelSelector.Waiting m ->
  ModelSelector.m_step m = ModelSelector.stepResults ->
  ModelSelector.rows (ModelSelector.m_list m) =
    Nat.min 5 (List.length all) /\
  ModelSelector.Update slice m ModelSelector.KeyEnter =
    (if (ModelSelector.Index (ModelSelector.m_list m) <? 2)%nat
     then Some (m, ModelSelector.cmdQuit) else None) /\
  ((3 <= List.length all)%nat ->
   ModelSelector.run slice m
     [ModelSelector.KeyDown; ModelSelector.KeyDown; ModelSelector.KeyEnter] =
   ModelSelector.Panicked).
Proof.
  intros Hs Hrun Hstep.
  assert (Hscored : ModelSelector.scoredOnce slice all m).
  { apply (run_scoredOnce slice all events (ModelSelector.initialModel all));
      [apply initialModel_cursorOnChoice | | assumption].
    split; [reflexivity | discriminate]. }
  assert (Hlen : List.length (ModelSelector.allModels m) = List.length all).
  { destruct Hscored as [_ H]. rewrite (H Hstep).
    rewrite (Permutation_length (proj1 (Hs _ _ _))). apply length_map. }
  destruct (run_results_list slice events (ModelSelector.initialModel all) m)
    as (Hc & Hrows & Hi); try assumption.
  { split; discriminate. }
  rewrite Hlen in Hrows.
  split; [exact Hrows|]. split.
  - simpl. unfold ModelSelector.handleEnter. rewrite Hc, Hstep.
    destruct (ModelSelector.Index (ModelSelector.m_list m)) as [|[|[|k]]];
      reflexivity.
  - intros H3.
    assert (Hr : (3 <= ModelSelector.rows (ModelSelector.m_list m))%nat)
      by lia.
    cbn [ModelSelector.run ModelSelector.Update].
    unfold ModelSelector.handleEnter.
    cbn [ModelSelector.setListModel ModelSelector.m_list
         ModelSelector.choices ModelSelector.cursorDown
         ModelSelector.rows ModelSelector.Index].
    rewrite Hc.
    set (i := ModelSelector.Index (ModelSelector.m_list m)) in *.
    set (r := ModelSelector.rows (ModelSelector.m_list m)) in *.
    assert (Hnone : forall k,
              nth_error ["yes"; "no"]%string (S (S k)) = None)
      by (intros [|k]; reflexivity).
    destruct (Nat.ltb_spec (S i) r) as [H1|H1].
    + destruct (Nat.ltb_spec (S (S i)) r) as [H2|H2].
      * now rewrite Hnone.
      * destruct i as [|k]; [lia | now rewrite Hnone].
    + rewrite (proj2 (Nat.ltb_ge (S i) r) H1).
      destruct i as [|[|k]]; try lia. now rewrite Hnone.
Qed.

Lemma wizard_confirm_at_results_witness :
  ModelSelector.rows (ModelSelector.m_list Fixtures.wizardAtResults) =
    Nat.min 5 (List.length Fixtures.scores) /\
  ModelSelector.Update sort.insertionSort Fixtures.wizardAtResults
    ModelSelector.KeyEnter =
    (if (ModelSelector.Index (ModelSelector.m_list Fixtures.wizardAtResults)
         <? 2)%nat
     then Some (Fixtures.wizardAtResults, ModelSelector.cmdQuit) else None) /\
  ((3 <= List.length Fixtures.scores)%nat ->
   ModelSelector.run sort.insertionSort Fixtures.wizardAtResults
     [ModelSelector.KeyDown; ModelSelector.KeyDown; ModelSelector.KeyEnter] =
   ModelSelector.Panicked).
Proof.
  assert (Hrun : ModelSelector.run sort.insertionSort
                   (ModelSelector.initialModel Fixtures.scores)
                   Fixtures.wizardToResults =
                 ModelSelector.Waiting Fixtures.wizardAtResults)
    by (vm_compute; reflexivity).
  assert (Hstep : ModelSelector.m_step Fixtures.wizardAtResults =
                  ModelSelector.stepResults) by (vm_compute; reflexivity).
  exact (wizard_confirm_at_results sort.insertionSort Fixtures.scores
           Fixtures.wizardToResults Fixtures.wizardAtResults
           insertionSort_Sorts Hrun Hstep).
Defined.

(** X13. Whatever the requirements and the model, the score the wizard
    gives lies between -150 and 200 (base 100, at worst -100 -50 -50 -50,
    at best +30 +20 +25 +25), it is a number even when a price or the
    budget is NaN, and it comes with one to four reasons. *)
Theorem scoreOne_range (req : ModelSelector.requirements)
    (m : catwalk.Model) :
  let s := fst (ModelSelector.scoreOne req m) in
  let reasons := snd (ModelSelector.scoreOne req m) in
  ((-150) <=? s)%float = true /\ (s <=? 200)%float = true /\
  (1 <= List.length reasons <= 4)%nat.
Proof.
  rewrite scoreOne_weighted.
  unfold ModelSelector.weightedScore, ModelSelector.triggered.
  destruct (F64.gtb (ModelSelector.budget req) 0 &&
            F64.gtb (catwalk.CostPer1MIn m) (ModelSelector.budget req));
    [|destruct (catwalk.CostPer1MIn m <=? ModelSelector.budget req / 2)%float];
    destruct (catwalk.ContextWindow m >=? ModelSelector.contextSize req);
    destruct (ModelSelector.reasoning req), (catwalk.CanReason m),
             (ModelSelector.vision req), (catwalk.SupportsImages m);
    vm_compute; repeat split; lia.
Qed.

(** ** The name column of the cost table *)

Lemma length_append (s t : string) :
  String.length (s ++ t) = (String.length s + String.length t)%nat.
Proof. induction s as [|c s IH]; simpl; [reflexivity | now rewrite IH]. Qed.

Lemma length_substring (n : nat) (s : string) :
  (n <= String.length s)%nat -> String.length (String.substring 0 n s) = n.
Proof.
  revert s. induction n as [|n IH]; intros s H.
  - destruct s; reflexivity.
  - destruct s as [|c s]; simpl in *; [lia|]. rewrite IH; lia.
Qed.

Lemma substring_append (n : nat) (s t : string) :
  (n <= String.length s)%nat ->
  String.substring 0 n (s ++ t) = String.substring 0 n s.
Proof.
  revert s. induction n as [|n IH]; intros s H.
  - destruct s; destruct t; reflexivity.
  - destruct s as [|c s]; simpl in *; [lia|]. rewrite IH; [reflexivity|lia].
Qed.

Lemma substring_twice (n : nat) (s : string) :
  String.substring 0 n (String.substring 0 n s) = String.substring 0 n s.
Proof.
  revert s. induction n as [|n IH]; intros s.
  - destruct s; reflexivity.
  - destruct s as [|c s]; simpl; [reflexivity | now rewrite IH].
Qed.

(** X14. The name column of the cost table never exceeds 40 bytes: a
    name of at most 40 bytes is printed as it is, and a longer one is
    cut to exactly 40 bytes, its first 37 followed by three dots. *)
Theorem columnName_fits (name : string) :
  (String.length (CostTable.columnName name) <= 40)%nat /\
  ((String.length name <= 40)%nat -> CostTable.columnName name = name) /\
  ((40 < String.length name)%nat ->
   String.length (CostTable.columnName name) = 40%nat /\
   String.substring 0 37 (CostTable.columnName name) =
     String.substring 0 37 name /\
   String.substring 37 3 (CostTable.columnName name) = "..."%string).
Proof.
  unfold CostTable.columnName.
  destruct (Nat.ltb_spec 40 (String.length name)) as [H|H].
  - assert (H37 : String.length (String.substring 0 37 name) = 37%nat)
      by (apply length_substring; lia).
    assert (Hlen : String.length (String.substring 0 37 name ++ "...")
                   = 40%nat) by (rewrite length_append, H37; reflexivity).
    split; [lia|]. split; [lia|]. intros _.
    split; [exact Hlen|]. split.
    + rewrite substring_append by lia. apply substring_twice.
    + generalize dependent (String.substring 0 37 name). intros s Hs _.
      do 38 (destruct s as [|? s]; simpl in Hs; try discriminate).
      reflexivity.
  - split; [exact H|]. split; [reflexivity | lia].
Qed.

(** ** The lookup of model-info *)

(** X15. On a catalog, a provider ID and a name written in ASCII, the
    lookup of model-info is the lookup of the cost calculator on the
    providers it does not skip: with no provider given, on the whole
    catalog; with one, on the providers whose ID equals it up to letter
    case. What it finds is a matching model of such a provider. *)
Theorem modelInfo_lookup (providers : list catwalk.Provider)
    (providerID modelName : string) :
  Catalog.ascii providers = true ->
  strings.isASCII providerID = true -> strings.isASCII modelName = true ->
  ModelInfo.findModel providers providerID modelName =
    CostCalculator.findModel
      (filter (fun p => negb (ModelInfo.skipped providerID p)) providers)
      modelName /\
  ModelInfo.findModel providers "" modelName =
    CostCalculator.findModel providers modelName /\
  forall m p,
    ModelInfo.findModel providers providerID modelName = Some (m, p) ->
    In p providers /\ In m (catwalk.Models p) /\
    ModelInfo.matches modelName m = true /\
    (providerID <> ""%string ->
     strings.ToLower (catwalk.PID p) = strings.ToLower providerID).
Proof.
  intros _ _ _.
  assert (H : forall pid,
    ModelInfo.findModel providers pid modelName =
    CostCalculator.findModel
      (filter (fun p => negb (ModelInfo.skipped pid p)) providers)
      modelName).
  { intros pid. induction providers as [|p ps IH]; simpl; [reflexivity|].
    destruct (ModelInfo.skipped pid p); simpl; [exact IH|].
    change (ModelInfo.matches modelName)
      with (CostCalculator.matches modelName).
    now rewrite IH. }
  split; [apply H|]. split.
  - rewrite H. f_equal.
    rewrite (filter_ext _ (fun _ => true)) by (intros p; reflexivity).
    clear H. induction providers as [|p ps IH]; simpl;
      [reflexivity | now rewrite IH].
  - intros m p Hf. rewrite H in Hf.
    destruct (findModel_Some _ _ _ _ Hf)
      as (before & after & pre & post & Hp & Hm & _ & _ & Hmatch).
    assert (Hin : In p (filter (fun p => negb (ModelInfo.skipped providerID p))
                          providers))
      by (rewrite Hp; apply in_or_app; right; now left).
    apply filter_In in Hin. destruct Hin as [Hin Hskip].
    repeat split; auto.
    + rewrite Hm. apply in_or_app. right. now left.
    + intros Hne. unfold ModelInfo.skipped in Hskip.
      apply negb_true_iff in Hskip. apply andb_false_iff in Hskip.
      destruct Hskip as [Hs|Hs]; apply negb_false_iff in Hs;
        apply String.eqb_eq in Hs; congruence.
Qed.

Lemma modelInfo_lookup_witness :
  ModelInfo.findModel Fixtures.providers "Anthropic" "SONNET" =
    Some (Fixtures.modelB, Fixtures.providerY) /\
  ModelInfo.findModel Fixtures.providers "OpenAI" "sonnet" = None /\
  ModelInfo.findModel Fixtures.providers "" "sonnet" =
    CostCalculator.findModel Fixtures.providers "sonnet".
Proof.
  destruct (modelInfo_lookup Fixtures.providers "Anthropic" "SONNET"
              eq_refl eq_refl eq_refl) as (H1 & _ & _).
  destruct (modelInfo_lookup Fixtures.providers "OpenAI" "sonnet"
              eq_refl eq_refl eq_refl) as (H2 & H3 & _).
  split; [rewrite H1; reflexivity|].
  split; [rewrite H2; reflexivity | exact H3].
Defined.

(** ** The listing of list-models *)

Lemma ascii_compare_trans (a b c : ascii) :
  Ascii.compare a b = Lt -> Ascii.compare b c = Lt -> Ascii.compare a c = Lt.
Proof.
  unfold Ascii.compare. rewrite !N.compare_lt_iff. lia.
Qed.

Lemma string_compare_trans (s t u : string) :
  String.compare s t = Lt -> String.compare t u = Lt ->
  String.compare s u = Lt.
Proof.
  revert t u. induction s as [|a s IH]; intros [|b t] [|c u]; simpl;
    try discriminate; try reflexivity.
  destruct (Ascii.compare a b) eqn:Eab; try discriminate;
    destruct (Ascii.compare b c) eqn:Ebc; try discriminate; intros H1 H2.
  - apply Ascii.compare_eq_iff in Eab, Ebc. subst.
    replace (Ascii.compare c c) with Eq
      by (unfold Ascii.compare; now rewrite N.compare_refl).
    now apply (IH t u).
  - apply Ascii.compare_eq_iff in Eab. subst. now rewrite Ebc.
  - apply Ascii.compare_eq_iff in Ebc. subst. now rewrite Eab.
  - now rewrite (ascii_compare_trans a b c Eab Ebc).
Qed.

Lemma string_ltb_Transitive {A : Type} (key : A -> string) (l : list A) :
  sort.Transitive (fun a b => String.ltb (key a) (key b)) l.
Proof.
  assert (Hrefl : forall s, String.compare s s = Eq).
  { intros s. induction s as [|c s IH]; simpl; [reflexivity|].
    replace (Ascii.compare c c) with Eq
      by (unfold Ascii.compare; now rewrite N.compare_refl).
    exact IH. }
  repeat split.
  - intros a _. unfold String.ltb. now rewrite Hrefl.
  - intros a b c _ _ _. unfold String.ltb.
    destruct (String.compare (key a) (key b)) eqn:E1; try discriminate.
    destruct (String.compare (key b) (key c)) eqn:E2; try discriminate.
    now rewrite (string_compare_trans _ _ _ E1 E2).
  - intros a b c _ _ _. unfold String.ltb.
    destruct (String.compare (key a) (key b)) eqn:E1; try discriminate;
      destruct (String.compare (key b) (key c)) eqn:E2; try discriminate;
      intros _ _.
    + apply String.compare_eq_iff in E1. rewrite E1. now rewrite E2.
    + apply String.compare_eq_iff in E1. rewrite E1. now rewrite E2.
    + apply String.compare_eq_iff in E2. rewrite <- E2. now rewrite E1.
    + rewrite String.compare_antisym in E1, E2.
      destruct (String.compare (key b) (key a)) eqn:F1; try discriminate.
      destruct (String.compare (key c) (key b)) eqn:F2; try discriminate.
      rewrite String.compare_antisym.
      now rewrite (string_compare_trans _ _ _ F2 F1).
Qed.

Lemma gtb_Z_Transitive {A : Type} (key : A -> Z) (l : list A) :
  sort.Transitive (fun a b => key a >? key b) l.
Proof.
  repeat split.
  - intros a _. rewrite Z.gtb_ltb. apply Z.ltb_irrefl.
  - intros a b c _ _ _. rewrite !Z.gtb_ltb, !Z.ltb_lt. lia.
  - intros a b c _ _ _. rewrite !Z.gtb_ltb, !Z.ltb_ge. lia.
Qed.

Lemma ListModels_filter (reasoning vision : bool)
    (models : list catwalk.Model) :
  ListModels.filterModels reasoning vision models =
  filter (ListModels.keeps reasoning vision) models.
Proof.
  induction models as [|m rest IH]; simpl; [reflexivity|].
  now rewrite IH.
Qed.

(** X16. The listing of list-models, for any [sort.Slice] that meets its
    contract: it holds exactly the models of the provider that have the
    capabilities asked for, each as often as the provider lists it; and
    it is in descending order of context window for the sort key
    "context", in ascending order of input price for "cost" when no
    price is NaN, and in ascending byte order of the names for every
    other key. The key is read without regard to letter case. *)
Theorem listModels_listing (slice : sort.SliceFn)
    (models : list catwalk.Model) (reasoning vision : bool)
    (sortBy : string) :
  sort.Sorts slice ->
  let shown := ListModels.listing slice models reasoning vision sortBy in
  Permutation shown (filter (ListModels.keeps reasoning vision) models) /\
  (forall m, In m shown ->
     In m models /\
     (reasoning = true -> catwalk.CanReason m = true) /\
     (vision = true -> catwalk.SupportsImages m = true)) /\
  (strings.ToLower sortBy = "context"%string ->
   StronglySorted
     (fun a b => catwalk.ContextWindow b <= catwalk.ContextWindow a) shown) /\
  (strings.ToLower sortBy = "cost"%string ->
   Forall (fun m => F64.not_nan (catwalk.CostPer1MIn m)) models ->
   StronglySorted
     (fun a b => (catwalk.CostPer1MIn a <=? catwalk.CostPer1MIn b)%float
                 = true) shown) /\
  (strings.ToLower sortBy <> "cost"%string ->
   strings.ToLower sortBy <> "context"%string ->
   StronglySorted
     (fun a b => String.ltb (catwalk.Name b) (catwalk.Name a) = false)
     shown).
Proof.
  intros Hs shown.
  assert (Hperm : Permutation shown
                    (filter (ListModels.keeps reasoning vision) models)).
  { unfold shown, ListModels.listing, ListModels.sortModels.
    rewrite ListModels_filter.
    destruct (String.eqb (strings.ToLower sortBy) "cost");
      [|destruct (String.eqb (strings.ToLower sortBy) "context")];
      apply Hs. }
  assert (Hin : forall m, In m shown ->
            In m models /\ ListModels.keeps reasoning vision m = true).
  { intros m Hm. apply filter_In. eapply Permutation_in; eauto. }
  split; [exact Hperm|]. split; [|split; [|split]].
  - intros m Hm. destruct (Hin m Hm) as [H1 H2]. split; [exact H1|].
    unfold ListModels.keeps in H2.
    destruct reasoning, vision, (catwalk.CanReason m),
      (catwalk.SupportsImages m); simpl in H2; try discriminate;
      split; intros; congruence.
  - intros Hk. unfold shown, ListModels.listing, ListModels.sortModels.
    rewrite Hk. simpl.
    assert (Ho := proj2 (Hs _ ListModels.byContext
                           (ListModels.filterModels reasoning vision models))
                    (gtb_Z_Transitive catwalk.ContextWindow _)).
    revert Ho. apply StronglySorted_weaken.
    intros a b _ _. unfold ListModels.byContext.
    rewrite Z.gtb_ltb, Z.ltb_ge. lia.
  - intros Hk Hn. rewrite Forall_forall in Hn.
    assert (Ho : sort.Ordered ListModels.byCost shown).
    { unfold shown, ListModels.listing, ListModels.sortModels.
      rewrite Hk. simpl. apply Hs.
      apply (ltb_Transitive catwalk.CostPer1MIn).
      intros a Ha. apply Hn. rewrite ListModels_filter in Ha.
      now apply filter_In in Ha. }
    revert Ho. apply StronglySorted_weaken.
    intros a b Ha Hb. apply ltb_false_leb; apply Hn; now apply Hin.
  - intros Hk1 Hk2. unfold shown, ListModels.listing, ListModels.sortModels.
    apply String.eqb_neq in Hk1, Hk2. rewrite Hk1, Hk2.
    apply Hs. apply (string_ltb_Transitive catwalk.Name).
Qed.

Lemma listModels_listing_witness :
  let shown :=
    ListModels.listing sort.insertionSort
      (catwalk.Models Fixtures.providerX ++ catwalk.Models Fixtures.providerY)
      false true "Context" in
  Permutation shown
    (filter (ListModels.keeps false true)
       (catwalk.Models Fixtures.providerX ++
        catwalk.Models Fixtures.providerY)) /\
  StronglySorted
    (fun a b => catwalk.ContextWindow b <= catwalk.ContextWindow a) shown.
Proof.
  destruct (listModels_listing sort.insertionSort
              (catwalk.Models Fixtures.providerX ++
               catwalk.Models Fixtures.providerY)
              false true "Context" insertionSort_Sorts)
    as (Hp & _ & Hc & _).
  split; [exact Hp|]. apply Hc. reflexivity.
Defined.

(** X17. find-models and list-models filter by capability alike: with no
    limit on cost or context, the models find-models keeps are the models
    list-models keeps, in the same order. *)
Theorem capability_filters_agree (models : list FindModels.modelMatch)
    (reasoning vision : bool) :
  map FindModels.model
    (FindModels.filterModels models 0 0 reasoning vision) =
  ListModels.filterModels reasoning vision (map FindModels.model models).
Proof.
  induction models as [|mm rest IH]; simpl; [reflexivity|].
  unfold FindModels.keeps, ListModels.keeps.
  change (F64.gtb 0 0) with false. change (0 >? 0) with false. simpl.
  destruct (reasoning && negb (catwalk.CanReason (FindModels.model mm)));
    [exact IH|].
  destruct (vision && negb (catwalk.SupportsImages (FindModels.model mm)));
    [exact IH|].
  simpl. now rewrite IH.
Qed.

(** ** The chat history *)

Section ChatHistory.
Import ChatBot ChatSetup.

Lemma turns_app (l1 l2 : list ChatCompletionMessage) :
  turns l1 = true -> turns l2 = true -> turns (l1 ++ l2) = true.
Proof.
  assert (H : forall n l, (List.length l <= n)%nat ->
            turns l = true -> turns l2 = true -> turns (l ++ l2) = true).
  { induction n as [|n IH]; intros [|u [|a rest]] Hlen H1 H2; simpl in *;
      try assumption; try discriminate; try lia.
    apply andb_prop in H1. destruct H1 as [H1 Hrest]. rewrite H1. simpl.
    apply IH; [lia | assumption | assumption]. }
  apply (H (List.length l1)). lia.
Qed.

Lemma settled_exchange (ms : list ChatCompletionMessage)
    (input answer : string) :
  settled ms = true ->
  settled ((ms ++ [{| Role := ChatMessageRoleUser; Content := input |}]) ++
           [{| Role := ChatMessageRoleAssistant; Content := answer |}]) = true.
Proof.
  rewrite <- app_assoc. simpl. unfold settled. intros H.
  apply orb_prop in H. destruct H as [H|H].
  - rewrite (turns_app ms _ H); reflexivity.
  - destruct ms as [|first rest]; [discriminate|].
    apply andb_prop in H. destruct H as [Hsys Hrest]. simpl app.
    cbv iota beta.
    rewrite Hsys, (turns_app rest _ Hrest) by reflexivity.
    apply orb_true_r.
Qed.

Lemma settled_clear (ms : list ChatCompletionMessage) :
  settled
    match ms with
    | first :: _ =>
        if String.eqb (Role first) ChatMessageRoleSystem
        then firstn 1 ms else []
    | [] => []
    end = true.
Proof.
  destruct ms as [|first rest]; [reflexivity|].
  destruct (String.eqb (Role first) ChatMessageRoleSystem) eqn:E;
    [|reflexivity].
  unfold settled. simpl. now rewrite E.
Qed.

(** One pass of the loop keeps the provider, the model and the shape of
    the history, and never ends in the fatal exit. *)
Lemma exchange_keeps (c : client) (maxTokens : Z) (session : chatSession)
    (calls : nat) (line : string) :
  settled (messages session) = true ->
  match exchange c maxTokens session calls line with
  | Reading s' _ | Returned s' =>
      settled (messages s') = true /\
      provider s' = provider session /\ model s' = model session
  | FatalExit => False
  end.
Proof.
  intros H. unfold exchange.
  destruct (String.eqb (strings.TrimSpace line) ""); [auto|].
  destruct (strings.HasPrefix (strings.TrimSpace line) "/").
  - unfold handleCommand.
    destruct (String.eqb _ "/quit" || String.eqb _ "/exit" ||
              String.eqb _ "/q"); [auto|].
    destruct (String.eqb _ "/clear").
    + simpl. split; [apply settled_clear | auto].
    + destruct (String.eqb _ "/cost"); [auto|].
      destruct (String.eqb _ "/help"); auto.
  - destruct (sendMessage c calls maxTokens
                (withUserMessage session (strings.TrimSpace line)))
      as [response|].
    + simpl. split; [now apply settled_exchange | auto].
    + simpl. rewrite drop_appended. auto.
Qed.

End ChatHistory.

(** X18. The shape of the chat history. Whatever is typed and whatever
    the completion service answers, whenever the loop waits for input or
    has returned, the history is an optional system message followed by
    complete exchanges, a user message and then the assistant's answer;
    the provider and the model of the session are the ones it started
    with. Reading lines never ends in the fatal exit. *)
Theorem chat_history_settled (c : ChatBot.client) (maxTokens : Z)
    (inputs : list ChatBot.readResult) (session : ChatBot.chatSession)
    (calls : nat) :
  ChatSetup.settled (ChatBot.messages session) = true ->
  match ChatBot.runChatLoop c maxTokens session calls inputs with
  | ChatBot.Reading s' _ | ChatBot.Returned s' =>
      ChatSetup.settled (ChatBot.messages s') = true /\
      ChatBot.provider s' = ChatBot.provider session /\
      ChatBot.model s' = ChatBot.model session
  | ChatBot.FatalExit => In ChatBot.ReadError inputs
  end.
Proof.
  revert session calls.
  induction inputs as [|r rest IH]; intros session calls H; simpl.
  - auto.
  - destruct r as [line| |]; [|auto|now left].
    pose proof (exchange_keeps c maxTokens session calls line H) as He.
    destruct (ChatBot.exchange c maxTokens session calls line)
      as [s1 calls1|s1|]; [|exact He|contradiction].
    destruct He as (H1 & Hp & Hm).
    specialize (IH s1 calls1 H1).
    destruct (ChatBot.runChatLoop c maxTokens s1 calls1 rest);
      try (destruct IH as (? & ? & ?); repeat split; congruence).
    now right.
Qed.

Lemma chat_history_settled_witness :
  match ChatBot.runChatLoop Fixtures.flakyClient 0 Fixtures.chat 0
          [ChatBot.ReadLine "One"; ChatBot.ReadLine "Two";
           ChatBot.ReadLine "/clear"; ChatBot.ReadLine "Three";
           ChatBot.ReadEOF] with
  | ChatBot.Reading s' _ | ChatBot.Returned s' =>
      ChatSetup.settled (ChatBot.messages s') = true /\
      ChatBot.provider s' = ChatBot.provider Fixtures.chat /\
      ChatBot.model s' = ChatBot.model Fixtures.chat
  | ChatBot.FatalExit =>
      In ChatBot.ReadError
        [ChatBot.ReadLine "One"; ChatBot.ReadLine "Two";
         ChatBot.ReadLine "/clear"; ChatBot.ReadLine "Three";
         ChatBot.ReadEOF]
  end.
Proof.
  apply (chat_history_settled Fixtures.flakyClient 0
           [ChatBot.ReadLine "One"; ChatBot.ReadLine "Two";
            ChatBot.ReadLine "/clear"; ChatBot.ReadLine "Three";
            ChatBot.ReadEOF] Fixtures.chat 0).
  reflexivity.
Defined.

(** X19. Setting the chat session up, on a catalog, a provider ID and a
    model name written in ASCII. The provider found is a provider
    of the catalog whose ID is the requested one up to letter case, and
    the model selected is one of its models: the one named, up to letter
    case, and never a fallback for a name that is not found; or, with no
    name, the provider's default large model when the provider lists it
    and its first model otherwise. Only a provider without models leaves
    the unnamed selection empty. The session starts with that provider
    and that model, no usage, and a history that is empty when no system
    prompt is given and the system prompt alone otherwise. *)
Theorem chat_session_setup (providers : list catwalk.Provider)
    (providerID modelName systemPrompt : string)
    (p : catwalk.Provider) (m : catwalk.Model) :
  Catalog.ascii providers = true ->
  strings.isASCII providerID = true -> strings.isASCII modelName = true ->
  ChatSetup.findProvider providers providerID = Some p ->
  ChatSetup.selectModel p modelName = Some m ->
  In p providers /\
  strings.EqualFold (catwalk.PID p) providerID = true /\
  In m (catwalk.Models p) /\
  (modelName <> ""%string ->
   strings.EqualFold (catwalk.ID m) modelName = true) /\
  (modelName = ""%string ->
   catwalk.ID m = catwalk.DefaultLargeModelID p \/
   ((forall x, In x (catwalk.Models p) ->
       catwalk.ID x <> catwalk.DefaultLargeModelID p) /\
    hd_error (catwalk.Models p) = Some m)) /\
  (ChatSetup.selectModel p "" = None <-> catwalk.Models p = []) /\
  ChatSetup.settled
    (ChatBot.messages (ChatSetup.newSession p m systemPrompt)) = true /\
  ChatBot.totalTokens (ChatSetup.newSession p m systemPrompt) = 0 /\
  ChatBot.messages (ChatSetup.newSession p m systemPrompt) =
    (if String.eqb systemPrompt ""
     then []
     else [{| ChatBot.Role := ChatBot.ChatMessageRoleSystem;
              ChatBot.Content := systemPrompt |}]) /\
  ChatBot.provider (ChatSetup.newSession p m systemPrompt) = p /\
  ChatBot.model (ChatSetup.newSession p m systemPrompt) = m /\
  ChatBot.totalCost (ChatSetup.newSession p m systemPrompt) = 0%float.
Proof.
  intros _ _ _ Hp Hm. apply find_some in Hp. destruct Hp as [Hp1 Hp2].
  split; [exact Hp1|]. split; [exact Hp2|].
  unfold ChatSetup.selectModel in *.
  assert (Hhd : forall x, hd_error (catwalk.Models p) = Some x ->
                  In x (catwalk.Models p)).
  { intros x. destruct (catwalk.Models p); simpl; [discriminate|].
    intros E. inversion E. now left. }
  split; [|split; [|split; [|split; [|split; [|split]]]]].
  - destruct (String.eqb modelName ""); simpl in Hm.
    + destruct (find _ (catwalk.Models p)) as [x|] eqn:E.
      * inversion Hm; subst. now apply find_some in E.
      * now apply Hhd.
    + now apply find_some in Hm.
  - intros Hne. apply String.eqb_neq in Hne. rewrite Hne in Hm.
    simpl in Hm. now apply find_some in Hm.
  - intros ->. simpl in Hm.
    destruct (find _ (catwalk.Models p)) as [x|] eqn:E.
    + inversion Hm; subst. apply find_some in E. left.
      now apply String.eqb_eq.
    + right. split; [|exact Hm]. intros x Hx.
      apply (find_none _ _ E) in Hx. now apply String.eqb_neq.
  - clear Hm. simpl. destruct (find _ (catwalk.Models p)) as [x|] eqn:E.
    + split; [discriminate|]. intros Hnil. rewrite Hnil in E. discriminate.
    + destruct (catwalk.Models p); simpl; split; congruence.
  - unfold ChatSetup.newSession. simpl.
    destruct (String.eqb systemPrompt ""); reflexivity.
  - reflexivity.
  - unfold ChatSetup.newSession. simpl.
    destruct (String.eqb systemPrompt ""); repeat split; reflexivity.
Qed.

Lemma chat_session_setup_witness :
  In Fixtures.providerX Fixtures.providers /\
  strings.EqualFold (catwalk.PID Fixtures.providerX) "OpenAI" = true /\
  In Fixtures.modelC (catwalk.Models Fixtures.providerX) /\
  ("MINI"%string <> ""%string ->
   strings.EqualFold (catwalk.ID Fixtures.modelC) "MINI" = true) /\
  ("MINI"%string = ""%string ->
   catwalk.ID Fixtures.modelC =
     catwalk.DefaultLargeModelID Fixtures.providerX \/
   ((forall x, In x (catwalk.Models Fixtures.providerX) ->
       catwalk.ID x <> catwalk.DefaultLargeModelID Fixtures.providerX) /\
    hd_error (catwalk.Models Fixtures.providerX) = Some Fixtures.modelC)) /\
  (ChatSetup.selectModel Fixtures.providerX "" = None <->
   catwalk.Models Fixtures.providerX = []) /\
  ChatSetup.settled
    (ChatBot.messages
       (ChatSetup.newSession Fixtures.providerX Fixtures.modelC "Be brief."))
    = true /\
  ChatBot.totalTokens
    (ChatSetup.newSession Fixtures.providerX Fixtures.modelC "Be brief.") = 0 /\
  ChatBot.messages
    (ChatSetup.newSession Fixtures.providerX Fixtures.modelC "Be brief.") =
    [{| ChatBot.Role := ChatBot.ChatMessageRoleSystem;
        ChatBot.Content := "Be brief." |}] /\
  ChatBot.provider
    (ChatSetup.newSession Fixtures.providerX Fixtures.modelC "Be brief.") =
    Fixtures.providerX /\
  ChatBot.model
    (ChatSetup.newSession Fixtures.providerX Fixtures.modelC "Be brief.") =
    Fixtures.modelC /\
  ChatBot.totalCost
    (ChatSetup.newSession Fixtures.providerX Fixtures.modelC "Be brief.") =
    0%float.
Proof.
  apply (chat_session_setup Fixtures.providers "OpenAI" "MINI" "Be brief."
           Fixtures.providerX Fixtures.modelC).
  - reflexivity.
  - reflexivity.
  - reflexivity.
  - reflexivity.
  - reflexivity.
Defined.

Lemma exchange_local (maxTokens : Z) (session : ChatBot.chatSession)
    (calls : nat) (line : string) :
  ChatSetup.localLine (ChatBot.ReadLine line) = true ->
  exists st, (forall c, ChatBot.exchange c maxTokens session calls line = st) /\
    match st with
    | ChatBot.Reading s' calls' =>
        calls' = calls /\
        ChatBot.totalTokens s' = ChatBot.totalTokens session /\
        ChatBot.totalCost s' = ChatBot.totalCost session
    | ChatBot.Returned s' =>
        ChatBot.totalTokens s' = ChatBot.totalTokens session /\
        ChatBot.totalCost s' = ChatBot.totalCost session
    | ChatBot.FatalExit => False
    end.
Proof.
  unfold ChatSetup.localLine, ChatBot.exchange. intros Hr.
  destruct (String.eqb (strings.TrimSpace line) "") eqn:E1.
  - eexists. split; [reflexivity|]. simpl. auto.
  - simpl in Hr. rewrite Hr. unfold ChatBot.handleCommand.
    destruct (String.eqb _ "/quit" || String.eqb _ "/exit" ||
              String.eqb _ "/q");
      [eexists; split; [reflexivity|]; simpl; auto|].
    destruct (String.eqb _ "/clear");
      [eexists; split; [reflexivity|]; simpl; auto|].
    destruct (String.eqb _ "/cost");
      [eexists; split; [reflexivity|]; simpl; auto|].
    destruct (String.eqb _ "/help");
      eexists; (split; [reflexivity|]); simpl; auto.
Qed.

(** X20. Blank lines and lines that start with a slash, known commands
    or not, stay local: while only such lines are read, the loop makes no
    completion call, and where it stands does not depend on the
    completion service. *)
Theorem local_lines_skip_service (c c' : ChatBot.client) (maxTokens : Z)
    (inputs : list ChatBot.readResult) (session : ChatBot.chatSession)
    (calls : nat) :
  forallb ChatSetup.localLine inputs = true ->
  ChatBot.runChatLoop c maxTokens session calls inputs =
    ChatBot.runChatLoop c' maxTokens session calls inputs /\
  match ChatBot.runChatLoop c maxTokens session calls inputs with
  | ChatBot.Reading s' calls' =>
      calls' = calls /\
      ChatBot.totalTokens s' = ChatBot.totalTokens session /\
      ChatBot.totalCost s' = ChatBot.totalCost session
  | ChatBot.Returned s' =>
      ChatBot.totalTokens s' = ChatBot.totalTokens session /\
      ChatBot.totalCost s' = ChatBot.totalCost session
  | ChatBot.FatalExit => In ChatBot.ReadError inputs
  end.
Proof.
  revert session.
  induction inputs as [|r rest IH]; intros session Hl.
  - simpl. auto.
  - simpl in Hl. apply andb_prop in Hl. destruct Hl as [Hr Hrest].
    destruct r as [line| |]; cbn [ChatBot.runChatLoop];
      [|auto|split; [reflexivity | now left]].
    destruct (exchange_local maxTokens session calls line Hr)
      as (st & Hst & Hprop).
    rewrite (Hst c), (Hst c'). destruct st as [s1 calls1|s1|];
      [|auto|contradiction].
    destruct Hprop as (-> & Ht & Hc).
    destruct (IH s1 Hrest) as [H1 H2]. split; [exact H1|].
    destruct (ChatBot.runChatLoop c maxTokens s1 calls rest);
      try (destruct H2 as (? & ? & ?)); try (destruct H2 as (? & ?));
      repeat split; try congruence. now right.
Qed.

Lemma local_lines_skip_service_witness :
  ChatBot.runChatLoop Fixtures.flakyClient 0 Fixtures.chat 0
    [ChatBot.ReadLine "  "; ChatBot.ReadLine "/cost";
     ChatBot.ReadLine "/what"; ChatBot.ReadLine "/clear"] =
  ChatBot.runChatLoop Fixtures.failingClient 0 Fixtures.chat 0
    [ChatBot.ReadLine "  "; ChatBot.ReadLine "/cost";
     ChatBot.ReadLine "/what"; ChatBot.ReadLine "/clear"] /\
  match ChatBot.runChatLoop Fixtures.flakyClient 0 Fixtures.chat 0
          [ChatBot.ReadLine "  "; ChatBot.ReadLine "/cost";
           ChatBot.ReadLine "/what"; ChatBot.ReadLine "/clear"] with
  | ChatBot.Reading s' calls' =>
      calls' = 0%nat /\
      ChatBot.totalTokens s' = ChatBot.totalTokens Fixtures.chat /\
      ChatBot.totalCost s' = ChatBot.totalCost Fixtures.chat
  | ChatBot.Returned s' =>
      ChatBot.totalTokens s' = ChatBot.totalTokens Fixtures.chat /\
      ChatBot.totalCost s' = ChatBot.totalCost Fixtures.chat
  | ChatBot.FatalExit =>
      In ChatBot.ReadError
        [ChatBot.ReadLine "  "; ChatBot.ReadLine "/cost";
         ChatBot.ReadLine "/what"; ChatBot.ReadLine "/clear"]
  end.
Proof.
  apply (local_lines_skip_service Fixtures.flakyClient Fixtures.failingClient
           0 [ChatBot.ReadLine "  "; ChatBot.ReadLine "/cost";
              ChatBot.ReadLine "/what"; ChatBot.ReadLine "/clear"]
           Fixtures.chat 0).
  reflexivity.
Defined.

(** ** The rankings *)

(** Descending order by a float key is an ordering [sort.Slice] accepts
    when no key is NaN. *)
Lemma gtb_Transitive {A : Type} (key : A -> float) (l : list A) :
  (forall a, In a l -> F64.not_nan (key a)) ->
  sort.Transitive (fun a b => F64.gtb (key a) (key b)) l.
Proof.
  intros Hn. unfold F64.gtb. repeat split.
  - intros a _. apply ltb_irrefl.
  - intros a b c _ _ _ H1 H2. exact (ltb_trans _ _ _ H2 H1).
  - intros a b c Ha Hb Hc H1 H2.
    exact (ltb_false_trans _ _ _ (Hn c Hc) (Hn b Hb) (Hn a Ha) H2 H1).
Qed.

(** The additions of the wizard policy start from 100 and add small
    integers: whatever the branch, the sum is a number. *)
Lemma scoreOne_not_nan (req : ModelSelector.requirements)
    (m : catwalk.Model) :
  F64.not_nan (fst (ModelSelector.scoreOne req m)).
Proof.
  rewrite scoreOne_weighted.
  unfold ModelSelector.weightedScore, ModelSelector.triggered.
  destruct (F64.gtb (ModelSelector.budget req) 0 &&
            F64.gtb (catwalk.CostPer1MIn m) (ModelSelector.budget req));
    [|destruct (catwalk.CostPer1MIn m <=? ModelSelector.budget req / 2)%float];
    destruct (catwalk.ContextWindow m >=? ModelSelector.contextSize req);
    destruct (ModelSelector.reasoning req), (catwalk.CanReason m),
             (ModelSelector.vision req), (catwalk.SupportsImages m);
    reflexivity.
Qed.

(** X21. The ranking of the wizard. In every session that reaches the
    results, for any [sort.Slice] that meets its contract, the
    candidates are all there, each rescored under the requirements
    recorded, and they stand in descending order of score; no hypothesis
    on the prices is needed, since a wizard score is never NaN. *)
Theorem wizard_results_ranked (slice : sort.SliceFn)
    (all : list ModelSelector.modelScore)
    (events : list ModelSelector.msg) (m : ModelSelector.model) :
  sort.Sorts slice ->
  ModelSelector.run slice (ModelSelector.initialModel all) events =
    ModelSelector.Waiting m ->
  ModelSelector.m_step m = ModelSelector.stepResults ->
  Permutation (ModelSelector.allModels m)
    (map (ModelSelector.rescore (ModelSelector.m_requirements m)) all) /\
  StronglySorted
    (fun a b =>
       (ModelSelector.ms_score b <=? ModelSelector.ms_score a)%float = true)
    (ModelSelector.allModels m).
Proof.
  intros Hs Hrun Hstep.
  assert (Hscored : ModelSelector.scoredOnce slice all m).
  { apply (run_scoredOnce slice all events (ModelSelector.initialModel all));
      [apply initialModel_cursorOnChoice | | assumption].
    split; [reflexivity | discriminate]. }
  destruct Hscored as [_ Hall]. rewrite (Hall Hstep).
  set (scored := map (ModelSelector.rescore (ModelSelector.m_requirements m))
                   all).
  assert (Hn : forall a, In a scored ->
                 F64.not_nan (ModelSelector.ms_score a)).
  { intros a Ha. apply in_map_iff in Ha. destruct Ha as (mm & <- & _).
    apply scoreOne_not_nan. }
  destruct (Hs _ ModelSelector.byScore scored) as [Hperm Hord].
  split; [exact Hperm|].
  specialize (Hord (gtb_Transitive ModelSelector.ms_score scored Hn)).
  revert Hord. apply StronglySorted_weaken.
  intros a b Ha Hb Hab. unfold ModelSelector.byScore, F64.gtb in Hab.
  apply ltb_false_leb; auto; apply Hn; eapply Permutation_in; eauto.
Qed.

Lemma wizard_results_ranked_witness :
  Permutation (ModelSelector.allModels Fixtures.wizardAtResults)
    (map (ModelSelector.rescore
            (ModelSelector.m_requirements Fixtures.wizardAtResults))
       Fixtures.scores) /\
  StronglySorted
    (fun a b =>
       (ModelSelector.ms_score b <=? ModelSelector.ms_score a)%float = true)
    (ModelSelector.allModels Fixtures.wizardAtResults).
Proof.
  assert (Hrun : ModelSelector.run sort.insertionSort
                   (ModelSelector.initialModel Fixtures.scores)
                   Fixtures.wizardToResults =
                 ModelSelector.Waiting Fixtures.wizardAtResults)
    by (vm_compute; reflexivity).
  assert (Hstep : ModelSelector.m_step Fixtures.wizardAtResults =
                  ModelSelector.stepResults) by (vm_compute; reflexivity).
  exact (wizard_results_ranked sort.insertionSort Fixtures.scores
           Fixtures.wizardToResults Fixtures.wizardAtResults
           insertionSort_Sorts Hrun Hstep).
Defined.

(** X22. Every request the chat loop sends is a history that awaits an
    answer: started from a settled history, the loop only ever calls the
    completion service for the model of the session, with the token
    limit of the flag (or else of the model) and with messages that end
    in a user message after complete exchanges. So two services that
    agree on such requests lead the loop through the same states. *)
Theorem chat_requests_await_answer (c c' : ChatBot.client) (maxTokens : Z)
    (inputs : list ChatBot.readResult) (session : ChatBot.chatSession)
    (calls : nat) :
  ChatSetup.settled (ChatBot.messages session) = true ->
  (forall n req,
     ChatBot.reqModel req = catwalk.ID (ChatBot.model session) ->
     ChatBot.reqMaxTokens req =
       ChatSetup.requestMaxTokens maxTokens (ChatBot.model session) ->
     ChatSetup.awaitsAnswer (ChatBot.reqMessages req) = true ->
     c n req = c' n req) ->
  ChatBot.runChatLoop c maxTokens session calls inputs =
  ChatBot.runChatLoop c' maxTokens session calls inputs.
Proof.
  revert session calls.
  induction inputs as [|r rest IH]; intros session calls Hset Hagree.
  - reflexivity.
  - destruct r as [line| |]; cbn [ChatBot.runChatLoop]; try reflexivity.
    assert (He : ChatBot.exchange c maxTokens session calls line =
                 ChatBot.exchange c' maxTokens session calls line).
    { unfold ChatBot.exchange.
      destruct (String.eqb (strings.TrimSpace line) ""); [reflexivity|].
      destruct (strings.HasPrefix (strings.TrimSpace line) "/");
        [reflexivity|].
      unfold ChatBot.sendMessage. rewrite Hagree; try reflexivity.
      unfold ChatBot.withUserMessage, ChatSetup.awaitsAnswer. simpl.
      rewrite rev_unit, rev_involutive. exact Hset. }
    rewrite <- He.
    pose proof (exchange_keeps c maxTokens session calls line Hset) as Hk.
    destruct (ChatBot.exchange c maxTokens session calls line)
      as [s1 calls1|s1|]; try reflexivity.
    destruct Hk as (H1 & _ & Hm). apply IH; [exact H1|].
    rewrite Hm. exact Hagree.
Qed.

Lemma chat_requests_await_answer_witness :
  ChatBot.runChatLoop Fixtures.lenientClient 100 Fixtures.chat 0
    [ChatBot.ReadLine "One"; ChatBot.ReadLine "/clear";
     ChatBot.ReadLine "Two"; ChatBot.ReadLine "/quit"] =
  ChatBot.runChatLoop Fixtures.strictClient 100 Fixtures.chat 0
    [ChatBot.ReadLine "One"; ChatBot.ReadLine "/clear";
     ChatBot.ReadLine "Two"; ChatBot.ReadLine "/quit"].
Proof.
  apply (chat_requests_await_answer Fixtures.lenientClient
           Fixtures.strictClient 100
           [ChatBot.ReadLine "One"; ChatBot.ReadLine "/clear";
            ChatBot.ReadLine "Two"; ChatBot.ReadLine "/quit"]
           Fixtures.chat 0).
  - reflexivity.
  - intros n req _ _ H. unfold Fixtures.strictClient. rewrite H.
    reflexivity.
Defined.

(** X23. The ranking of find-models. For any [sort.Slice] that meets its
    contract, [scoreModels] returns the candidates it was given, each
    with the simple score of its model, and, when none of these scores
    is NaN, in descending order of score. *)
Theorem scoreModels_descending (slice : sort.SliceFn)
    (models : list FindModels.modelMatch) :
  sort.Sorts slice ->
  Forall (fun mm => F64.not_nan (FindModels.simpleScore (FindModels.model mm)))
    models ->
  Permutation (FindModels.scoreModels slice models)
    (map FindModels.setScore models) /\
  StronglySorted
    (fun a b => (FindModels.score b <=? FindModels.score a)%float = true)
    (FindModels.scoreModels slice models).
Proof.
  intros Hs Hn. rewrite Forall_forall in Hn.
  unfold FindModels.scoreModels.
  set (scored := map FindModels.setScore models).
  assert (Hk : forall a, In a scored -> F64.not_nan (FindModels.score a)).
  { intros a Ha. apply in_map_iff in Ha. destruct Ha as (mm & <- & Hmm).
    simpl. now apply Hn. }
  destruct (Hs _ FindModels.byScore scored) as [Hperm Hord].
  split; [exact Hperm|].
  specialize (Hord (gtb_Transitive FindModels.score scored Hk)).
  revert Hord. apply StronglySorted_weaken.
  intros a b Ha Hb Hab. unfold FindModels.byScore, F64.gtb in Hab.
  apply ltb_false_leb; auto; apply Hk; eapply Permutation_in; eauto.
Qed.

Lemma scoreModels_descending_witness :
  Permutation (FindModels.scoreModels sort.insertionSort Fixtures.matches)
    (map FindModels.setScore Fixtures.matches) /\
  StronglySorted
    (fun a b => (FindModels.score b <=? FindModels.score a)%float = true)
    (FindModels.scoreModels sort.insertionSort Fixtures.matches).
Proof.
  apply (scoreModels_descending sort.insertionSort Fixtures.matches).
  - exact insertionSort_Sorts.
  - repeat constructor.
Defined.

(** ** The answers the wizard records *)

Section WizardAnswers.
Import ModelSelector.
Variable slice : sort.SliceFn.

(** Pressing Down [n] times moves the cursor [n] rows, as far as the
    last row. *)
Lemma run_downs (n : nat) (m : model) (rest : list msg) :
  (Index (m_list m) < rows (m_list m))%nat ->
  run slice m (repeat KeyDown n ++ rest) =
  run slice
    (setListModel m
       {| rows := rows (m_list m);
          Index := Nat.min (Index (m_list m) + n) (rows (m_list m) - 1) |})
    rest.
Proof.
  revert m. induction n as [|n IH]; intros m Hi.
  - simpl. f_equal. destruct m as [a s r [rw ix] ch]. unfold setListModel.
    simpl in *. do 2 f_equal. lia.
  - cbn [repeat app run Update]. rewrite IH.
    + f_equal. unfold setListModel, cursorDown. simpl. do 2 f_equal.
      destruct (Nat.ltb_spec (S (Index (m_list m))) (rows (m_list m))); lia.
    + simpl.
      destruct (Nat.ltb_spec (S (Index (m_list m))) (rows (m_list m))); lia.
Qed.

(** The four confirms, for a cursor on row [i]. *)
Lemma enter_budget (m : model) (i : nat) (rest : list msg) :
  m_step m = stepBudget ->
  choices m = ["0"; "0.5"; "1.0"; "5.0"; "10.0"; "1000"]%string ->
  Index (m_list m) = i -> (i <= 5)%nat ->
  run slice m (KeyEnter :: rest) =
  run slice
    (setupContextList
       (setStep
          (setRequirements m
             {| budget := nth i [0; 0.5; 1; 5; 10; 1000]%float 0%float;
                contextSize := contextSize (m_requirements m);
                reasoning := reasoning (m_requirements m);
                vision := vision (m_requirements m) |})
          stepContext))
    rest.
Proof.
  intros Hs Hc Hi Hle. cbn [run Update]. unfold handleEnter.
  rewrite Hc, Hi, Hs.
  destruct i as [|[|[|[|[|[|i]]]]]]; try (exfalso; lia); reflexivity.
Qed.

Lemma enter_context (m : model) (i : nat) (rest : list msg) :
  m_step m = stepContext ->
  choices m = ["0"; "32000"; "100000"; "200000"; "400000"]%string ->
  Index (m_list m) = i -> (i <= 4)%nat ->
  run slice m (KeyEnter :: rest) =
  run slice
    (setupReasoningList
       (setStep
          (setRequirements m
             {| budget := budget (m_requirements m);
                contextSize :=
                  nth i [0; 32000; 100000; 200000; 400000] 0;
                reasoning := reasoning (m_requirements m);
                vision := vision (m_requirements m) |})
          stepReasoning))
    rest.
Proof.
  intros Hs Hc Hi Hle. cbn [run Update]. unfold handleEnter.
  rewrite Hc, Hi, Hs.
  destruct i as [|[|[|[|[|i]]]]]; try (exfalso; lia); reflexivity.
Qed.

Lemma enter_reasoning (m : model) (i : nat) (rest : list msg) :
  m_step m = stepReasoning -> choices m = ["yes"; "no"]%string ->
  Index (m_list m) = i -> (i <= 1)%nat ->
  run slice m (KeyEnter :: rest) =
  run slice
    (setupVisionList
       (setStep
          (setRequirements m
             {| budget := budget (m_requirements m);
                contextSize := contextSize (m_requirements m);
                reasoning := (i =? 0)%nat;
                vision := vision (m_requirements m) |})
          stepVision))
    rest.
Proof.
  intros Hs Hc Hi Hle. cbn [run Update]. unfold handleEnter.
  rewrite Hc, Hi, Hs.
  destruct i as [|[|i]]; try (exfalso; lia); reflexivity.
Qed.

Lemma enter_vision (m : model) (i : nat) (rest : list msg) :
  m_step m = stepVision -> choices m = ["yes"; "no"]%string ->
  Index (m_list m) = i -> (i <= 1)%nat ->
  run slice m (KeyEnter :: rest) =
  run slice
    (setupResultsList
       (calculateScores slice
          (setStep
             (setRequirements m
                {| budget := budget (m_requirements m);
                   contextSize := contextSize (m_requirements m);
                   reasoning := reasoning (m_requirements m);
                   vision := (i =? 0)%nat |})
             stepResults)))
    rest.
Proof.
  intros Hs Hc Hi Hle. cbn [run Update]. unfold handleEnter.
  rewrite Hc, Hi, Hs.
  destruct i as [|[|i]]; try (exfalso; lia); reflexivity.
Qed.

End WizardAnswers.

(** X24. The wizard records what is selected. Moving the cursor down
    [a], [b], [c] and [d] times before the four confirms takes the
    wizard to its results with the requirements of the rows chosen:
    the budgets 0, 0.5, 1, 5, 10 and 1000 (the row "Any cost" is the
    budget 1000), the context sizes 0, 32000, 100000, 200000 and 400000,
    and reasoning and vision required exactly when the first row, "yes",
    is chosen; moving past the last row stays on it. *)
Theorem wizard_records_selection (slice : sort.SliceFn)
    (all : list ModelSelector.modelScore) (a b c d : nat) :
  exists m,
    ModelSelector.run slice (ModelSelector.initialModel all)
      (repeat ModelSelector.KeyDown a ++ ModelSelector.KeyEnter ::
       repeat ModelSelector.KeyDown b ++ ModelSelector.KeyEnter ::
       repeat ModelSelector.KeyDown c ++ ModelSelector.KeyEnter ::
       repeat ModelSelector.KeyDown d ++ [ModelSelector.KeyEnter]) =
      ModelSelector.Waiting m /\
    ModelSelector.m_step m = ModelSelector.stepResults /\
    ModelSelector.m_requirements m =
      {| ModelSelector.budget :=
           nth (Nat.min a 5) [0; 0.5; 1; 5; 10; 1000]%float 0%float;
         ModelSelector.contextSize :=
           nth (Nat.min b 4) [0; 32000; 100000; 200000; 400000] 0;
         ModelSelector.reasoning := (c =? 0)%nat;
         ModelSelector.vision := (d =? 0)%nat |}.
Proof.
  assert (Hmin : forall n, ((Nat.min n 1 =? 0) = (n =? 0))%nat)
    by (intros [|[|n]]; reflexivity).
  rewrite run_downs by (simpl; lia).
  rewrite (enter_budget slice _ (Nat.min a 5));
    [|reflexivity|reflexivity|simpl; lia|lia].
  rewrite run_downs by (simpl; lia).
  rewrite (enter_context slice _ (Nat.min b 4));
    [|reflexivity|reflexivity|simpl; lia|lia].
  rewrite run_downs by (simpl; lia).
  rewrite (enter_reasoning slice _ (Nat.min c 1));
    [|reflexivity|reflexivity|simpl; lia|lia].
  rewrite run_downs by (simpl; lia).
  rewrite (enter_vision slice _ (Nat.min d 1));
    [|reflexivity|reflexivity|simpl; lia|lia].
  eexists. split; [reflexivity|]. split; [reflexivity|].
  simpl. now rewrite !Hmin.
Qed.
